(** * docklift.config: the configuration schema of docklift

    A shallow embedding of [src/docklift/config.py]: the four pydantic models
    ([VPSConfig], [ServiceConfig], [ApplicationConfig], [DockLiftConfig]), the
    field validator [validate_ssh_key_path] and the two file operations
    [from_yaml] and [to_yaml].

    The module leans on three libraries that are not part of the repository.
    They are modelled as far as the code under verification uses them:
    - [pathlib] (module [PathLib]): parsing of POSIX paths, [str], [parent],
      [expanduser], and the file-system calls [exists], [is_dir], [mkdir];
    - [pydantic] (module [Pydantic]): lax-mode validation of the field types
      that occur in the models, with the error accumulation of
      [ValidationError];
    - [yaml] (section variables of [Config]): the text layer of PyYAML is a
      pair of functions, the emitter and the loader; what [yaml.dump] does
      before emitting (sorting the items of every mapping) is modelled. *)

From Stdlib Require Import ZArith String Ascii List Bool Permutation Lia.
From Stdlib Require DecimalString.
From stdpp Require Import base option list gmap strings sorting.

Set Warnings "-register-all".
Set Default Proof Using "Type".
Local Open Scope Z_scope.

(** ** Python values *)

(** The values that reach the models: what [yaml.safe_load] builds, and what a
    caller may pass for a field of type [Any].  Floats, dates and byte strings
    are left out; a [dict] is an association list in insertion order, its keys
    are strings (the only keys that keyword arguments and [dict[str, ...]] accept). *)
Inductive pyval : Type :=
| PNone
| PBool (b : bool)
| PInt (z : Z)
| PStr (s : string)
| PList (l : list pyval)
| PTuple (l : list pyval)
| PDict (d : list (string * pyval)).

(** [type(v).__name__] *)
Definition type_name (v : pyval) : string :=
  match v with
  | PNone => "NoneType"
  | PBool _ => "bool"
  | PInt _ => "int"
  | PStr _ => "str"
  | PList _ => "list"
  | PTuple _ => "tuple"
  | PDict _ => "dict"
  end.

(** [d.get(k)] on an association list: the first binding of [k]. *)
Fixpoint assoc {A : Type} (k : string) (d : list (string * A)) : option A :=
  match d with
  | [] => None
  | (k', v) :: d' => if String.eqb k' k then Some v else assoc k d'
  end.

(** The keys of a dict, in insertion order. *)
Definition keys {A : Type} (d : list (string * A)) : list string := map fst d.

(** ** Exceptions *)

(** One entry of [ValidationError.errors()]: the error type, the location of
    the offending input (field names, dict keys, list indices) and the
    message. *)
Inductive loc_item : Type :=
| LKey (k : string)
| LIdx (i : nat).

Record line_error : Type := LineError {
  err_type : string;
  err_loc : list loc_item;
  err_msg : string
}.

(** The exceptions that the code raises or lets through. *)
Inductive exn : Type :=
| FileNotFoundError (msg : string)
| FileExistsError (msg : string)
| IsADirectoryError (msg : string)
| NotADirectoryError (msg : string)
| RuntimeError (msg : string)
| TypeError (msg : string)
| ValueError (msg : string)
| YAMLError (msg : string)
| ValidationError (title : string) (errors : list line_error).

(** A computation that returns or raises. *)
Inductive result (A : Type) : Type :=
| Ok (a : A)
| Raise (e : exn).
Arguments Ok {A} a.
Arguments Raise {A} e.

#[global] Instance result_ret : MRet result := fun A a => Ok a.
#[global] Instance result_bind : MBind result := fun A B k r =>
  match r with
  | Ok a => k a
  | Raise e => Raise e
  end.

(** ** pathlib *)

Module PathLib.

(** [s.split(sep)]: the pieces between the separators, empty ones kept. *)
Fixpoint split (sep : ascii) (s : string) : list string :=
  match s with
  | EmptyString => [EmptyString]
  | String c s' =>
      if Ascii.eqb c sep then EmptyString :: split sep s'
      else match split sep s' with
           | [] => [String c EmptyString]
           | w :: ws => String c w :: ws
           end
  end.

(** [sep.join(l)] *)
Definition join (sep : string) (l : list string) : string := String.concat sep l.

(** [s[:1] == c] *)
Definition starts_with (c : ascii) (s : string) : bool :=
  match s with
  | String c' _ => Ascii.eqb c' c
  | EmptyString => false
  end.

(** [s.rstrip(c)] *)
Fixpoint rstrip (c : ascii) (s : string) : string :=
  match s with
  | EmptyString => EmptyString
  | String c' s' =>
      match rstrip c s' with
      | EmptyString => if Ascii.eqb c' c then EmptyString else String c' EmptyString
      | r => String c' r
      end
  end.

(** A parsed POSIX path: the root ([""], ["/"] or ["//"]) and the components
    after it.  POSIX paths have no drive. *)
Record PurePath : Type := MkPath {
  root : string;
  tail : list string
}.

(** [s[1:]] *)
Definition behead (s : string) : string :=
  match s with
  | String _ r => r
  | EmptyString => EmptyString
  end.

(** [posixpath.splitroot]: exactly two leading slashes are kept as a root of
    their own, any other number of leading slashes is the root ["/"]. *)
Definition splitroot (p : string) : string * string :=
  if negb (starts_with "/" p) then ("", p)
  else if negb (starts_with "/" (behead p)) || starts_with "/" (behead (behead p))
  then ("/", behead p)
  else ("//", behead (behead p)).

(** [PurePath._parse_path]: empty components and ["."] are dropped. *)
Definition keep_part (x : string) : bool :=
  negb (String.eqb x "") && negb (String.eqb x ".").

Definition parse_path (path : string) : PurePath :=
  match path with
  | EmptyString => MkPath "" []
  | _ => let '(rt, rel) := splitroot path in
         MkPath rt (List.filter keep_part (split "/" rel))
  end.

(** [Path(v)] *)
Definition Path (v : string) : PurePath := parse_path v.

(** [str(path)]: root and components joined by ["/"]; the empty path is ["."]. *)
Definition str (p : PurePath) : string :=
  match root p, tail p with
  | EmptyString, [] => "."
  | rt, tl => rt +:+ join "/" tl
  end.

(** [path.is_absolute()] *)
Definition is_absolute (p : PurePath) : bool := negb (String.eqb (root p) "").

(** [path.parent]: the path without its last component; a path with no
    component is its own parent. *)
Definition parent (p : PurePath) : PurePath :=
  MkPath (root p) (removelast (tail p)).

Section Expanduser.

(** The home directory of the account named after the tilde: [userhome ""] is
    the caller's own ([$HOME], else the password database), [userhome name]
    that of [~name]; [None] when the lookup fails. *)
Variable userhome : string -> option string.

(** [os.path.expanduser] on a single component that starts with a tilde. *)
Definition os_expanduser (part : string) : string :=
  if negb (starts_with "~" part) then part
  else
    match userhome (behead part) with
    | None => part
    | Some home =>
        match rstrip "/" home with
        | EmptyString => "/"
        | h => h
        end
    end.

(** [Path.expanduser]: only a relative path whose first component starts with
    a tilde is rewritten. *)
Definition expanduser (p : PurePath) : result PurePath :=
  match root p, tail p with
  | EmptyString, first :: rest =>
      if starts_with "~" first then
        let homedir := os_expanduser first in
        if starts_with "~" homedir then
          Raise (RuntimeError "Could not determine home directory.")
        else
          let h := parse_path homedir in
          Ok (MkPath (root h) (tail h ++ rest))
      else Ok p
  | _, _ => Ok p
  end.

End Expanduser.

End PathLib.

(** ** The local file system *)

Module OS.
Import PathLib.

(** What a path names: a regular file with its text, or a directory. *)
Inductive entry : Type :=
| File (content : string)
| Dir.

(** The file system maps the string of a path to what it names.  Paths are
    looked up as they are spelled ([".."] and symbolic links are not
    resolved); the root and the working directory (the paths without a
    component) always exist. *)
Abbreviation filesystem := (gmap string entry).

(** [os.stat] *)
Definition stat (fs : filesystem) (p : PurePath) : option entry :=
  match tail p with
  | [] => Some Dir
  | _ => fs !! str p
  end.

(** [path.exists()] *)
Definition path_exists (fs : filesystem) (p : PurePath) : bool :=
  match stat fs p with
  | Some _ => true
  | None => false
  end.

(** [path.is_dir()] *)
Definition is_dir (fs : filesystem) (p : PurePath) : bool :=
  match stat fs p with
  | Some Dir => true
  | _ => false
  end.

(** [os.mkdir]: the parent must be a directory and the path itself free. *)
Definition os_mkdir (fs : filesystem) (p : PurePath) : result filesystem :=
  match stat fs (parent p) with
  | None => Raise (FileNotFoundError (str p))
  | Some (File _) => Raise (NotADirectoryError (str p))
  | Some Dir =>
      match stat fs p with
      | Some _ => Raise (FileExistsError (str p))
      | None => Ok (<[str p := Dir]> fs)
      end
  end.

#[global] Instance PurePath_eq_dec : EqDecision PurePath.
Proof. solve_decision. Defined.

(** [Path.mkdir(parents, exist_ok)]: a missing parent is created first when
    [parents] is set; an existing directory is accepted when [exist_ok] is
    set.  The recursion follows [parent]; [fuel] bounds its depth, and Python
    raises a [RecursionError] (a [RuntimeError]) when its own bound is hit. *)
Fixpoint mkdir_fuel (fuel : nat) (p : PurePath) (parents exist_ok : bool)
    (fs : filesystem) : result filesystem :=
  match os_mkdir fs p with
  | Ok fs' => Ok fs'
  | Raise (FileNotFoundError m) =>
      if negb parents || bool_decide (parent p = p) then Raise (FileNotFoundError m)
      else
        match fuel with
        | O => Raise (RuntimeError "maximum recursion depth exceeded")
        | S fuel' =>
            fs1 ← mkdir_fuel fuel' (parent p) true true fs;
            mkdir_fuel fuel' p false exist_ok fs1
        end
  | Raise e =>
      if negb exist_ok || negb (is_dir fs p) then Raise e else Ok fs
  end.

Definition mkdir (p : PurePath) (parents exist_ok : bool) (fs : filesystem)
    : result filesystem :=
  mkdir_fuel (length (tail p)) p parents exist_ok fs.

(** [open(path)] followed by reading the whole file. *)
Definition open_read (fs : filesystem) (p : PurePath) : result string :=
  match stat fs p with
  | None => Raise (FileNotFoundError (str p))
  | Some Dir => Raise (IsADirectoryError (str p))
  | Some (File c) => Ok c
  end.

(** [open(path, "w")]: the file is created, or emptied when it exists. *)
Definition open_write (fs : filesystem) (p : PurePath) : result filesystem :=
  match stat fs (parent p) with
  | None => Raise (FileNotFoundError (str p))
  | Some (File _) => Raise (NotADirectoryError (str p))
  | Some Dir =>
      match stat fs p with
      | Some Dir => Raise (IsADirectoryError (str p))
      | _ => Ok (<[str p := File ""]> fs)
      end
  end.

(** Writing [text] to the file opened at [p] and closing it. *)
Definition write (fs : filesystem) (p : PurePath) (text : string) : filesystem :=
  <[str p := File text]> fs.

End OS.

(** ** pydantic *)

Module Pydantic.

(** The outcome of validating one input: the validated value, the line errors
    collected so far, or an exception that is no validation failure and ends
    the validation at once. *)
Inductive vres (A : Type) : Type :=
| VOk (a : A)
| VErr (errs : list line_error)
| VRaise (e : exn).
Arguments VOk {A} a.
Arguments VErr {A} errs.
Arguments VRaise {A} e.

Definition error {A : Type} (ty msg : string) : vres A :=
  VErr [LineError ty [] msg].

Definition prefix_loc (i : loc_item) (e : line_error) : line_error :=
  LineError (err_type e) (i :: err_loc e) (err_msg e).

(** Errors found below a field, key or index are reported under it. *)
Definition at_loc {A : Type} (i : loc_item) (r : vres A) : vres A :=
  match r with
  | VErr errs => VErr (map (prefix_loc i) errs)
  | _ => r
  end.

(** Validation goes on after a failure and reports every error; only an
    exception stops it. *)
Definition vap {A B : Type} (f : vres (A -> B)) (x : vres A) : vres B :=
  match f with
  | VRaise e => VRaise e
  | VOk g =>
      match x with
      | VOk a => VOk (g a)
      | VErr errs => VErr errs
      | VRaise e => VRaise e
      end
  | VErr errs1 =>
      match x with
      | VOk _ => VErr errs1
      | VErr errs2 => VErr (errs1 ++ errs2)
      | VRaise e => VRaise e
      end
  end.

Notation "f <*> x" := (vap f x) (at level 51, left associativity).

(** [str]: only a string is accepted. *)
Definition str_validator (v : pyval) : vres string :=
  match v with
  | PStr s => VOk s
  | _ => error "string_type" "Input should be a valid string"
  end.

(** [Any] *)
Definition any_validator (v : pyval) : vres pyval := VOk v.

(** [T | None] *)
Definition nullable {A : Type} (val : pyval -> vres A) (v : pyval)
    : vres (option A) :=
  match v with
  | PNone => VOk None
  | _ => VOk Some <*> val v
  end.

Fixpoint list_items {A : Type} (val : pyval -> vres A) (i : nat)
    (l : list pyval) : vres (list A) :=
  match l with
  | [] => VOk []
  | x :: l' => VOk cons <*> at_loc (LIdx i) (val x) <*> list_items val (S i) l'
  end.

(** [list[T]]: in lax mode a tuple is accepted as well. *)
Definition list_validator {A : Type} (val : pyval -> vres A) (v : pyval)
    : vres (list A) :=
  match v with
  | PList l | PTuple l => list_items val 0 l
  | _ => error "list_type" "Input should be a valid list"
  end.

Fixpoint dict_items {A : Type} (val : pyval -> vres A)
    (d : list (string * pyval)) : vres (list (string * A)) :=
  match d with
  | [] => VOk []
  | (k, x) :: d' =>
      VOk (fun a r => (k, a) :: r) <*> at_loc (LKey k) (val x) <*> dict_items val d'
  end.

(** [dict[str, T]]: the items are validated in order and kept in order. *)
Definition dict_validator {A : Type} (val : pyval -> vres A) (v : pyval)
    : vres (list (string * A)) :=
  match v with
  | PDict d => dict_items val d
  | _ => error "dict_type" "Input should be a valid dictionary"
  end.

(** A [field_validator] in its default mode: the function runs on the value
    the inner validator returned; a [ValueError] becomes a line error, any
    other exception leaves the validation. *)
Definition after_validator {A B : Type} (inner : pyval -> vres A)
    (f : A -> result B) (v : pyval) : vres B :=
  match inner v with
  | VOk a =>
      match f a with
      | Ok b => VOk b
      | Raise (ValueError m) => error "value_error" ("Value error, " +:+ m)
      | Raise e => VRaise e
      end
  | VErr errs => VErr errs
  | VRaise e => VRaise e
  end.

(** A field declared with [Field(...)]: no default. *)
Definition required {A : Type} (kw : list (string * pyval)) (name : string)
    (val : pyval -> vres A) : vres A :=
  match assoc name kw with
  | Some v => at_loc (LKey name) (val v)
  | None => VErr [LineError "missing" [LKey name] "Field required"]
  end.

(** A field with a default: the default is taken as it is when the field is
    absent. *)
Definition optional {A : Type} (kw : list (string * pyval)) (name : string)
    (default : A) (val : pyval -> vres A) : vres A :=
  match assoc name kw with
  | Some v => at_loc (LKey name) (val v)
  | None => VOk default
  end.

(** A field whose type is a model: a dict is validated field by field. *)
Definition model_validator {A : Type} (name : string)
    (fields : list (string * pyval) -> vres A) (v : pyval) : vres A :=
  match v with
  | PDict kw => fields kw
  | _ => error "model_type"
           ("Input should be a valid dictionary or instance of " +:+ name)
  end.

(** [Model( **kw)]: the line errors are raised as one [ValidationError] that
    carries the name of the model. *)
Definition construct {A : Type} (title : string) (r : vres A) : result A :=
  match r with
  | VOk a => Ok a
  | VErr errs => Raise (ValidationError title errs)
  | VRaise e => Raise e
  end.

Section IntValidator.

(** How pydantic reads an integer from a string in lax mode. *)
Variable str_as_int : string -> option Z.

(** [int]: in lax mode a bool counts as 0 or 1 and a numeric string is
    parsed. *)
Definition int_validator (v : pyval) : vres Z :=
  match v with
  | PInt z => VOk z
  | PBool b => VOk (if b then 1 else 0)
  | PStr s =>
      match str_as_int s with
      | Some z => VOk z
      | None => error "int_parsing"
                  "Input should be a valid integer, unable to parse string as an integer"
      end
  | _ => error "int_type" "Input should be a valid integer"
  end.

End IntValidator.

(** [model_dump(mode="json")] on a value of type [Any]: a tuple is dumped as a
    list, the other values as they are. *)
Fixpoint to_jsonable (v : pyval) : pyval :=
  match v with
  | PList l => PList (map to_jsonable l)
  | PTuple l => PList (map to_jsonable l)
  | PDict d => PDict (map (fun kv => (fst kv, to_jsonable (snd kv))) d)
  | _ => v
  end.

End Pydantic.

(** ** yaml *)

Module Yaml.

(** Order of two dict items under [sorted]: the keys of a dict differ, so the
    key decides. *)
Definition item_le {A : Type} : relation (string * A) :=
  fun x y => String.le (fst x) (fst y).

#[global] Instance item_le_dec {A : Type} : RelDecision (@item_le A).
Proof. intros x y. unfold item_le. apply _. Defined.

(** The representer of [yaml.dump] with its default [sort_keys=True]: the
    items of every mapping are laid out in the order of their keys. *)
Fixpoint sort_keys (v : pyval) : pyval :=
  match v with
  | PList l => PList (map sort_keys l)
  | PTuple l => PTuple (map sort_keys l)
  | PDict d => PDict (merge_sort item_le (map (fun kv => (fst kv, sort_keys (snd kv))) d))
  | _ => v
  end.

End Yaml.

(** ** The models of [config.py] *)

Import PathLib OS Pydantic Yaml.

(** *** [class VPSConfig(BaseModel)] *)

Module VPSConfig.

Record t : Type := Build {
  host : string;
  user : string;
  ssh_key_path : string;
  port : Z;
  email : option string
}.

Section Validation.

Variable userhome : string -> option string.
Variable str_as_int : string -> option Z.
Variable fs : filesystem.

(** [validate_ssh_key_path(cls, v)] *)
Definition validate_ssh_key_path (v : string) : result string :=
  path ← expanduser userhome (Path v);
  if negb (path_exists fs path) then
    Raise (ValueError ("SSH key not found at: " +:+ v))
  else Ok (str path).

(** The fields in the order of their declaration. *)
Definition fields (kw : list (string * pyval)) : vres t :=
  VOk Build
    <*> required kw "host" str_validator
    <*> required kw "user" str_validator
    <*> required kw "ssh_key_path" (after_validator str_validator validate_ssh_key_path)
    <*> optional kw "port" 22 (int_validator str_as_int)
    <*> optional kw "email" None (nullable str_validator).

(** [VPSConfig( **kw)] *)
Definition init (kw : list (string * pyval)) : result t :=
  construct "VPSConfig" (fields kw).

End Validation.

(** [self.model_dump(mode="json")] *)
Definition model_dump (c : t) : pyval :=
  PDict [("host", PStr (host c));
         ("user", PStr (user c));
         ("ssh_key_path", PStr (ssh_key_path c));
         ("port", PInt (port c));
         ("email", match email c with Some e => PStr e | None => PNone end)].

End VPSConfig.

(** *** [class ServiceConfig(BaseModel)] *)

Module ServiceConfig.

Record t : Type := Build {
  image : option string;
  environment : list (string * string);
  volumes : list string;
  ports : list string;
  depends_on : list string;
  extra : list (string * pyval)
}.

Definition fields (kw : list (string * pyval)) : vres t :=
  VOk Build
    <*> optional kw "image" None (nullable str_validator)
    <*> optional kw "environment" [] (dict_validator str_validator)
    <*> optional kw "volumes" [] (list_validator str_validator)
    <*> optional kw "ports" [] (list_validator str_validator)
    <*> optional kw "depends_on" [] (list_validator str_validator)
    <*> optional kw "extra" [] (dict_validator any_validator).

(** [ServiceConfig( **kw)] *)
Definition init (kw : list (string * pyval)) : result t :=
  construct "ServiceConfig" (fields kw).

Definition dump_str_dict (d : list (string * string)) : pyval :=
  PDict (map (fun kv => (fst kv, PStr (snd kv))) d).

Definition dump_str_list (l : list string) : pyval := PList (map PStr l).

Definition model_dump (c : t) : pyval :=
  PDict [("image", match image c with Some i => PStr i | None => PNone end);
         ("environment", dump_str_dict (environment c));
         ("volumes", dump_str_list (volumes c));
         ("ports", dump_str_list (ports c));
         ("depends_on", dump_str_list (depends_on c));
         ("extra", PDict (map (fun kv => (fst kv, to_jsonable (snd kv))) (extra c)))].

End ServiceConfig.

(** *** [class ApplicationConfig(BaseModel)] *)

Module ApplicationConfig.

Record t : Type := Build {
  name : string;
  domain : string;
  dockerfile : string;
  context : string;
  port : option Z;
  environment : list (string * string);
  dependencies : list (string * ServiceConfig.t)
}.

Section Validation.

Variable str_as_int : string -> option Z.

Definition fields (kw : list (string * pyval)) : vres t :=
  VOk Build
    <*> required kw "name" str_validator
    <*> required kw "domain" str_validator
    <*> optional kw "dockerfile" "./Dockerfile" str_validator
    <*> optional kw "context" "." str_validator
    <*> optional kw "port" None (nullable (int_validator str_as_int))
    <*> optional kw "environment" [] (dict_validator str_validator)
    <*> optional kw "dependencies" []
          (dict_validator (model_validator "ServiceConfig" ServiceConfig.fields)).

(** [ApplicationConfig( **kw)] *)
Definition init (kw : list (string * pyval)) : result t :=
  construct "ApplicationConfig" (fields kw).

End Validation.

Definition model_dump (c : t) : pyval :=
  PDict [("name", PStr (name c));
         ("domain", PStr (domain c));
         ("dockerfile", PStr (dockerfile c));
         ("context", PStr (context c));
         ("port", match port c with Some p => PInt p | None => PNone end);
         ("environment", ServiceConfig.dump_str_dict (environment c));
         ("dependencies",
           PDict (map (fun kv => (fst kv, ServiceConfig.model_dump (snd kv)))
                      (dependencies c)))].

End ApplicationConfig.

(** *** [class DockLiftConfig(BaseModel)] *)

Module DockLiftConfig.

Record t : Type := Build {
  vps : VPSConfig.t;
  application : ApplicationConfig.t
}.

Section Config.

Variable userhome : string -> option string.
Variable str_as_int : string -> option Z.

(** The text layer of PyYAML.  [yaml_emit flow data] is the document the
    emitter writes for [data], whose mappings are laid out as [data] lists
    them, in flow style or in block style; [yaml_safe_load text] is the value
    [yaml.safe_load] builds from a document ([None] for an empty one), or the
    [YAMLError] it raises. *)
Variable yaml_emit : bool -> pyval -> string.
Variable yaml_safe_load : string -> result pyval.

(** [yaml.dump(data, f, default_flow_style=...)]: [sort_keys] keeps its
    default. *)
Definition yaml_dump (data : pyval) (default_flow_style : bool) : string :=
  yaml_emit default_flow_style (sort_keys data).

Definition fields (fs : filesystem) (kw : list (string * pyval)) : vres t :=
  VOk Build
    <*> required kw "vps"
          (model_validator "VPSConfig" (VPSConfig.fields userhome str_as_int fs))
    <*> required kw "application"
          (model_validator "ApplicationConfig" (ApplicationConfig.fields str_as_int)).

(** [cls( **data)]: only a mapping can be unpacked into keyword arguments. *)
Definition init (fs : filesystem) (data : pyval) : result t :=
  match data with
  | PDict kw => construct "DockLiftConfig" (fields fs kw)
  | _ => Raise (TypeError
                  ("docklift.config.DockLiftConfig() argument after ** must be a mapping, not "
                   +:+ type_name data))
  end.

(** [from_yaml(cls, path)] *)
Definition from_yaml (path : string) (fs : filesystem) : result t :=
  let yaml_path := Path path in
  if negb (path_exists fs yaml_path) then
    Raise (FileNotFoundError ("Configuration file not found: " +:+ path))
  else
    f ← open_read fs yaml_path;
    data ← yaml_safe_load f;
    init fs data.

Definition model_dump (c : t) : pyval :=
  PDict [("vps", VPSConfig.model_dump (vps c));
         ("application", ApplicationConfig.model_dump (application c))].

(** [to_yaml(self, path)]: the file system after the call. *)
Definition to_yaml (self : t) (path : string) (fs : filesystem)
    : result filesystem :=
  let yaml_path := Path path in
  fs1 ← mkdir (parent yaml_path) true true fs;
  fs2 ← open_write fs1 yaml_path;
  Ok (write fs2 yaml_path (yaml_dump (model_dump self) false)).

End Config.

End DockLiftConfig.

(** ** Structural equality *)

(** Two dicts are equal when they have the same number of items and every key
    of the first is bound to an equal value in the second: the insertion order
    does not count. *)
Definition dict_eqb {A B : Type} (eqv : A -> B -> bool)
    (d : list (string * A)) (e : list (string * B)) : bool :=
  Nat.eqb (length d) (length e)
  && forallb (fun kv => match assoc (fst kv) e with
                        | Some w => eqv (snd kv) w
                        | None => false
                        end) d.

(** Two sequences are equal when they are equal item by item. *)
Fixpoint list_eqb {A B : Type} (eqv : A -> B -> bool) (l : list A) (m : list B)
    : bool :=
  match l, m with
  | [], [] => true
  | x :: l', y :: m' => eqv x y && list_eqb eqv l' m'
  | _, _ => false
  end.

(** Structural equality of values: same kind of value, equal contents. *)
Fixpoint py_eqb (v w : pyval) : bool :=
  match v, w with
  | PNone, PNone => true
  | PBool a, PBool b => Bool.eqb a b
  | PInt a, PInt b => Z.eqb a b
  | PStr a, PStr b => String.eqb a b
  | PList l, PList m => list_eqb py_eqb l m
  | PTuple l, PTuple m => list_eqb py_eqb l m
  | PDict d, PDict e => dict_eqb py_eqb d e
  | _, _ => false
  end.

(** The keys of every dict differ, as they do in Python. *)
Fixpoint unique_keys (v : pyval) : bool :=
  match v with
  | PList l | PTuple l => forallb unique_keys l
  | PDict d => bool_decide (NoDup (keys d))
               && forallb (fun kv => unique_keys (snd kv)) d
  | _ => true
  end.

(** Plain data: [None], booleans, integers, strings, and lists and dicts of
    plain data; no tuple. *)
Fixpoint plain (v : pyval) : bool :=
  match v with
  | PList l => forallb plain l
  | PTuple _ => false
  | PDict d => forallb (fun kv => plain (snd kv)) d
  | _ => true
  end.

(** The items of every dict stand in the order of their keys. *)
Fixpoint keys_sorted (v : pyval) : bool :=
  match v with
  | PList l | PTuple l => forallb keys_sorted l
  | PDict d => bool_decide (Sorted String.le (keys d))
               && forallb (fun kv => keys_sorted (snd kv)) d
  | _ => true
  end.

Definition service_eqb (s1 s2 : ServiceConfig.t) : bool :=
  bool_decide (ServiceConfig.image s1 = ServiceConfig.image s2)
  && dict_eqb String.eqb (ServiceConfig.environment s1) (ServiceConfig.environment s2)
  && bool_decide (ServiceConfig.volumes s1 = ServiceConfig.volumes s2)
  && bool_decide (ServiceConfig.ports s1 = ServiceConfig.ports s2)
  && bool_decide (ServiceConfig.depends_on s1 = ServiceConfig.depends_on s2)
  && dict_eqb py_eqb (ServiceConfig.extra s1) (ServiceConfig.extra s2).

Definition service_unique_keys (s : ServiceConfig.t) : bool :=
  bool_decide (NoDup (keys (ServiceConfig.environment s)))
  && unique_keys (PDict (ServiceConfig.extra s)).

Definition service_plain (s : ServiceConfig.t) : bool :=
  plain (PDict (ServiceConfig.extra s)).

Definition application_eqb (a1 a2 : ApplicationConfig.t) : bool :=
  bool_decide (ApplicationConfig.name a1 = ApplicationConfig.name a2)
  && bool_decide (ApplicationConfig.domain a1 = ApplicationConfig.domain a2)
  && bool_decide (ApplicationConfig.dockerfile a1 = ApplicationConfig.dockerfile a2)
  && bool_decide (ApplicationConfig.context a1 = ApplicationConfig.context a2)
  && bool_decide (ApplicationConfig.port a1 = ApplicationConfig.port a2)
  && dict_eqb String.eqb (ApplicationConfig.environment a1)
                         (ApplicationConfig.environment a2)
  && dict_eqb service_eqb (ApplicationConfig.dependencies a1)
                          (ApplicationConfig.dependencies a2).

Definition application_unique_keys (a : ApplicationConfig.t) : bool :=
  bool_decide (NoDup (keys (ApplicationConfig.environment a)))
  && bool_decide (NoDup (keys (ApplicationConfig.dependencies a)))
  && forallb (fun kv => service_unique_keys (snd kv)) (ApplicationConfig.dependencies a).

Definition application_plain (a : ApplicationConfig.t) : bool :=
  forallb (fun kv => service_plain (snd kv)) (ApplicationConfig.dependencies a).

#[global] Instance VPSConfig_eq_dec : EqDecision VPSConfig.t.
Proof. solve_decision. Defined.

(** [c1 == c2] on two configurations: field by field. *)
Definition config_eqb (c1 c2 : DockLiftConfig.t) : bool :=
  bool_decide (DockLiftConfig.vps c1 = DockLiftConfig.vps c2)
  && application_eqb (DockLiftConfig.application c1) (DockLiftConfig.application c2).

Definition config_unique_keys (c : DockLiftConfig.t) : bool :=
  application_unique_keys (DockLiftConfig.application c).

Definition config_plain (c : DockLiftConfig.t) : bool :=
  application_plain (DockLiftConfig.application c).

(** ** A reference platform *)

(** One platform on which the statements below are exercised: a single
    account whose home is [/home/deploy], decimal strings read as integers,
    and a document format that writes a value in prefix notation and reads it
    back. *)
Module Reference.

Definition userhome (name : string) : option string :=
  if String.eqb name "" then Some "/home/deploy" else None.

Definition decimal (z : Z) : string :=
  DecimalString.NilZero.string_of_int (Z.to_int z).

Definition str_as_int (s : string) : option Z :=
  Z.of_int <$> DecimalString.NilZero.int_of_string s.

(** The text before the first [c], and the text after it. *)
Fixpoint take_until (c : ascii) (s : string) : option (string * string) :=
  match s with
  | EmptyString => None
  | String c' s' =>
      if Ascii.eqb c' c then Some (EmptyString, s')
      else '(w, r) ← take_until c s'; Some (String c' w, r)
  end.

(** The first [n] characters, and the text after them. *)
Fixpoint take_n (n : nat) (s : string) : option (string * string) :=
  match n, s with
  | O, _ => Some (EmptyString, s)
  | S n', String c s' => '(w, r) ← take_n n' s'; Some (String c w, r)
  | S _, EmptyString => None
  end.

Definition emit_str (s : string) : string :=
  "s" +:+ decimal (Z.of_nat (String.length s)) +:+ ":" +:+ s.

Fixpoint emit_value (v : pyval) : string :=
  match v with
  | PNone => "n"
  | PBool true => "t"
  | PBool false => "f"
  | PInt z => "i" +:+ decimal z +:+ ";"
  | PStr s => emit_str s
  | PList l => "[" +:+ String.concat "" (map emit_value l) +:+ "]"
  | PTuple l => "(" +:+ String.concat "" (map emit_value l) +:+ ")"
  | PDict d =>
      "{" +:+ String.concat ""
                (map (fun kv => emit_str (fst kv) +:+ emit_value (snd kv)) d)
          +:+ "}"
  end.

Definition read_str (s : string) : option (string * string) :=
  '(digits, r) ← take_until ":" s;
  n ← str_as_int digits;
  take_n (Z.to_nat n) r.

Fixpoint read_value (fuel : nat) (s : string) : option (pyval * string) :=
  match fuel with
  | O => None
  | S fuel' =>
      match s with
      | String "n" r => Some (PNone, r)
      | String "t" r => Some (PBool true, r)
      | String "f" r => Some (PBool false, r)
      | String "i" r =>
          '(digits, r') ← take_until ";" r;
          z ← str_as_int digits;
          Some (PInt z, r')
      | String "s" r => '(w, r') ← read_str r; Some (PStr w, r')
      | String "[" r => '(l, r') ← read_items fuel' r; Some (PList l, r')
      | String "{" r => '(d, r') ← read_pairs fuel' r; Some (PDict d, r')
      | _ => None
      end
  end
with read_items (fuel : nat) (s : string) : option (list pyval * string) :=
  match fuel with
  | O => None
  | S fuel' =>
      match s with
      | String "]" r => Some ([], r)
      | _ => '(v, r) ← read_value fuel' s;
             '(l, r') ← read_items fuel' r;
             Some (v :: l, r')
      end
  end
with read_pairs (fuel : nat) (s : string)
    : option (list (string * pyval) * string) :=
  match fuel with
  | O => None
  | S fuel' =>
      match s with
      | String "}" r => Some ([], r)
      | String "s" r0 =>
          '(k, r) ← read_str r0;
          '(v, r') ← read_value fuel' r;
          '(d, r'') ← read_pairs fuel' r';
          Some ((k, v) :: d, r'')
      | _ => None
      end
  end.

Definition yaml_emit (flow : bool) (data : pyval) : string := emit_value data.

Definition yaml_safe_load (text : string) : result pyval :=
  match text with
  | EmptyString => Ok PNone
  | _ =>
      match read_value (S (String.length text)) text with
      | Some (v, EmptyString) => Ok v
      | _ => Raise (YAMLError "could not parse the document")
      end
  end.

(** A machine with the key of the account and a key in the working
    directory. *)
Definition disk : filesystem :=
  <["/home/deploy/.ssh/id_rsa" := File "PRIVATE KEY"]>
    (<["/home/deploy/.ssh" := Dir]>
      (<["/home/deploy" := Dir]>
        (<["/home" := Dir]>
          (<["id_rsa" := File "PRIVATE KEY"]> ∅)))).

End Reference.

(** ** The vocabulary of the statements *)

(** *** Validation results *)

Definition raises {C : Type} (r : vres C) : bool :=
  match r with
  | VRaise _ => true
  | _ => false
  end.

(** [e] is one of the line errors of [r]. *)
Definition has_error {C : Type} (e : line_error) (r : vres C) : Prop :=
  match r with
  | VErr errs => e ∈ errs
  | _ => False
  end.

(** *** Paths *)

(** A component holds no separator. *)
Fixpoint no_slash (x : string) : bool :=
  match x with
  | EmptyString => true
  | String c r => negb (Ascii.eqb c "/") && no_slash r
  end.

(** What [Path] keeps as a component: not empty, not ["."], no separator. *)
Definition part_ok (x : string) : bool := keep_part x && no_slash x.

(** The paths that [Path] builds. *)
Definition normal (p : PurePath) : Prop :=
  (root p = "" \/ root p = "/" \/ root p = "//")
  /\ Forall (fun x => part_ok x = true) (tail p).

(** The first component asks for a home directory. *)
Definition tilde_first (p : PurePath) : bool :=
  match root p, tail p with
  | EmptyString, first :: _ => starts_with "~" first
  | _, _ => false
  end.

(** Every account has an absolute home directory. *)
Definition absolute_homes (userhome : string -> option string) : Prop :=
  forall name home, userhome name = Some home -> starts_with "/" home = true.

(** *** The file system *)

(** [q] is [p] or lies above it. *)
Definition at_or_above (q p : PurePath) : Prop :=
  root q = root p /\ tail q `prefix_of` tail p.

(** [fs'] is [fs] with some missing directories at or above [p] created:
    every other name holds what it held. *)
Definition only_dirs_added (fs fs' : filesystem) (p : PurePath) : Prop :=
  forall key : string,
    fs' !! key = fs !! key
    \/ (fs !! key = None /\ fs' !! key = Some Dir
        /\ exists q, normal q /\ at_or_above q p /\ key = str q).

(** Nothing above [p] is a regular file, and [p] is no directory. *)
Definition writable (fs : filesystem) (p : PurePath) : Prop :=
  (forall q, normal q -> at_or_above q (parent p) ->
             stat fs q = None \/ stat fs q = Some Dir)
  /\ stat fs p <> Some Dir.

(** *** Shapes of the fields of [ServiceConfig] *)

Definition is_str (v : pyval) : bool :=
  match v with
  | PStr _ => true
  | _ => false
  end.

(** The string inside a value that is a string. *)
Definition the_str (v : pyval) : string :=
  match v with
  | PStr s => s
  | _ => ""
  end.

(** The shape the annotation of each field of [ServiceConfig] asks for. *)
Definition service_shape (name : string) (v : pyval) : bool :=
  if String.eqb name "image" then
    match v with PNone | PStr _ => true | _ => false end
  else if String.eqb name "environment" then
    match v with
    | PDict d => forallb (fun kv => is_str (snd kv)) d
    | _ => false
    end
  else if String.eqb name "volumes" || String.eqb name "ports"
          || String.eqb name "depends_on" then
    match v with
    | PList l | PTuple l => forallb is_str l
    | _ => false
    end
  else if String.eqb name "extra" then
    match v with PDict _ => true | _ => false end
  else true.

(** The field is absent, or present with the shape it should have. *)
Definition absent_or_shaped (kw : list (string * pyval)) (name : string) : bool :=
  match assoc name kw with
  | Some v => service_shape name v
  | None => true
  end.

Definition service_fields : list string :=
  ["image"; "environment"; "volumes"; "ports"; "depends_on"; "extra"].

(** *** Configurations that were read from a document *)

(** What a configuration that was returned says about the document. *)
Definition validated (userhome : string -> option string)
    (str_as_int : string -> option Z) (fs : filesystem) (kw : list (string * pyval))
    (c : DockLiftConfig.t) : Prop :=
  exists vkw akw k p,
    assoc "vps" kw = Some (PDict vkw)
    /\ assoc "application" kw = Some (PDict akw)
    /\ assoc "host" vkw = Some (PStr (VPSConfig.host (DockLiftConfig.vps c)))
    /\ assoc "user" vkw = Some (PStr (VPSConfig.user (DockLiftConfig.vps c)))
    /\ assoc "ssh_key_path" vkw = Some (PStr k)
    /\ expanduser userhome (Path k) = Ok p
    /\ path_exists fs p = true
    /\ VPSConfig.ssh_key_path (DockLiftConfig.vps c) = str p
    /\ assoc "name" akw
       = Some (PStr (ApplicationConfig.name (DockLiftConfig.application c)))
    /\ assoc "domain" akw
       = Some (PStr (ApplicationConfig.domain (DockLiftConfig.application c)))
    /\ VPSConfig.fields userhome str_as_int fs vkw = VOk (DockLiftConfig.vps c)
    /\ ApplicationConfig.fields str_as_int akw = VOk (DockLiftConfig.application c).

(** [v] with the key path [k]. *)
Definition with_key_path (k : string) (v : VPSConfig.t) : VPSConfig.t :=
  VPSConfig.Build (VPSConfig.host v) (VPSConfig.user v) k
    (VPSConfig.port v) (VPSConfig.email v).

(** The configuration that is read back: [c] with its key path validated
    again. *)
Definition revalidated (k : string) (c : DockLiftConfig.t) : DockLiftConfig.t :=
  DockLiftConfig.Build (with_key_path k (DockLiftConfig.vps c))
    (DockLiftConfig.application c).

(** The service that validation makes of the dump of a service. *)
Definition reloaded_service (s : ServiceConfig.t) : ServiceConfig.t :=
  match model_validator "ServiceConfig" ServiceConfig.fields
          (sort_keys (ServiceConfig.model_dump s)) with
  | VOk s' => s'
  | _ => s
  end.

(** *** Fields, and what construction reads *)

(** The line error for a required field that is absent. *)
Definition missing_error (name : string) : line_error :=
  LineError "missing" [LKey name] "Field required".

(** The message of [Path.expanduser] when an account has no home. *)
Definition no_home : exn := RuntimeError "Could not determine home directory.".

(** The declared fields of the other models. *)
Definition vps_fields : list string :=
  ["host"; "user"; "ssh_key_path"; "port"; "email"].

Definition application_fields : list string :=
  ["name"; "domain"; "dockerfile"; "context"; "port"; "environment";
   "dependencies"].

Definition config_fields : list string := ["vps"; "application"].

(** The line errors a validation collected. *)
Definition errors_of {A : Type} (r : vres A) : list line_error :=
  match r with
  | VErr errs => errs
  | _ => []
  end.

(** Two keyword mappings bind the names of [names] alike. *)
Definition agree_on (names : list string) (kw kw' : list (string * pyval)) : Prop :=
  forall name, name ∈ names -> assoc name kw = assoc name kw'.

(** *** Configurations as [model_dump(mode="json")] shows them *)

(** A service with its extra options in JSON form. *)
Definition jsonable_service (s : ServiceConfig.t) : ServiceConfig.t :=
  ServiceConfig.Build (ServiceConfig.image s) (ServiceConfig.environment s)
    (ServiceConfig.volumes s) (ServiceConfig.ports s) (ServiceConfig.depends_on s)
    (map (fun kv => (fst kv, to_jsonable (snd kv))) (ServiceConfig.extra s)).

Definition jsonable_application (a : ApplicationConfig.t) : ApplicationConfig.t :=
  ApplicationConfig.Build (ApplicationConfig.name a) (ApplicationConfig.domain a)
    (ApplicationConfig.dockerfile a) (ApplicationConfig.context a)
    (ApplicationConfig.port a) (ApplicationConfig.environment a)
    (map (fun kv => (fst kv, jsonable_service (snd kv)))
         (ApplicationConfig.dependencies a)).

(** The configuration built from the dump of [c], the key path validated to
    [k]. *)
Definition rebuilt (k : string) (c : DockLiftConfig.t) : DockLiftConfig.t :=
  DockLiftConfig.Build (with_key_path k (DockLiftConfig.vps c))
    (jsonable_application (DockLiftConfig.application c)).

(** *** File systems that are trees *)

(** Whatever exists lies in a directory. *)
Definition hierarchical (fs : filesystem) : Prop :=
  forall q, normal q -> stat fs q <> None -> is_dir fs (parent q) = true.

(** A test that is enough for it: the parent of every name is a directory. *)
Definition hierarchicalb (fs : filesystem) : bool :=
  bool_decide (map_Forall (fun key _ => is_dir fs (parent (parse_path key)) = true) fs).

(** Two file systems hold the same names. *)
Definition same_names (fs fs' : filesystem) : Prop :=
  forall q, path_exists fs q = path_exists fs' q.

(** Whatever exists in [fs] exists in [fs']. *)
Definition names_kept (fs fs' : filesystem) : Prop :=
  forall q, path_exists fs q = true -> path_exists fs' q = true.

(** ** Scenarios on the reference platform *)

Definition vps_example (key : string) : list (string * pyval) :=
  [("host", PStr "1.2.3.4"); ("user", PStr "deploy"); ("ssh_key_path", PStr key)].

(** The reference machine with an empty file in the working directory. *)
Definition disk_with_empty_document : filesystem :=
  <["docklift.yml" := File ""]> Reference.disk.

Definition example_vps : VPSConfig.t :=
  VPSConfig.Build "1.2.3.4" "deploy" "/home/deploy/.ssh/id_rsa" 22 None.

Definition example_db (extra : list (string * pyval)) : ServiceConfig.t :=
  ServiceConfig.Build (Some "postgres:15") [("POSTGRES_PASSWORD", "x")]
    [] [] [] extra.

(** The blog of the specification with its database, the environment filled
    in the given order. *)
Definition example_blog (env : list (string * string))
    (extra : list (string * pyval)) : DockLiftConfig.t :=
  DockLiftConfig.Build example_vps
    (ApplicationConfig.Build "blog" "blog.example.com" "./Dockerfile" "." None
       env [("db", example_db extra)]).

(** The document of the specification that gives only the required fields. *)
Definition minimal_document : pyval :=
  PDict [("vps", PDict (vps_example "~/.ssh/id_rsa"));
         ("application", PDict [("name", PStr "blog");
                                ("domain", PStr "blog.example.com")])].

(** The reference machine after [c] was saved to [conf/docklift.yml]. *)
Definition saved_disk (c : DockLiftConfig.t) : filesystem :=
  match DockLiftConfig.to_yaml Reference.yaml_emit c "conf/docklift.yml"
          Reference.disk with
  | Ok fs' => fs'
  | Raise _ => Reference.disk
  end.

Definition reference_load (fs : filesystem) : result DockLiftConfig.t :=
  DockLiftConfig.from_yaml Reference.userhome Reference.str_as_int
    Reference.yaml_safe_load "conf/docklift.yml" fs.

(** The file system after [c] was saved to [staging/docklift.yml] as well. *)
Definition saved_beside (c : DockLiftConfig.t) (fs : filesystem) : filesystem :=
  match DockLiftConfig.to_yaml Reference.yaml_emit c "staging/docklift.yml" fs with
  | Ok fs' => fs'
  | Raise _ => fs
  end.

(** * Properties *)

(** ** Python values *)

(** Induction over [pyval] that reaches below lists and dicts. *)
Lemma pyval_deep_ind (P : pyval -> Prop) :
  P PNone ->
  (forall b, P (PBool b)) ->
  (forall z, P (PInt z)) ->
  (forall s, P (PStr s)) ->
  (forall l, Forall P l -> P (PList l)) ->
  (forall l, Forall P l -> P (PTuple l)) ->
  (forall d, Forall (fun kv => P (snd kv)) d -> P (PDict d)) ->
  forall v, P v.
Proof.
  intros HN HB HI HS HL HT HD.
  fix IH 1. intros [ | b | z | s | l | l | d].
  - exact HN.
  - apply HB.
  - apply HI.
  - apply HS.
  - apply HL. induction l as [ | x l IHl]; constructor; [apply IH | exact IHl].
  - apply HT. induction l as [ | x l IHl]; constructor; [apply IH | exact IHl].
  - apply HD. induction d as [ | [k x] d IHd]; constructor; [apply IH | exact IHd].
Qed.

(** ** Validation results *)

Section ValidationFacts.

Context {A B : Type}.

Lemma vap_ok_inv (f : vres (A -> B)) (x : vres A) (b : B) :
  f <*> x = VOk b -> exists g a, f = VOk g /\ x = VOk a /\ b = g a.
Proof.
  destruct f as [g | ? | ?], x as [a | ? | ?]; simpl; intros H; try discriminate.
  exists g, a. by inversion H.
Qed.

Lemma raises_vap (f : vres (A -> B)) (x : vres A) :
  raises (f <*> x) = raises f || raises x.
Proof. by destruct f, x. Qed.

Lemma has_error_vap_l e (f : vres (A -> B)) (x : vres A) :
  has_error e f -> raises x = false -> has_error e (f <*> x).
Proof.
  destruct f as [ | errs | ], x as [ | errs' | ]; simpl; try done.
  intros H _. apply elem_of_app. by left.
Qed.

Lemma has_error_vap_r e (f : vres (A -> B)) (x : vres A) :
  has_error e x -> raises f = false -> has_error e (f <*> x).
Proof.
  destruct f as [ | errs | ], x as [ | errs' | ]; simpl; try done.
  intros H _. apply elem_of_app. by right.
Qed.

Lemma at_loc_ok_inv i (r : vres A) a : at_loc i r = VOk a -> r = VOk a.
Proof. by destruct r. Qed.

Lemma raises_at_loc i (r : vres A) : raises (at_loc i r) = raises r.
Proof. by destruct r. Qed.

Lemma required_ok_inv kw name (val : pyval -> vres A) a :
  required kw name val = VOk a ->
  exists v, assoc name kw = Some v /\ val v = VOk a.
Proof.
  unfold required. destruct (assoc name kw) as [v | ]; [ | done].
  intros H%at_loc_ok_inv. by exists v.
Qed.

Lemma raises_required kw name (val : pyval -> vres A) :
  (forall v, raises (val v) = false) -> raises (required kw name val) = false.
Proof.
  intros H. unfold required. destruct (assoc name kw); [ | done].
  by rewrite raises_at_loc.
Qed.

Lemma raises_optional kw name (default : A) (val : pyval -> vres A) :
  (forall v, raises (val v) = false) ->
  raises (optional kw name default val) = false.
Proof.
  intros H. unfold optional. destruct (assoc name kw); [ | done].
  by rewrite raises_at_loc.
Qed.

Lemma construct_ok_inv title (r : vres A) a :
  construct title r = Ok a -> r = VOk a.
Proof. destruct r; simpl; congruence. Qed.

End ValidationFacts.

Lemma raises_nullable {A : Type} (val : pyval -> vres A) v :
  (forall v, raises (val v) = false) -> raises (nullable val v) = false.
Proof.
  intros H. unfold nullable.
  destruct v; try done; rewrite raises_vap; apply H.
Qed.

Lemma raises_str_validator v : raises (str_validator v) = false.
Proof. by destruct v. Qed.

Lemma raises_int_validator sai v : raises (int_validator sai v) = false.
Proof. destruct v; simpl; try done. by destruct (sai s). Qed.

Lemma str_validator_ok_inv v s : str_validator v = VOk s -> v = PStr s.
Proof. destruct v; simpl; try discriminate. by intros [= ->]. Qed.

#[local] Hint Resolve raises_str_validator raises_int_validator : core.

(** ** Paths *)

(** *** Paths in normal form *)

Lemma split_no_slash x : no_slash x = true -> split "/" x = [x].
Proof.
  induction x as [ | c r IH]; simpl; [done | ].
  intros [Hc Hr]%andb_prop. apply negb_true_iff in Hc. rewrite Hc.
  by rewrite (IH Hr).
Qed.

Lemma split_app_slash x s :
  no_slash x = true -> split "/" (x +:+ String "/" s) = x :: split "/" s.
Proof.
  induction x as [ | c r IH]; simpl; [done | ].
  intros [Hc Hr]%andb_prop. apply negb_true_iff in Hc. rewrite Hc.
  by rewrite (IH Hr).
Qed.

Lemma split_join l :
  l <> [] -> Forall (fun x => no_slash x = true) l -> split "/" (join "/" l) = l.
Proof.
  induction l as [ | x l IH]; [done | ]. intros _ Hl.
  apply Forall_cons in Hl as [Hx Hl]. destruct l as [ | y l].
  - simpl. by apply split_no_slash.
  - change (join "/" (x :: y :: l)) with (x +:+ String "/" (join "/" (y :: l))).
    rewrite split_app_slash by done. f_equal. by apply IH.
Qed.

Lemma split_parts s : Forall (fun x => no_slash x = true) (split "/" s).
Proof.
  induction s as [ | c r IH]; simpl.
  - by repeat constructor.
  - destruct (Ascii.eqb c "/") eqn:Hc.
    + by constructor.
    + destruct (split "/" r) as [ | w ws].
      * repeat constructor. simpl. by rewrite Hc.
      * apply Forall_cons in IH as [Hw Hws]. constructor; [ | done].
        simpl. by rewrite Hc.
Qed.

Lemma filter_keep_parts l :
  Forall (fun x => no_slash x = true) l ->
  Forall (fun x => part_ok x = true) (List.filter keep_part l).
Proof.
  induction 1 as [ | x l Hx Hl IH]; simpl; [constructor | ].
  destruct (keep_part x) eqn:Hk; [ | done].
  constructor; [ | done]. unfold part_ok. by rewrite Hk.
Qed.

Lemma filter_parts_ok l :
  Forall (fun x => part_ok x = true) l -> List.filter keep_part l = l.
Proof.
  induction 1 as [ | x l Hx Hl IH]; simpl; [done | ].
  apply andb_prop in Hx as [-> _]. by rewrite IH.
Qed.

Lemma root_splitroot s :
  let rt := fst (splitroot s) in rt = "" \/ rt = "/" \/ rt = "//".
Proof.
  unfold splitroot. destruct (negb (starts_with "/" s)); simpl; [by left | ].
  destruct (negb _ || _); simpl; [right; by left | right; by right].
Qed.

Lemma normal_parse_path s : normal (parse_path s).
Proof.
  unfold parse_path. destruct s as [ | c r].
  - split; [by left | constructor].
  - pose proof (root_splitroot (String c r)) as Hr.
    destruct (splitroot (String c r)) as [rt rel]. split; [exact Hr | ].
    simpl. apply filter_keep_parts, split_parts.
Qed.

(** The text of a non-empty list of components starts with a character that
    is no separator. *)
Lemma join_head x l :
  part_ok x = true ->
  exists c t, join "/" (x :: l) = String c t /\ Ascii.eqb c "/" = false.
Proof.
  intros [Hk Hs]%andb_prop. destruct x as [ | c r]; [done | ].
  simpl in Hs. apply andb_prop in Hs as [Hc _]. apply negb_true_iff in Hc.
  destruct l as [ | y l].
  - exists c, r. by split.
  - exists c, (r +:+ String "/" (join "/" (y :: l))). by split.
Qed.

Lemma splitroot_relative c t :
  Ascii.eqb c "/" = false -> splitroot (String c t) = ("", String c t).
Proof. intros Hc. unfold splitroot. simpl. by rewrite Hc. Qed.

Lemma splitroot_one_slash c t :
  Ascii.eqb c "/" = false ->
  splitroot (String "/" (String c t)) = ("/", String c t).
Proof. intros Hc. unfold splitroot. simpl. by rewrite Hc. Qed.

Lemma splitroot_two_slashes c t :
  Ascii.eqb c "/" = false ->
  splitroot (String "/" (String "/" (String c t))) = ("//", String c t).
Proof. intros Hc. unfold splitroot. simpl. by rewrite Hc. Qed.

(** Parsing the text of a normal path gives the path back. *)
Lemma parse_path_str p : normal p -> parse_path (str p) = p.
Proof.
  destruct p as [rt tl]. intros [Hroot Htl]. simpl in *.
  assert (Hsplit : tl <> [] -> List.filter keep_part (split "/" (join "/" tl)) = tl).
  { intros Hne. rewrite split_join; [by apply filter_parts_ok | done | ].
    eapply Forall_impl; [exact Htl | ]. by intros x [_ ?]%andb_prop. }
  destruct tl as [ | x l].
  - by destruct Hroot as [-> | [-> | ->]].
  - apply Forall_cons in Htl as Hx. destruct Hx as [Hx _].
    destruct (join_head x l Hx) as (c & t & Hj & Hc).
    specialize (Hsplit ltac:(done)). rewrite Hj in Hsplit.
    destruct Hroot as [-> | [-> | ->]]; unfold str; cbn [root tail]; rewrite Hj.
    + change ("" +:+ String c t) with (String c t).
      unfold parse_path. by rewrite splitroot_relative, Hsplit.
    + change ("/" +:+ String c t) with (String "/" (String c t)).
      unfold parse_path. by rewrite splitroot_one_slash, Hsplit.
    + change ("//" +:+ String c t) with (String "/" (String "/" (String c t))).
      unfold parse_path. by rewrite splitroot_two_slashes, Hsplit.
Qed.

(** A normal path with a root is spelled with a leading separator. *)
Lemma str_absolute p :
  normal p -> is_absolute p = true -> starts_with "/" (str p) = true.
Proof.
  destruct p as [rt tl]. intros [Hroot _]. simpl in Hroot.
  by destruct Hroot as [-> | [-> | ->]].
Qed.

(** A normal path without a root is spelled without a leading separator. *)
Lemma str_relative p :
  normal p -> is_absolute p = false -> starts_with "/" (str p) = false.
Proof.
  destruct p as [rt tl]. intros [Hroot Htl] Habs. simpl in *.
  destruct Hroot as [-> | [-> | ->]]; try done.
  destruct tl as [ | x l]; [done | ].
  apply Forall_cons in Htl as [Hx _].
  destruct (join_head x l Hx) as (c & t & Hj & Hc).
  unfold str. cbn [root tail]. by rewrite Hj.
Qed.

Section PathFacts.

Variable userhome : string -> option string.

Lemma expanduser_no_tilde p :
  tilde_first p = false -> expanduser userhome p = Ok p.
Proof.
  unfold tilde_first, expanduser.
  destruct (root p) as [ | c r]; [ | done].
  destruct (tail p) as [ | first rest]; [done | ].
  by intros ->.
Qed.

Lemma tilde_first_absolute p : is_absolute p = true -> tilde_first p = false.
Proof.
  unfold is_absolute, tilde_first. by destruct (root p).
Qed.

(** A path that [expanduser] returns unchanged or rewrites keeps its root when
    it has one. *)
Lemma expanduser_absolute p q :
  expanduser userhome p = Ok q -> is_absolute p = true -> is_absolute q = true.
Proof.
  intros H Habs. rewrite expanduser_no_tilde in H.
  - by inversion H; subst.
  - by apply tilde_first_absolute.
Qed.

Lemma normal_expanduser p q :
  normal p -> expanduser userhome p = Ok q -> normal q.
Proof.
  intros [Hroot Htl]. unfold expanduser.
  destruct (root p) as [ | c r] eqn:Hr; [ | intros [= <-]; split; [by rewrite Hr | done]].
  destruct (tail p) as [ | first rest] eqn:Ht; [intros [= <-]; split; [by rewrite Hr | by rewrite Ht] | ].
  destruct (starts_with "~" first); [ | intros [= <-]; split; [by rewrite Hr | by rewrite Ht]].
  destruct (starts_with "~" (os_expanduser userhome first)); [done | ].
  intros [= <-]. destruct (normal_parse_path (os_expanduser userhome first)) as [Hr' Ht'].
  split; [done | ]. cbn [tail]. apply Forall_app. split; [done | ].
  by apply Forall_cons in Htl as [_ ?].
Qed.

Lemma rstrip_head c s :
  starts_with "/" s = true ->
  rstrip c s = EmptyString \/ starts_with "/" (rstrip c s) = true.
Proof.
  destruct s as [ | c' r]; [done | ]. simpl. intros Hc.
  destruct (rstrip c r); [ | by right].
  destruct (Ascii.eqb c' c); [by left | by right].
Qed.

Lemma parse_path_absolute s :
  starts_with "/" s = true -> is_absolute (parse_path s) = true.
Proof.
  destruct s as [ | c r]; [done | ]. intros Hc. unfold parse_path, splitroot.
  rewrite Hc. cbn [negb]. by destruct (negb _ || _).
Qed.

(** Where homes are absolute, a path that came out of [expanduser] is left
    alone by it. *)
Lemma expanduser_idempotent p q :
  absolute_homes userhome ->
  expanduser userhome p = Ok q -> expanduser userhome q = Ok q.
Proof.
  intros Hhomes Hq. destruct (tilde_first p) eqn:Htilde.
  - apply expanduser_no_tilde, tilde_first_absolute.
    revert Hq Htilde. unfold expanduser, tilde_first.
    destruct (root p); [ | done]. destruct (tail p) as [ | first rest]; [done | ].
    intros Hq Ht. rewrite Ht in Hq. revert Hq. unfold os_expanduser.
    rewrite Ht. cbn [negb].
    destruct (userhome (behead first)) as [home | ] eqn:Hhome;
      [ | by rewrite Ht].
    apply Hhomes in Hhome. destruct (rstrip_head "/" home Hhome) as [-> | Hs].
    + by intros [= <-].
    + destruct (rstrip "/" home) as [ | c r] eqn:Hstrip; [done | ].
      destruct (starts_with "~" (String c r)); [done | ]. intros [= <-].
      pose proof (parse_path_absolute (String c r) Hs) as Habs.
      unfold is_absolute in *. by cbn [root].
  - rewrite expanduser_no_tilde in Hq by done. inversion Hq; subst.
    by apply expanduser_no_tilde.
Qed.

End PathFacts.

(** ** [VPSConfig] *)

Section VPSConfigFacts.

Variable userhome : string -> option string.
Variable str_as_int : string -> option Z.
Variable fs : filesystem.

Lemma validate_ssh_key_path_ok_inv v s :
  VPSConfig.validate_ssh_key_path userhome fs v = Ok s ->
  exists path, expanduser userhome (Path v) = Ok path
               /\ path_exists fs path = true /\ s = str path.
Proof.
  unfold VPSConfig.validate_ssh_key_path.
  destruct (expanduser userhome (Path v)) as [path | e]; [ | done]. simpl.
  destruct (path_exists fs path) eqn:He; [ | done]. simpl.
  intros [= <-]. by exists path.
Qed.

Lemma validate_ssh_key_path_found v path :
  expanduser userhome (Path v) = Ok path ->
  path_exists fs path = true ->
  VPSConfig.validate_ssh_key_path userhome fs v = Ok (str path).
Proof.
  intros He Hp. unfold VPSConfig.validate_ssh_key_path. rewrite He. simpl.
  by rewrite Hp.
Qed.

Lemma validate_ssh_key_path_missing v path :
  expanduser userhome (Path v) = Ok path ->
  path_exists fs path = false ->
  VPSConfig.validate_ssh_key_path userhome fs v
  = Raise (ValueError ("SSH key not found at: " +:+ v)).
Proof.
  intros He Hp. unfold VPSConfig.validate_ssh_key_path. rewrite He. simpl.
  by rewrite Hp.
Qed.

(** C2: with the key path expanded to [path], the construction of a
    [VPSConfig] fails with a [ValidationError] that reports the path as it was
    given when [path] does not exist, and succeeds, storing the text of the
    expanded path, when it exists and the other fields are valid. *)
Theorem ssh_key_path_checked kw v path :
  assoc "ssh_key_path" kw = Some (PStr v) ->
  expanduser userhome (Path v) = Ok path ->
  (path_exists fs path = false ->
   exists errs,
     VPSConfig.init userhome str_as_int fs kw
     = Raise (ValidationError "VPSConfig" errs)
     /\ LineError "value_error" [LKey "ssh_key_path"]
          ("Value error, SSH key not found at: " +:+ v) ∈ errs)
  /\ (path_exists fs path = true ->
      forall h u p e,
        assoc "host" kw = Some (PStr h) ->
        assoc "user" kw = Some (PStr u) ->
        optional kw "port" 22 (int_validator str_as_int) = VOk p ->
        optional kw "email" None (nullable str_validator) = VOk e ->
        VPSConfig.init userhome str_as_int fs kw
        = Ok (VPSConfig.Build h u (str path) p e)).
Proof.
  intros Hkey Hexp. split.
  - intros Hmiss.
    set (e := LineError "value_error" [LKey "ssh_key_path"]
                ("Value error, SSH key not found at: " +:+ v)).
    assert (Hfield : has_error e
              (required kw "ssh_key_path"
                 (after_validator str_validator
                    (VPSConfig.validate_ssh_key_path userhome fs)))).
    { unfold required, after_validator. rewrite Hkey. simpl.
      rewrite (validate_ssh_key_path_missing v path Hexp Hmiss). simpl. by left. }
    assert (Hall : has_error e (VPSConfig.fields userhome str_as_int fs kw)).
    { unfold VPSConfig.fields.
      apply has_error_vap_l;
        [ | apply raises_optional; intros; by apply raises_nullable].
      apply has_error_vap_l; [ | by apply raises_optional].
      apply has_error_vap_r; [done | ].
      rewrite !raises_vap, !raises_required by done. done. }
    unfold VPSConfig.init.
    destruct (VPSConfig.fields userhome str_as_int fs kw) as [ | errs | ]; try done.
    by exists errs.
  - intros Hfound h u p e Hhost Huser Hport Hemail.
    unfold VPSConfig.init, VPSConfig.fields. rewrite Hport, Hemail.
    unfold required, after_validator. rewrite Hhost, Huser, Hkey. simpl.
    by rewrite (validate_ssh_key_path_found v path Hexp Hfound).
Qed.

Lemma VPSConfig_fields_ok_inv kw c :
  VPSConfig.fields userhome str_as_int fs kw = VOk c ->
  exists v,
    assoc "ssh_key_path" kw = Some (PStr v)
    /\ VPSConfig.validate_ssh_key_path userhome fs v = Ok (VPSConfig.ssh_key_path c)
    /\ optional kw "port" 22 (int_validator str_as_int) = VOk (VPSConfig.port c).
Proof.
  unfold VPSConfig.fields.
  intros (g4 & e & (g3 & p & (g2 & k & (g1 & u & (g0 & h & [= <-] & Hh & ->)%vap_ok_inv
    & Hu & ->)%vap_ok_inv & Hk & ->)%vap_ok_inv & Hp & ->)%vap_ok_inv & He & ->)%vap_ok_inv.
  apply required_ok_inv in Hk as (v & Hv & Hk). unfold after_validator in Hk.
  destruct (str_validator v) as [s | | ] eqn:Hs; try done.
  apply str_validator_ok_inv in Hs as ->.
  destruct (VPSConfig.validate_ssh_key_path userhome fs s) as [k' | ex] eqn:Hval.
  - injection Hk as <-. exists s. by simpl.
  - by destruct ex.
Qed.

(** C6, as the code has it: the key path stored in a constructed [VPSConfig]
    is the text of the path that [expanduser] made of the input, that path
    existed when the configuration was validated, and it is spelled as an
    absolute path whenever the input was absolute. *)
Theorem stored_key_path_expanded_and_present kw c :
  VPSConfig.init userhome str_as_int fs kw = Ok c ->
  exists v path,
    assoc "ssh_key_path" kw = Some (PStr v)
    /\ expanduser userhome (Path v) = Ok path
    /\ path_exists fs path = true
    /\ VPSConfig.ssh_key_path c = str path
    /\ Path (VPSConfig.ssh_key_path c) = path
    /\ (is_absolute (Path v) = true ->
        starts_with "/" (VPSConfig.ssh_key_path c) = true).
Proof.
  intros (v & Hv & Hval & _)%construct_ok_inv%VPSConfig_fields_ok_inv.
  apply validate_ssh_key_path_ok_inv in Hval as (path & Hexp & Hex & Hstr).
  assert (Hn : normal path)
    by (eapply normal_expanduser; [apply normal_parse_path | exact Hexp]).
  exists v, path. repeat split; try done.
  - rewrite Hstr. by apply parse_path_str.
  - intros Habs. rewrite Hstr. apply str_absolute; [done | ].
    by eapply expanduser_absolute.
Qed.

(** C10, as the code has it: when the first component of the parsed input
    asks for no home directory and the path exists, [expanduser] returns the
    parsed path and the stored value is its text: the input with empty and
    ["."] components and a trailing separator dropped.  It is the input
    itself when the input is the text of a normal path, and a relative input
    stays relative. *)
Theorem key_path_without_tilde v :
  tilde_first (Path v) = false ->
  path_exists fs (Path v) = true ->
  expanduser userhome (Path v) = Ok (Path v)
  /\ VPSConfig.validate_ssh_key_path userhome fs v = Ok (str (Path v))
  /\ (forall p, normal p -> v = str p -> str (Path v) = v)
  /\ (is_absolute (Path v) = false -> starts_with "/" (str (Path v)) = false).
Proof.
  intros Htilde Hex.
  pose proof (expanduser_no_tilde userhome _ Htilde) as Hexp.
  repeat split; try done.
  - by apply validate_ssh_key_path_found.
  - intros p Hp ->. unfold Path. by rewrite parse_path_str.
  - apply str_relative, normal_parse_path.
Qed.

End VPSConfigFacts.

(** *** [VPSConfig] on the reference platform *)

(** The two scenarios of the specification: a key that is missing, and the
    key of the account given with a tilde. *)
Lemma ssh_key_path_checked_witness :
  (exists errs,
     VPSConfig.init Reference.userhome Reference.str_as_int Reference.disk
       (vps_example "/nonexistent/key")
     = Raise (ValidationError "VPSConfig" errs)
     /\ LineError "value_error" [LKey "ssh_key_path"]
          "Value error, SSH key not found at: /nonexistent/key" ∈ errs)
  /\ VPSConfig.init Reference.userhome Reference.str_as_int Reference.disk
       (vps_example "~/.ssh/id_rsa")
     = Ok (VPSConfig.Build "1.2.3.4" "deploy" "/home/deploy/.ssh/id_rsa" 22 None).
Proof.
  split.
  - apply (proj1 (ssh_key_path_checked Reference.userhome Reference.str_as_int
                    Reference.disk (vps_example "/nonexistent/key")
                    "/nonexistent/key" (MkPath "/" ["nonexistent"; "key"])
                    eq_refl eq_refl)).
    vm_compute. reflexivity.
  - apply (proj2 (ssh_key_path_checked Reference.userhome Reference.str_as_int
                    Reference.disk (vps_example "~/.ssh/id_rsa")
                    "~/.ssh/id_rsa" (MkPath "/" ["home"; "deploy"; ".ssh"; "id_rsa"])
                    eq_refl eq_refl));
      vm_compute; reflexivity.
Defined.

(** A key given by a relative path is stored as a relative path. *)
Lemma relative_key_path_stored_relative :
  VPSConfig.init Reference.userhome Reference.str_as_int Reference.disk
    (vps_example "id_rsa")
  = Ok (VPSConfig.Build "1.2.3.4" "deploy" "id_rsa" 22 None)
  /\ is_absolute (Path "id_rsa") = false
  /\ starts_with "/" "id_rsa" = false.
Proof. vm_compute. by repeat split. Qed.

Lemma stored_key_path_expanded_and_present_witness :
  exists v path,
    assoc "ssh_key_path" (vps_example "~/.ssh/id_rsa") = Some (PStr v)
    /\ expanduser Reference.userhome (Path v) = Ok path
    /\ path_exists Reference.disk path = true
    /\ "/home/deploy/.ssh/id_rsa" = str path
    /\ Path "/home/deploy/.ssh/id_rsa" = path
    /\ (is_absolute (Path v) = true ->
        starts_with "/" "/home/deploy/.ssh/id_rsa" = true).
Proof.
  apply (stored_key_path_expanded_and_present Reference.userhome
           Reference.str_as_int Reference.disk (vps_example "~/.ssh/id_rsa")
           (VPSConfig.Build "1.2.3.4" "deploy" "/home/deploy/.ssh/id_rsa" 22 None)).
  vm_compute. reflexivity.
Defined.

(** An input that starts with no tilde and names an existing file is not
    stored as it was given. *)
Lemma dot_slash_key_path_rewritten :
  starts_with "~" "./id_rsa" = false
  /\ path_exists Reference.disk (Path "./id_rsa") = true
  /\ VPSConfig.validate_ssh_key_path Reference.userhome Reference.disk "./id_rsa"
     = Ok "id_rsa"
  /\ String.eqb "id_rsa" "./id_rsa" = false.
Proof. vm_compute. by repeat split. Qed.

Lemma key_path_without_tilde_witness :
  expanduser Reference.userhome (Path "./id_rsa") = Ok (Path "./id_rsa")
  /\ VPSConfig.validate_ssh_key_path Reference.userhome Reference.disk "./id_rsa"
     = Ok (str (Path "./id_rsa"))
  /\ (forall p, normal p -> "./id_rsa" = str p -> str (Path "./id_rsa") = "./id_rsa")
  /\ (is_absolute (Path "./id_rsa") = false ->
      starts_with "/" (str (Path "./id_rsa")) = false).
Proof.
  apply (key_path_without_tilde Reference.userhome Reference.disk "./id_rsa");
    vm_compute; reflexivity.
Defined.

(** ** [ServiceConfig] *)

Lemma forallb_false {A : Type} (f : A -> bool) (l : list A) :
  forallb f l = false -> exists x, x ∈ l /\ f x = false.
Proof.
  induction l as [ | x l IH]; simpl; [done | ].
  destruct (f x) eqn:Hx; simpl.
  - intros (y & Hy & Hf)%IH. exists y. split; [by right | done].
  - intros _. exists x. split; [by left | done].
Qed.

Lemma dict_items_any d : dict_items any_validator d = VOk d.
Proof.
  induction d as [ | [k x] d IH]; simpl; [done | ]. by rewrite IH.
Qed.

Lemma dict_items_str d :
  forallb (fun kv => is_str (snd kv)) d = true ->
  dict_items str_validator d = VOk (map (fun kv => (fst kv, the_str (snd kv))) d).
Proof.
  induction d as [ | [k x] d IH]; simpl; [done | ].
  intros [Hx Hd]%andb_prop. rewrite (IH Hd). by destruct x.
Qed.

Lemma list_items_str i l :
  forallb is_str l = true -> list_items str_validator i l = VOk (map the_str l).
Proof.
  revert i. induction l as [ | x l IH]; intros i; simpl; [done | ].
  intros [Hx Hl]%andb_prop. rewrite (IH _ Hl). by destruct x.
Qed.

Lemma optional_absent_or_ok {A : Type} kw name (default : A) val
    (shape : pyval -> bool) :
  (forall v, shape v = true -> exists a, val v = VOk a) ->
  match assoc name kw with Some v => shape v | None => true end = true ->
  exists a, optional kw name default val = VOk a
            /\ (assoc name kw = None -> a = default).
Proof.
  intros Hval Hshape. unfold optional.
  destruct (assoc name kw) as [v | ].
  - destruct (Hval v Hshape) as [a Ha]. exists a. rewrite Ha. by split.
  - by exists default.
Qed.

Lemma raises_dict_items {A : Type} (val : pyval -> vres A) d :
  (forall v, raises (val v) = false) -> raises (dict_items val d) = false.
Proof.
  intros H. induction d as [ | [k x] d IH]; cbn [dict_items]; [done | ].
  by rewrite !raises_vap, raises_at_loc, H, IH.
Qed.

Lemma raises_list_items {A : Type} (val : pyval -> vres A) i l :
  (forall v, raises (val v) = false) -> raises (list_items val i l) = false.
Proof.
  intros H. revert i.
  induction l as [ | x l IH]; intros i; cbn [list_items]; [done | ].
  by rewrite !raises_vap, raises_at_loc, H, IH.
Qed.

Lemma raises_dict_validator {A : Type} (val : pyval -> vres A) v :
  (forall v, raises (val v) = false) -> raises (dict_validator val v) = false.
Proof. intros H. destruct v; simpl; try done. by apply raises_dict_items. Qed.

Lemma raises_list_validator {A : Type} (val : pyval -> vres A) v :
  (forall v, raises (val v) = false) -> raises (list_validator val v) = false.
Proof. intros H. destruct v; simpl; try done; by apply raises_list_items. Qed.

Lemma raises_service_fields kw : raises (ServiceConfig.fields kw) = false.
Proof.
  unfold ServiceConfig.fields.
  rewrite !raises_vap, !raises_optional; first done;
    intros; first [by apply raises_dict_validator
                  | by apply raises_list_validator
                  | by apply raises_nullable].
Qed.

(** Every field of [ServiceConfig] that is absent or well shaped validates,
    and an absent one takes its default. *)
Lemma service_fields_shaped kw :
  forallb (absent_or_shaped kw) service_fields = true ->
  exists c,
    ServiceConfig.fields kw = VOk c
    /\ (assoc "image" kw = None -> ServiceConfig.image c = None)
    /\ (assoc "environment" kw = None -> ServiceConfig.environment c = [])
    /\ (assoc "volumes" kw = None -> ServiceConfig.volumes c = [])
    /\ (assoc "ports" kw = None -> ServiceConfig.ports c = [])
    /\ (assoc "depends_on" kw = None -> ServiceConfig.depends_on c = [])
    /\ (assoc "extra" kw = None -> ServiceConfig.extra c = []).
Proof.
  unfold service_fields, absent_or_shaped. simpl.
  intros (H1 & (H2 & (H3 & (H4 & (H5 & (H6 & _)%andb_prop)%andb_prop)%andb_prop)
    %andb_prop)%andb_prop)%andb_prop.
  destruct (optional_absent_or_ok kw "image" None (nullable str_validator)
              (service_shape "image")) as (i & Hi & Hi'); [ | done | ].
  { intros [ | | | s | | | ]; try done; intros _; by eexists. }
  destruct (optional_absent_or_ok kw "environment" [] (dict_validator str_validator)
              (service_shape "environment")) as (e & He & He'); [ | done | ].
  { intros [ | | | | | | d]; try done. intros Hd. eexists. by apply dict_items_str. }
  assert (Hlist : forall name, service_shape name = service_shape "volumes" ->
            match assoc name kw with Some v => service_shape name v | None => true end
            = true ->
            exists a, optional kw name [] (list_validator str_validator) = VOk a
                      /\ (assoc name kw = None -> a = [])).
  { intros name Hn Hs. apply (optional_absent_or_ok kw name [] _ (service_shape name));
      [ | done].
    rewrite Hn. intros [ | | | | l | l | ]; try done; intros Hl; eexists;
      by apply list_items_str. }
  destruct (Hlist "volumes" eq_refl H3) as (v & Hv & Hv').
  destruct (Hlist "ports" eq_refl H4) as (p & Hp & Hp').
  destruct (Hlist "depends_on" eq_refl H5) as (o & Ho & Ho').
  destruct (optional_absent_or_ok kw "extra" [] (dict_validator any_validator)
              (service_shape "extra")) as (x & Hx & Hx'); [ | done | ].
  { intros [ | | | | | | d]; try done. intros _. eexists. by apply dict_items_any. }
  exists (ServiceConfig.Build i e v p o x).
  unfold ServiceConfig.fields. rewrite Hi, He, Hv, Hp, Ho, Hx. by repeat split.
Qed.

(** C7: constructing a [ServiceConfig] succeeds whenever every field is
    absent or has the shape of its annotation, the absent fields taking their
    defaults ([None], empty dicts, empty lists); with no field at all it
    gives the defaults; and when it fails, it fails with a [ValidationError]
    and some field that is present has the wrong shape, as an [environment]
    that is no mapping has. *)
Theorem service_config_fails_only_on_shape kw :
  (forallb (absent_or_shaped kw) service_fields = true ->
   exists c,
     ServiceConfig.init kw = Ok c
     /\ (assoc "image" kw = None -> ServiceConfig.image c = None)
     /\ (assoc "environment" kw = None -> ServiceConfig.environment c = [])
     /\ (assoc "volumes" kw = None -> ServiceConfig.volumes c = [])
     /\ (assoc "ports" kw = None -> ServiceConfig.ports c = [])
     /\ (assoc "depends_on" kw = None -> ServiceConfig.depends_on c = [])
     /\ (assoc "extra" kw = None -> ServiceConfig.extra c = []))
  /\ ServiceConfig.init [] = Ok (ServiceConfig.Build None [] [] [] [] [])
  /\ (forall e, ServiceConfig.init kw = Raise e ->
      (exists errs, e = ValidationError "ServiceConfig" errs)
      /\ exists name v, name ∈ service_fields /\ assoc name kw = Some v
                        /\ service_shape name v = false)
  /\ (forall v, assoc "environment" kw = Some v -> (forall d, v <> PDict d) ->
      exists errs, ServiceConfig.init kw = Raise (ValidationError "ServiceConfig" errs)
                   /\ LineError "dict_type" [LKey "environment"]
                        "Input should be a valid dictionary" ∈ errs).
Proof.
  split; [ | split; [done | split]].
  - intros (c & Hc & Hrest)%service_fields_shaped. exists c.
    unfold ServiceConfig.init. by rewrite Hc.
  - intros e He. split.
    + revert He. unfold ServiceConfig.init.
      pose proof (raises_service_fields kw) as Hr.
      destruct (ServiceConfig.fields kw) as [ | errs | ]; try done.
      intros [= <-]. by exists errs.
    + destruct (forallb (absent_or_shaped kw) service_fields) eqn:Hall.
      * apply service_fields_shaped in Hall as (c & Hc & _).
        unfold ServiceConfig.init in He. by rewrite Hc in He.
      * apply forallb_false in Hall as (name & Hin & Hname).
        unfold absent_or_shaped in Hname.
        destruct (assoc name kw) as [v | ] eqn:Hv; [ | done].
        by exists name, v.
  - intros v Hv Hnot.
    set (e := LineError "dict_type" [LKey "environment"]
                "Input should be a valid dictionary").
    assert (Hall : has_error e (ServiceConfig.fields kw)).
    { unfold ServiceConfig.fields.
      do 4 (apply has_error_vap_l;
            [ | apply raises_optional; intros;
                first [by apply raises_dict_validator | by apply raises_list_validator]]).
      apply has_error_vap_r;
        [ | rewrite raises_vap, raises_optional; [done | ];
            intros; by apply raises_nullable].
      unfold optional. rewrite Hv.
      destruct v; try (by left). by destruct (Hnot d). }
    unfold ServiceConfig.init.
    destruct (ServiceConfig.fields kw) as [ | errs | ]; try done. by exists errs.
Qed.

(** The scenario of the specification: a database service with an image and
    one environment variable. *)
Example service_config_db :
  ServiceConfig.init [("image", PStr "postgres:15");
                      ("environment", PDict [("POSTGRES_PASSWORD", PStr "x")])]
  = Ok (ServiceConfig.Build (Some "postgres:15") [("POSTGRES_PASSWORD", "x")]
          [] [] [] []).
Proof. reflexivity. Qed.

(** ** Defaults *)

Section Defaults.

Variable userhome : string -> option string.
Variable str_as_int : string -> option Z.
Variable fs : filesystem.

Lemma optional_absent {A : Type} kw name (default : A) val a :
  optional kw name default val = VOk a -> assoc name kw = None -> a = default.
Proof. unfold optional. intros H Hk. rewrite Hk in H. by injection H. Qed.

Lemma ApplicationConfig_fields_ok_inv kw c :
  ApplicationConfig.fields str_as_int kw = VOk c ->
  optional kw "dockerfile" "./Dockerfile" str_validator
  = VOk (ApplicationConfig.dockerfile c)
  /\ optional kw "context" "." str_validator = VOk (ApplicationConfig.context c)
  /\ optional kw "port" None (nullable (int_validator str_as_int))
     = VOk (ApplicationConfig.port c)
  /\ optional kw "environment" [] (dict_validator str_validator)
     = VOk (ApplicationConfig.environment c)
  /\ optional kw "dependencies" []
       (dict_validator (model_validator "ServiceConfig" ServiceConfig.fields))
     = VOk (ApplicationConfig.dependencies c).
Proof.
  unfold ApplicationConfig.fields.
  intros (g6 & dp & (g5 & en & (g4 & po & (g3 & cx & (g2 & df & (g1 & dm &
    (g0 & nm & [= <-] & Hnm & ->)%vap_ok_inv & Hdm & ->)%vap_ok_inv
    & Hdf & ->)%vap_ok_inv & Hcx & ->)%vap_ok_inv & Hpo & ->)%vap_ok_inv
    & Hen & ->)%vap_ok_inv & Hdp & ->)%vap_ok_inv.
  by simpl.
Qed.

(** C5: a [VPSConfig] built without [port] has port 22; an
    [ApplicationConfig] built without [dockerfile], [context], [port],
    [environment] or [dependencies] has ["./Dockerfile"], ["."], [None], the
    empty mapping and the empty mapping there; and the blocks that give only
    the required fields are accepted with all these defaults. *)
Theorem omitted_fields_take_defaults :
  (forall kw c,
     VPSConfig.init userhome str_as_int fs kw = Ok c ->
     assoc "port" kw = None -> VPSConfig.port c = 22)
  /\ (forall kw c,
        ApplicationConfig.init str_as_int kw = Ok c ->
        (assoc "dockerfile" kw = None ->
         ApplicationConfig.dockerfile c = "./Dockerfile")
        /\ (assoc "context" kw = None -> ApplicationConfig.context c = ".")
        /\ (assoc "port" kw = None -> ApplicationConfig.port c = None)
        /\ (assoc "environment" kw = None -> ApplicationConfig.environment c = [])
        /\ (assoc "dependencies" kw = None -> ApplicationConfig.dependencies c = []))
  /\ (forall n d,
        ApplicationConfig.init str_as_int [("name", PStr n); ("domain", PStr d)]
        = Ok (ApplicationConfig.Build n d "./Dockerfile" "." None [] []))
  /\ (forall h u k,
        VPSConfig.validate_ssh_key_path userhome fs k = Ok k ->
        VPSConfig.init userhome str_as_int fs
          [("host", PStr h); ("user", PStr u); ("ssh_key_path", PStr k)]
        = Ok (VPSConfig.Build h u k 22 None)).
Proof.
  repeat split.
  - intros kw c (v & _ & _ & Hport)%construct_ok_inv%VPSConfig_fields_ok_inv Hk.
    by apply (optional_absent _ _ _ _ _ Hport).
  - revert H.
    intros (H & _)%construct_ok_inv%ApplicationConfig_fields_ok_inv.
    by apply (optional_absent _ _ _ _ _ H).
  - revert H.
    intros (_ & H & _)%construct_ok_inv%ApplicationConfig_fields_ok_inv.
    by apply (optional_absent _ _ _ _ _ H).
  - revert H.
    intros (_ & _ & H & _)%construct_ok_inv%ApplicationConfig_fields_ok_inv.
    by apply (optional_absent _ _ _ _ _ H).
  - revert H.
    intros (_ & _ & _ & H & _)%construct_ok_inv%ApplicationConfig_fields_ok_inv.
    by apply (optional_absent _ _ _ _ _ H).
  - revert H.
    intros (_ & _ & _ & _ & H)%construct_ok_inv%ApplicationConfig_fields_ok_inv.
    by apply (optional_absent _ _ _ _ _ H).
  - intros h u k Hk. unfold VPSConfig.init, VPSConfig.fields, required,
      after_validator. simpl. by rewrite Hk.
Qed.

End Defaults.

(** The scenario of the specification: the document with only the required
    fields is accepted, the key path expanded and the defaults filled in. *)
Example minimal_document_loads :
  DockLiftConfig.init Reference.userhome Reference.str_as_int Reference.disk
    minimal_document
  = Ok (DockLiftConfig.Build
          (VPSConfig.Build "1.2.3.4" "deploy" "/home/deploy/.ssh/id_rsa" 22 None)
          (ApplicationConfig.Build "blog" "blog.example.com" "./Dockerfile" "."
             None [] [])).
Proof. vm_compute. reflexivity. Qed.

(** ** [from_yaml] *)

Section Loading.

Variable userhome : string -> option string.
Variable str_as_int : string -> option Z.
Variable yaml_safe_load : string -> result pyval.

Abbreviation from_yaml := (DockLiftConfig.from_yaml userhome str_as_int yaml_safe_load).
Abbreviation init := (DockLiftConfig.init userhome str_as_int).

(** C3: on a path that does not exist [from_yaml] raises
    [FileNotFoundError] with its own message, whatever the loader would make
    of a file: the check comes before the file is opened or parsed. *)
Theorem missing_file_reported path fs :
  path_exists fs (Path path) = false ->
  from_yaml path fs
  = Raise (FileNotFoundError ("Configuration file not found: " +:+ path)).
Proof. intros H. unfold DockLiftConfig.from_yaml. by rewrite H. Qed.

Lemma from_yaml_file path fs text :
  stat fs (Path path) = Some (File text) ->
  from_yaml path fs = (data ← yaml_safe_load text; init fs data).
Proof.
  intros H. unfold DockLiftConfig.from_yaml, path_exists, open_read.
  by rewrite H.
Qed.

Lemma required_str_ok_inv kw name s :
  required kw name str_validator = VOk s -> assoc name kw = Some (PStr s).
Proof.
  intros (v & Hv & Hs)%required_ok_inv. by apply str_validator_ok_inv in Hs as ->.
Qed.

Lemma required_model_ok_inv {A : Type} kw name title
    (fields : list (string * pyval) -> vres A) a :
  required kw name (model_validator title fields) = VOk a ->
  exists block, assoc name kw = Some (PDict block) /\ fields block = VOk a.
Proof.
  intros (v & Hv & Hm)%required_ok_inv. destruct v; try done. by eexists.
Qed.

Lemma fields_ok_validated fs kw c :
  DockLiftConfig.fields userhome str_as_int fs kw = VOk c ->
  validated userhome str_as_int fs kw c.
Proof.
  unfold DockLiftConfig.fields.
  intros (g1 & a & (g0 & v & [= <-] & Hv & ->)%vap_ok_inv & Ha & ->)%vap_ok_inv.
  apply required_model_ok_inv in Hv as (vkw & Hvkw & Hv).
  apply required_model_ok_inv in Ha as (akw & Hakw & Ha).
  pose proof Hv as (k & Hk & Hval & _)%VPSConfig_fields_ok_inv.
  apply validate_ssh_key_path_ok_inv in Hval as (p & Hexp & Hex & Hstr).
  exists vkw, akw, k, p. simpl. repeat split; try done.
  - revert Hv. unfold VPSConfig.fields.
    intros (g4 & e & (g3 & po & (g2 & ky & (g1 & u & (g0 & h & [= <-] & Hh & ->)
      %vap_ok_inv & Hu & ->)%vap_ok_inv & _ & ->)%vap_ok_inv & _ & ->)%vap_ok_inv
      & _ & ->)%vap_ok_inv.
    by apply required_str_ok_inv.
  - revert Hv. unfold VPSConfig.fields.
    intros (g4 & e & (g3 & po & (g2 & ky & (g1 & u & (g0 & h & [= <-] & Hh & ->)
      %vap_ok_inv & Hu & ->)%vap_ok_inv & _ & ->)%vap_ok_inv & _ & ->)%vap_ok_inv
      & _ & ->)%vap_ok_inv.
    by apply required_str_ok_inv.
  - revert Ha. unfold ApplicationConfig.fields.
    intros (g6 & dp & (g5 & en & (g4 & po & (g3 & cx & (g2 & df & (g1 & dm &
      (g0 & nm & [= <-] & Hnm & ->)%vap_ok_inv & Hdm & ->)%vap_ok_inv
      & _ & ->)%vap_ok_inv & _ & ->)%vap_ok_inv & _ & ->)%vap_ok_inv
      & _ & ->)%vap_ok_inv & _ & ->)%vap_ok_inv.
    by apply required_str_ok_inv.
  - revert Ha. unfold ApplicationConfig.fields.
    intros (g6 & dp & (g5 & en & (g4 & po & (g3 & cx & (g2 & df & (g1 & dm &
      (g0 & nm & [= <-] & Hnm & ->)%vap_ok_inv & Hdm & ->)%vap_ok_inv
      & _ & ->)%vap_ok_inv & _ & ->)%vap_ok_inv & _ & ->)%vap_ok_inv
      & _ & ->)%vap_ok_inv & _ & ->)%vap_ok_inv.
    by apply required_str_ok_inv.
Qed.

(** C4, as the code has it: for an existing file, a document that the loader
    rejects raises the loader's [YAMLError]; a document whose top level is no
    mapping (an empty document, a scalar, a sequence) raises [TypeError]; a
    mapping whose validation reports line errors raises a [ValidationError]
    that carries them; and a configuration is returned only when the document
    is a mapping that passed the validation of every field, with both blocks
    and all required fields present and the key found. *)
Theorem malformed_document_rejected path fs text :
  stat fs (Path path) = Some (File text) ->
  (forall e, yaml_safe_load text = Raise e -> from_yaml path fs = Raise e)
  /\ (forall data, yaml_safe_load text = Ok data ->
      (forall kw, data <> PDict kw) ->
      from_yaml path fs
      = Raise (TypeError
                 ("docklift.config.DockLiftConfig() argument after ** must be a mapping, not "
                  +:+ type_name data)))
  /\ (forall kw errs, yaml_safe_load text = Ok (PDict kw) ->
      DockLiftConfig.fields userhome str_as_int fs kw = VErr errs ->
      from_yaml path fs = Raise (ValidationError "DockLiftConfig" errs))
  /\ (forall kw, yaml_safe_load text = Ok (PDict kw) ->
      assoc "application" kw = None ->
      raises (required kw "vps"
                (model_validator "VPSConfig" (VPSConfig.fields userhome str_as_int fs))) = false ->
      exists errs,
        from_yaml path fs = Raise (ValidationError "DockLiftConfig" errs)
        /\ LineError "missing" [LKey "application"] "Field required" ∈ errs)
  /\ (forall c, from_yaml path fs = Ok c ->
      exists kw, yaml_safe_load text = Ok (PDict kw) /\ validated userhome str_as_int fs kw c).
Proof.
  intros Hfile. rewrite (from_yaml_file _ _ _ Hfile).
  split; [ | split; [ | split; [ | split]]].
  - by intros e ->.
  - intros data -> Hnot. simpl. destruct data; try done. by destruct (Hnot d).
  - intros kw errs -> Herrs. simpl. by rewrite Herrs.
  - intros kw -> Hmiss Hvps. simpl.
    assert (Hall : has_error (LineError "missing" [LKey "application"] "Field required")
                     (DockLiftConfig.fields userhome str_as_int fs kw)).
    { unfold DockLiftConfig.fields. apply has_error_vap_r.
      - unfold required. rewrite Hmiss. by left.
      - by rewrite raises_vap, Hvps. }
    destruct (DockLiftConfig.fields userhome str_as_int fs kw) as [ | errs | ];
      try done.
    by exists errs.
  - intros c. destruct (yaml_safe_load text) as [data | e]; [ | done]. simpl.
    destruct data as [ | | | | | | kw]; try done.
    intros Hc%construct_ok_inv. exists kw. split; [done | ].
    by apply fields_ok_validated.
Qed.

End Loading.

(** *** Loading on the reference platform *)

Lemma missing_file_reported_witness :
  DockLiftConfig.from_yaml Reference.userhome Reference.str_as_int
    Reference.yaml_safe_load "docklift.yml" Reference.disk
  = Raise (FileNotFoundError "Configuration file not found: docklift.yml").
Proof.
  apply (missing_file_reported Reference.userhome Reference.str_as_int
           Reference.yaml_safe_load "docklift.yml" Reference.disk).
  vm_compute. reflexivity.
Defined.

(** An empty document is rejected with a [TypeError]: neither an error of the
    loader nor a [ValidationError]. *)
Lemma empty_document_raises_type_error :
  stat disk_with_empty_document (Path "docklift.yml") = Some (File "")
  /\ Reference.yaml_safe_load "" = Ok PNone
  /\ DockLiftConfig.from_yaml Reference.userhome Reference.str_as_int
       Reference.yaml_safe_load "docklift.yml" disk_with_empty_document
     = Raise (TypeError
             "docklift.config.DockLiftConfig() argument after ** must be a mapping, not NoneType").
Proof. vm_compute. by repeat split. Qed.

Lemma malformed_document_rejected_witness :
  DockLiftConfig.from_yaml Reference.userhome Reference.str_as_int
    Reference.yaml_safe_load "docklift.yml" disk_with_empty_document
  = Raise (TypeError
             "docklift.config.DockLiftConfig() argument after ** must be a mapping, not NoneType").
Proof.
  apply (proj1 (proj2 (malformed_document_rejected Reference.userhome
                         Reference.str_as_int Reference.yaml_safe_load
                         "docklift.yml" disk_with_empty_document "" eq_refl))
           PNone); [reflexivity | discriminate].
Defined.

(** ** The file system under [mkdir] and [open] *)

Lemma str_inj p q : normal p -> normal q -> str p = str q -> p = q.
Proof.
  intros Hp Hq H. rewrite <- (parse_path_str p Hp), <- (parse_path_str q Hq).
  by rewrite H.
Qed.

Lemma removelast_prefix {A : Type} (l : list A) : removelast l `prefix_of` l.
Proof.
  destruct l as [ | x l]; [by exists [] | ].
  exists [List.last (x :: l) x]. by apply app_removelast_last.
Qed.

Lemma removelast_length {A : Type} (l : list A) :
  length (removelast l) = pred (length l).
Proof.
  induction l as [ | x [ | y l] IH]; [done | done | ].
  change (removelast (x :: y :: l)) with (x :: removelast (y :: l)).
  simpl in *. by rewrite IH.
Qed.

Lemma normal_parent p : normal p -> normal (parent p).
Proof.
  intros [Hr Ht]. split; [done | ]. simpl.
  destruct (removelast_prefix (tail p)) as [k Hk]. rewrite Hk in Ht.
  by apply Forall_app in Ht as [? _].
Qed.

Lemma parent_at_or_above p : at_or_above (parent p) p.
Proof. split; [done | apply removelast_prefix]. Qed.

Lemma at_or_above_refl p : at_or_above p p.
Proof. by split. Qed.

Lemma at_or_above_trans p q r :
  at_or_above p q -> at_or_above q r -> at_or_above p r.
Proof. intros [? ?] [? ?]. split; [congruence | by etrans]. Qed.

Lemma parent_fixed p : parent p = p -> tail p = [].
Proof.
  destruct p as [rt tl]. unfold parent. simpl. intros [= H].
  pose proof (removelast_length tl) as Hl. rewrite H in Hl.
  destruct tl; [done | simpl in Hl; lia].
Qed.

Lemma not_above_parent p : tail p <> [] -> ~ at_or_above p (parent p).
Proof.
  intros Hne [_ Hpre%prefix_length]. simpl in Hpre.
  rewrite removelast_length in Hpre. destruct (tail p); [done | simpl in Hpre; lia].
Qed.

Lemma stat_insert_eq fs p e : tail p <> [] -> stat (<[str p := e]> fs) p = Some e.
Proof.
  intros Hne. unfold stat. destruct (tail p); [done | ]. by rewrite lookup_insert_eq.
Qed.

Lemma only_dirs_added_refl fs p : only_dirs_added fs fs p.
Proof. intros key. by left. Qed.

Lemma only_dirs_added_trans fs1 fs2 fs3 p q :
  at_or_above p q ->
  only_dirs_added fs1 fs2 p -> only_dirs_added fs2 fs3 q ->
  only_dirs_added fs1 fs3 q.
Proof.
  intros Hpq H12 H23 key.
  destruct (H12 key) as [E12 | (N1 & D2 & r & Hr & Hrp & Ek)],
           (H23 key) as [E23 | (N2 & D3 & r' & Hr' & Hrq & E)].
  - left. congruence.
  - right. rewrite <- E12. repeat split; try done. by exists r'.
  - right. repeat split; [done | congruence | ].
    exists r. split; [done | ]. split; [by eapply at_or_above_trans | done].
  - congruence.
Qed.

(** A path that is not touched reads the same afterwards. *)
Lemma only_dirs_added_stat fs fs' p q :
  only_dirs_added fs fs' p -> normal q -> ~ at_or_above q p ->
  stat fs' q = stat fs q.
Proof.
  intros H Hq Hnot. unfold stat. destruct (tail q) eqn:Ht; [done | ].
  destruct (H (str q)) as [E | (_ & _ & r & Hr & Hrp & E)]; [done | ].
  apply str_inj in E; [ | done | done]. by subst.
Qed.

(** What was there stays there. *)
Lemma only_dirs_added_keeps fs fs' p q e :
  only_dirs_added fs fs' p -> stat fs q = Some e -> stat fs' q = Some e.
Proof.
  intros H. unfold stat. destruct (tail q); [done | ].
  destruct (H (str q)) as [-> | (N & _)]; [done | ]. by rewrite N.
Qed.

Lemma os_mkdir_ok fs p fs' :
  os_mkdir fs p = Ok fs' ->
  tail p <> [] /\ stat fs p = None /\ fs' = <[str p := Dir]> fs.
Proof.
  unfold os_mkdir. destruct (stat fs (parent p)) as [[ | ] | ]; try done.
  destruct (stat fs p) eqn:Hs; [done | ]. intros [= <-].
  split; [ | done]. intros Ht. unfold stat in Hs. by rewrite Ht in Hs.
Qed.

Lemma os_mkdir_effect fs p fs' :
  normal p -> os_mkdir fs p = Ok fs' ->
  is_dir fs' p = true /\ only_dirs_added fs fs' p.
Proof.
  intros Hp (Hne & Hnone & ->)%os_mkdir_ok. split.
  - unfold is_dir. by rewrite stat_insert_eq.
  - intros key. destruct (decide (key = str p)) as [-> | Hk].
    + right. unfold stat in Hnone. destruct (tail p); [done | ].
      rewrite lookup_insert_eq. split; [done | ]. split; [done | ].
      exists p. split; [done | ]. split; [apply at_or_above_refl | done].
    + left. by rewrite lookup_insert_ne.
Qed.

(** When [mkdir] returns, the path is a directory and nothing but missing
    directories at or above it was created. *)
Lemma mkdir_fuel_ok fuel p parents exist_ok fs fs' :
  normal p ->
  mkdir_fuel fuel p parents exist_ok fs = Ok fs' ->
  is_dir fs' p = true /\ only_dirs_added fs fs' p.
Proof.
  revert p parents exist_ok fs fs'.
  induction fuel as [ | fuel IH]; intros p parents exist_ok fs fs' Hp;
    cbn [mkdir_fuel]; destruct (os_mkdir fs p) as [fs1 | e] eqn:Hos.
  1, 3: intros [= <-]; by apply os_mkdir_effect.
  - destruct e; try (destruct (negb exist_ok || negb (is_dir fs p)) eqn:Hd;
      [done | intros [= <-]; apply orb_false_elim in Hd as [_ Hd%negb_false_iff];
              split; [done | apply only_dirs_added_refl]]).
    by destruct (negb parents || bool_decide (parent p = p)).
  - destruct e; try (destruct (negb exist_ok || negb (is_dir fs p)) eqn:Hd;
      [done | intros [= <-]; apply orb_false_elim in Hd as [_ Hd%negb_false_iff];
              split; [done | apply only_dirs_added_refl]]).
    destruct (negb parents || bool_decide (parent p = p)); [done | ].
    destruct (mkdir_fuel fuel (parent p) true true fs) as [fs1 | ] eqn:H1;
      [ | done].
    simpl. intros H2.
    apply IH in H1 as [_ H1]; [ | by apply normal_parent].
    apply IH in H2 as [Hd H2]; [ | done].
    split; [done | ].
    eapply only_dirs_added_trans; [apply parent_at_or_above | exact H1 | exact H2].
Qed.

Lemma stat_top fs p : tail p = [] -> stat fs p = Some Dir.
Proof. intros Ht. unfold stat. by rewrite Ht. Qed.

(** The root and the working directory are there already. *)
Lemma mkdir_fuel_top fuel p parents fs :
  tail p = [] -> mkdir_fuel fuel p parents true fs = Ok fs.
Proof.
  intros Ht.
  assert (Hpar : stat fs (parent p) = Some Dir)
    by (apply stat_top; simpl; by rewrite Ht).
  destruct fuel; cbn [mkdir_fuel]; unfold os_mkdir, is_dir;
    by rewrite Hpar, (stat_top fs p Ht).
Qed.

Lemma mkdir_fuel_no_parents fuel p exist_ok fs :
  mkdir_fuel fuel p false exist_ok fs = mkdir_fuel 0 p false exist_ok fs.
Proof.
  destruct fuel; [done | ]. cbn [mkdir_fuel].
  destruct (os_mkdir fs p) as [ | e]; [done | ]. by destruct e.
Qed.

Lemma mkdir_fuel_step fuel p parents exist_ok fs :
  (length (tail p) <= fuel)%nat ->
  mkdir_fuel (S fuel) p parents exist_ok fs = mkdir_fuel fuel p parents exist_ok fs.
Proof.
  revert p parents exist_ok fs.
  induction fuel as [ | fuel IH]; intros p parents exist_ok fs Hlen.
  - assert (Ht : tail p = []) by (destruct (tail p); [done | simpl in Hlen; lia]).
    assert (Hp : parent p = p) by (destruct p; unfold parent; simpl in *; by subst).
    cbn [mkdir_fuel]. rewrite Hp, bool_decide_eq_true_2, orb_true_r by done.
    destruct (os_mkdir fs p) as [ | e]; [done | ]. by destruct e.
  - cbn [mkdir_fuel]. destruct (os_mkdir fs p) as [ | e]; [done | ].
    destruct e; try done.
    destruct (negb parents || bool_decide (parent p = p)); [done | ].
    change (mkdir_fuel (S fuel) (parent p) true true fs
            ≫= (fun fs1 => mkdir_fuel (S fuel) p false exist_ok fs1)
            = mkdir_fuel fuel (parent p) true true fs
              ≫= (fun fs1 => mkdir_fuel fuel p false exist_ok fs1)).
    rewrite IH by (simpl; rewrite removelast_length; lia).
    destruct (mkdir_fuel fuel (parent p) true true fs) as [fs1 | ]; [ | done].
    change (mkdir_fuel (S fuel) p false exist_ok fs1
            = mkdir_fuel fuel p false exist_ok fs1).
    by rewrite (mkdir_fuel_no_parents (S fuel)), (mkdir_fuel_no_parents fuel).
Qed.

(** The bound on the recursion is never hit: more fuel than the path has
    components changes nothing. *)
Lemma mkdir_fuel_enough fuel p parents exist_ok fs :
  (length (tail p) <= fuel)%nat ->
  mkdir_fuel fuel p parents exist_ok fs = mkdir p parents exist_ok fs.
Proof.
  unfold mkdir. induction fuel as [ | fuel IH]; intros Hlen.
  - by replace (length (tail p)) with 0%nat by lia.
  - destruct (decide (length (tail p) = S fuel)) as [-> | Hne]; [done | ].
    rewrite mkdir_fuel_step by lia. apply IH. lia.
Qed.

(** [mkdir(parents=True, exist_ok=True)] returns when nothing at or above the
    path is a regular file. *)
Lemma mkdir_fuel_succeeds fuel p fs :
  normal p ->
  (forall q, normal q -> at_or_above q p -> stat fs q = None \/ stat fs q = Some Dir) ->
  (length (tail p) <= fuel)%nat ->
  exists fs', mkdir_fuel fuel p true true fs = Ok fs'.
Proof.
  revert p fs. induction fuel as [ | fuel IH]; intros p fs Hp Hfree Hlen.
  - assert (Ht : tail p = []) by (destruct (tail p); [done | simpl in Hlen; lia]).
    exists fs. by apply mkdir_fuel_top.
  - cbn [mkdir_fuel]. unfold os_mkdir.
    destruct (Hfree p Hp (at_or_above_refl p)) as [Hself | Hself].
    + destruct (Hfree (parent p) (normal_parent p Hp) (parent_at_or_above p))
        as [Hpar | Hpar]; rewrite Hpar.
      * assert (Hne : tail p <> []).
        { intros Ht. unfold stat in Hself. by rewrite Ht in Hself. }
        cbn [negb orb]. rewrite bool_decide_eq_false_2
          by (intros H%parent_fixed; done).
        destruct (IH (parent p) fs) as [fs1 H1].
        { by apply normal_parent. }
        { intros q Hq Hqp. apply Hfree; [done | ].
          eapply at_or_above_trans; [exact Hqp | apply parent_at_or_above]. }
        { simpl. rewrite removelast_length. lia. }
        rewrite H1. simpl.
        apply mkdir_fuel_ok in H1 as [Hdir Hadd]; [ | by apply normal_parent].
        assert (Hself1 : stat fs1 p = None).
        { rewrite (only_dirs_added_stat fs fs1 (parent p) p); try done.
          by apply not_above_parent. }
        destruct fuel; cbn [mkdir_fuel]; unfold os_mkdir;
          unfold is_dir in Hdir; destruct (stat fs1 (parent p)) as [[ | ] | ];
          try done; rewrite Hself1; by eexists.
      * rewrite Hself. by eexists.
    + destruct (Hfree (parent p) (normal_parent p Hp) (parent_at_or_above p))
        as [Hpar | Hpar]; rewrite Hpar.
      * assert (Hne : tail p <> []).
        { intros Ht. unfold stat, parent in Hpar. simpl in Hpar.
          by rewrite Ht in Hpar. }
        cbn [negb orb]. rewrite bool_decide_eq_false_2
          by (intros H%parent_fixed; done).
        destruct (IH (parent p) fs) as [fs1 H1].
        { by apply normal_parent. }
        { intros q Hq Hqp. apply Hfree; [done | ].
          eapply at_or_above_trans; [exact Hqp | apply parent_at_or_above]. }
        { simpl. rewrite removelast_length. lia. }
        rewrite H1. simpl.
        apply mkdir_fuel_ok in H1 as [Hdir Hadd]; [ | by apply normal_parent].
        assert (Hself1 : stat fs1 p = Some Dir)
          by (by eapply only_dirs_added_keeps).
        destruct fuel; cbn [mkdir_fuel]; unfold os_mkdir;
          unfold is_dir in *; destruct (stat fs1 (parent p)) as [[ | ] | ];
          try done; rewrite Hself1; simpl; by eexists.
      * rewrite Hself. cbn [negb orb]. unfold is_dir. rewrite Hself. by eexists.
Qed.

(** ** [yaml.dump] *)

#[global] Instance item_le_total {A : Type} : Total (@item_le A).
Proof. intros x y. unfold item_le. apply String.le_total. Qed.

#[global] Instance item_le_trans {A : Type} : Transitive (@item_le A).
Proof. intros x y z. unfold item_le. apply transitivity. Qed.

Lemma forallb_Forall {A : Type} (f : A -> bool) l :
  forallb f l = true <-> Forall (fun x => f x = true) l.
Proof.
  rewrite forallb_forall, Forall_forall. split; intros H x Hx; apply H;
    by apply list_elem_of_In.
Qed.

Lemma sorted_items_keys {A : Type} (d : list (string * A)) :
  Sorted item_le d -> Sorted String.le (keys d).
Proof. apply (Sorted_fmap fst item_le String.le). by intros x y. Qed.

(** [yaml.dump] hands the emitter mappings whose keys are in order. *)
Lemma sort_keys_sorted v : keys_sorted (sort_keys v) = true.
Proof.
  induction v as [ | | | | l IH | l IH | d IH] using pyval_deep_ind; try done.
  - simpl. apply forallb_Forall, Forall_map. exact IH.
  - simpl. apply forallb_Forall, Forall_map. exact IH.
  - simpl. apply andb_true_intro. split.
    + apply bool_decide_eq_true_2, sorted_items_keys, Sorted_merge_sort; apply _.
    + apply forallb_Forall.
      rewrite (merge_sort_Permutation item_le). apply Forall_map.
      eapply Forall_impl; [exact IH | ]. by intros [k x].
Qed.

(** ** [to_yaml] *)

Section Saving.

Variable yaml_emit : bool -> pyval -> string.

Abbreviation to_yaml := (DockLiftConfig.to_yaml yaml_emit).

Lemma open_write_ok fs p fs' :
  open_write fs p = Ok fs' ->
  tail p <> [] /\ fs' = <[str p := File ""]> fs.
Proof.
  unfold open_write. destruct (stat fs (parent p)) as [[ | ] | ]; try done.
  destruct (stat fs p) as [[ | ] | ] eqn:Hs; try done; intros [= <-];
    (split; [ | done]); intros Ht; by rewrite (stat_top fs p Ht) in Hs.
Qed.

(** What [to_yaml] leaves behind when it returns. *)
Lemma to_yaml_returns self path fs fs' :
  let p := Path path in
  let text := yaml_emit false (sort_keys (DockLiftConfig.model_dump self)) in
  to_yaml self path fs = Ok fs' ->
  exists fs1,
    mkdir (parent p) true true fs = Ok fs1
    /\ is_dir fs1 (parent p) = true
    /\ only_dirs_added fs fs1 (parent p)
    /\ fs' = <[str p := File text]> fs1
    /\ stat fs' p = Some (File text)
    /\ (forall key c, key <> str p -> fs' !! key = Some (File c) ->
                      fs !! key = Some (File c)).
Proof.
  intros p text. pose proof (normal_parse_path path) as Hp. fold (Path path) in Hp.
  fold p in Hp. unfold DockLiftConfig.to_yaml. fold p.
  destruct (mkdir (parent p) true true fs) as [fs1 | ] eqn:Hmk; [ | done]. simpl.
  destruct (open_write fs1 p) as [fs2 | ] eqn:Hop; [ | done]. simpl.
  intros [= <-]. apply open_write_ok in Hop as [Hne ->].
  apply mkdir_fuel_ok in Hmk as [Hdir Hadd]; [ | by apply normal_parent].
  exists fs1. unfold write, DockLiftConfig.yaml_dump. fold text.
  rewrite insert_insert_eq. repeat split; try done.
  - by apply stat_insert_eq.
  - intros key c Hkey. rewrite lookup_insert_ne by done.
    destruct (Hadd key) as [-> | (_ & -> & _)]; done.
Qed.

(** [to_yaml] returns when nothing stands in its way. *)
Lemma to_yaml_succeeds self path fs :
  writable fs (Path path) -> exists fs', to_yaml self path fs = Ok fs'.
Proof.
  set (p := Path path). pose proof (normal_parse_path path) as Hp.
  fold (Path path) in Hp. fold p in Hp.
  intros [Hfree Hnodir]. unfold DockLiftConfig.to_yaml. fold p.
  destruct (mkdir_fuel_succeeds (length (tail (parent p))) (parent p) fs)
    as [fs1 Hmk]; [by apply normal_parent | done | done | ].
  unfold mkdir. rewrite Hmk. simpl.
  apply mkdir_fuel_ok in Hmk as [Hdir Hadd]; [ | by apply normal_parent].
  unfold open_write. unfold is_dir in Hdir.
  destruct (stat fs1 (parent p)) as [[ | ] | ]; try done.
  destruct (stat fs1 p) as [[ | ] | ] eqn:Hs; try (by eexists).
  destruct (decide (tail p = [])) as [Ht | Ht].
  - by rewrite (stat_top fs p Ht) in Hnodir.
  - rewrite (only_dirs_added_stat fs fs1 (parent p) p) in Hs; try done.
    by apply not_above_parent.
Qed.

(** C8: when [to_yaml] returns, the directory of the path was made first,
    creating only directories that were missing at or above it, and the file
    at the path then holds the document that the emitter writes in block
    style for the dump of the configuration with every mapping in the order
    of its keys, whatever the path held before; no other regular file
    appears.  It returns whenever nothing above the path is a regular file
    and the path is no directory. *)
Theorem to_yaml_effect self path fs :
  let p := Path path in
  let text := yaml_emit false (sort_keys (DockLiftConfig.model_dump self)) in
  (forall fs',
     to_yaml self path fs = Ok fs' ->
     exists fs1,
       mkdir (parent p) true true fs = Ok fs1
       /\ is_dir fs1 (parent p) = true
       /\ only_dirs_added fs fs1 (parent p)
       /\ fs' = <[str p := File text]> fs1
       /\ stat fs' p = Some (File text)
       /\ (forall key c, key <> str p -> fs' !! key = Some (File c) ->
                         fs !! key = Some (File c)))
  /\ keys_sorted (sort_keys (DockLiftConfig.model_dump self)) = true
  /\ (writable fs p -> exists fs', to_yaml self path fs = Ok fs').
Proof.
  intros p text. split; [ | split].
  - intros fs'. apply to_yaml_returns.
  - apply sort_keys_sorted.
  - apply to_yaml_succeeds.
Qed.

End Saving.

(** Saving to [conf/docklift.yml] on the reference machine, where [conf] does
    not exist: the directory is made and the file holds the document. *)
Example to_yaml_makes_directory :
  stat Reference.disk (Path "conf") = None
  /\ stat (saved_disk (example_blog [] [])) (Path "conf") = Some Dir
  /\ stat (saved_disk (example_blog [] [])) (Path "conf/docklift.yml")
     = Some (File (Reference.yaml_emit false
                     (sort_keys (DockLiftConfig.model_dump (example_blog [] [])))))
  /\ stat (saved_disk (example_blog [] [])) (Path "id_rsa")
     = Some (File "PRIVATE KEY").
Proof. vm_compute. by repeat split. Qed.

(** ** Structural equality and the dump *)

Lemma assoc_elem {A : Type} k (d : list (string * A)) v :
  assoc k d = Some v -> (k, v) ∈ d.
Proof.
  induction d as [ | [k' x] d IH]; simpl; [done | ].
  destruct (String.eqb_spec k' k) as [-> | Hne].
  - intros [= ->]. by left.
  - intros H. right. by apply IH.
Qed.

Lemma assoc_map {A B : Type} (f : A -> B) k (d : list (string * A)) :
  assoc k (map (fun kv => (fst kv, f (snd kv))) d) = f <$> assoc k d.
Proof.
  induction d as [ | [k' x] d IH]; simpl; [done | ].
  by destruct (String.eqb k' k).
Qed.

Lemma assoc_NoDup {A : Type} k (d : list (string * A)) v :
  NoDup (keys d) -> (k, v) ∈ d -> assoc k d = Some v.
Proof.
  induction d as [ | [k' x] d IH]; simpl; [by intros _ ?%elem_of_nil | ].
  intros [Hk Hd]%NoDup_cons [[= -> ->] | Hin]%elem_of_cons.
  - by rewrite String.eqb_refl.
  - destruct (String.eqb_spec k' k) as [-> | Hne]; [ | by apply IH].
    destruct Hk. apply list_elem_of_fmap. by exists (k, v).
Qed.

Lemma keys_map {A B : Type} (f : A -> B) (d : list (string * A)) :
  keys (map (fun kv => (fst kv, f (snd kv))) d) = keys d.
Proof. unfold keys. rewrite map_map. by apply map_ext. Qed.

(** Equality of dicts is kept when equal values are mapped to equal values. *)
Lemma dict_eqb_map {A B A' B' : Type} (R : A -> B -> bool) (R' : A' -> B' -> bool)
    (f : A -> A') (g : B -> B') d e :
  Forall (fun kv => forall y, R (snd kv) y = true -> R' (f (snd kv)) (g y) = true) d ->
  dict_eqb R d e = true ->
  dict_eqb R' (map (fun kv => (fst kv, f (snd kv))) d)
              (map (fun kv => (fst kv, g (snd kv))) e) = true.
Proof.
  intros HR. unfold dict_eqb. rewrite !length_map.
  intros [Hlen Hall]%andb_prop. rewrite Hlen. simpl.
  apply forallb_Forall. apply forallb_Forall in Hall. apply Forall_map.
  revert Hall. clear Hlen. induction HR as [ | [k x] d Hx HR IH];
    [constructor | ]. simpl in *.
  intros [Hk Hd]%Forall_cons. constructor; [ | by apply IH]. simpl in *.
  rewrite assoc_map. destruct (assoc k e) as [y | ]; [ | done]. simpl.
  by apply Hx.
Qed.

Lemma list_eqb_map {A B A' B' : Type} (R : A -> B -> bool) (R' : A' -> B' -> bool)
    (f : A -> A') (g : B -> B') l m :
  Forall (fun x => forall y, R x y = true -> R' (f x) (g y) = true) l ->
  list_eqb R l m = true -> list_eqb R' (map f l) (map g m) = true.
Proof.
  intros HR. revert m. induction HR as [ | x l Hx HR IH]; intros [ | y m];
    simpl; try done.
  intros [Hxy Hlm]%andb_prop. by rewrite (Hx y Hxy), (IH m Hlm).
Qed.

(** The JSON form of equal values is equal. *)
Lemma to_jsonable_eqb v w :
  py_eqb v w = true -> py_eqb (to_jsonable v) (to_jsonable w) = true.
Proof.
  revert w.
  induction v as [ | | | | l IH | l IH | d IH] using pyval_deep_ind;
    intros [ | | | | m | m | e]; try done; simpl.
  - by apply list_eqb_map.
  - by apply list_eqb_map.
  - by apply dict_eqb_map.
Qed.

Lemma unique_keys_to_jsonable v : unique_keys (to_jsonable v) = unique_keys v.
Proof.
  induction v as [ | | | | l IH | l IH | d IH] using pyval_deep_ind; try done.
  - simpl. induction IH as [ | x l Hx _ IHl]; simpl; [done | ]. by rewrite Hx, IHl.
  - simpl. induction IH as [ | x l Hx _ IHl]; simpl; [done | ]. by rewrite Hx, IHl.
  - simpl. rewrite keys_map. f_equal.
    induction IH as [ | [k x] d Hx _ IHd]; simpl; [done | ].
    simpl in Hx. by rewrite Hx, IHd.
Qed.

(** Two lists of items with distinct keys that hold the same items sort to
    the same list. *)
Lemma merge_sort_items_unique {A : Type} (d e : list (string * A)) :
  NoDup (keys d) -> d ≡ₚ e -> merge_sort item_le d = merge_sort item_le e.
Proof.
  intros Hd Hperm.
  apply (Sorted_unique_strong item_le).
  - intros x1 x2 H1 H2 H12 H21.
    assert (Hk : fst x1 = fst x2) by (by apply (anti_symm String.le)).
    rewrite merge_sort_Permutation in H1. rewrite merge_sort_Permutation in H2.
    rewrite <- Hperm in H2.
    destruct x1 as [k v1], x2 as [k' v2]. simpl in Hk. subst k'.
    apply (assoc_NoDup _ _ _ Hd) in H1, H2. congruence.
  - apply Sorted_merge_sort; apply _.
  - apply Sorted_merge_sort; apply _.
  - by rewrite !merge_sort_Permutation.
Qed.

Lemma NoDup_items {A : Type} (d : list (string * A)) : NoDup (keys d) -> NoDup d.
Proof. apply NoDup_fmap_1. Qed.

(** Equal dicts with distinct keys hold the same items once equal values are
    mapped to the same value. *)
Lemma dict_eqb_Permutation {A B C : Type} (R : A -> B -> bool)
    (f : A -> C) (g : B -> C) d e :
  NoDup (keys d) -> NoDup (keys e) ->
  Forall (fun kv => forall y, R (snd kv) y = true -> f (snd kv) = g y) d ->
  dict_eqb R d e = true ->
  map (fun kv => (fst kv, f (snd kv))) d ≡ₚ map (fun kv => (fst kv, g (snd kv))) e.
Proof.
  intros Hd He HR [Hlen Hall]%andb_prop. apply Nat.eqb_eq in Hlen.
  apply NoDup_Permutation_bis.
  - apply NoDup_ListNoDup, NoDup_items. by rewrite keys_map.
  - rewrite !length_map. lia.
  - intros x Hx. apply list_elem_of_In in Hx. apply list_elem_of_In.
    apply list_elem_of_fmap in Hx as ([k v] & -> & Hkv). simpl.
    apply forallb_Forall in Hall. rewrite Forall_forall in Hall, HR.
    specialize (Hall _ Hkv). specialize (HR _ Hkv). simpl in *.
    destruct (assoc k e) as [w | ] eqn:Hw; [ | done].
    rewrite (HR w Hall). apply list_elem_of_fmap. exists (k, w).
    split; [done | by apply assoc_elem].
Qed.

Lemma forallb_elem {A : Type} (f : A -> bool) l x :
  forallb f l = true -> x ∈ l -> f x = true.
Proof. rewrite forallb_Forall, Forall_forall. auto. Qed.

(** [yaml.dump] lays out equal values in the same way. *)
Lemma sort_keys_eqb v w :
  py_eqb v w = true -> unique_keys v = true -> unique_keys w = true ->
  sort_keys v = sort_keys w.
Proof.
  revert w.
  induction v as [ | b | z | s | l IH | l IH | d IH] using pyval_deep_ind;
    intros [ | b' | z' | s' | m | m | e]; try done; simpl.
  - intros H%Bool.eqb_prop _ _. by subst.
  - intros H%Z.eqb_eq _ _. by subst.
  - intros H%String.eqb_eq _ _. by subst.
  - intros Heq Hl Hm. f_equal. revert m Heq Hm.
    induction IH as [ | x l Hx _ IHl]; intros [ | y m]; simpl; try done.
    simpl in Hl. apply andb_prop in Hl as [Hxu Hlu].
    intros [Hxy Hlm]%andb_prop [Hyu Hmu]%andb_prop.
    by rewrite (Hx y), (IHl Hlu m).
  - intros Heq Hl Hm. f_equal. revert m Heq Hm.
    induction IH as [ | x l Hx _ IHl]; intros [ | y m]; simpl; try done.
    simpl in Hl. apply andb_prop in Hl as [Hxu Hlu].
    intros [Hxy Hlm]%andb_prop [Hyu Hmu]%andb_prop.
    by rewrite (Hx y), (IHl Hlu m).
  - intros Heq [Hd Hdu]%andb_prop [He Heu]%andb_prop.
    apply bool_decide_eq_true_1 in Hd, He. f_equal.
    apply merge_sort_items_unique; [by rewrite keys_map | ].
    assert (Hperm : map (fun kv => (fst kv, sort_keys (snd kv))) d
                    ≡ₚ map (fun kv => (fst kv, sort_keys (snd kv))) e);
      [ | done].
    assert (Heq' : dict_eqb (fun x y => py_eqb x y && unique_keys y) d e = true).
    { unfold dict_eqb in *. apply andb_prop in Heq as [Hlen Hall].
      rewrite Hlen. simpl. apply forallb_Forall. apply forallb_Forall in Hall.
      eapply Forall_impl; [exact Hall | ]. intros [k x]. simpl.
      destruct (assoc k e) as [y | ] eqn:Hy; [ | done]. intros ->. simpl.
      apply assoc_elem in Hy. by apply (forallb_elem _ _ _ Heu) in Hy. }
    apply (dict_eqb_Permutation (fun x y => py_eqb x y && unique_keys y)
             sort_keys sort_keys d e Hd He); [ | exact Heq'].
    apply Forall_forall. intros [k x] Hkx y [Hxy Hy]%andb_prop. simpl in *.
    rewrite Forall_forall in IH. apply (IH _ Hkx); [done | | done].
    by apply (forallb_elem _ _ _ Hdu) in Hkx.
Qed.

Lemma str_list_eqb l : list_eqb py_eqb (map PStr l) (map PStr l) = true.
Proof. induction l as [ | x l IH]; simpl; [done | ]. by rewrite String.eqb_refl. Qed.

Lemma str_list_unique l : forallb unique_keys (map PStr l) = true.
Proof. by induction l. Qed.

Lemma str_dict_eqb d e :
  dict_eqb String.eqb d e = true ->
  dict_eqb py_eqb (map (fun kv => (fst kv, PStr (snd kv))) d)
                  (map (fun kv => (fst kv, PStr (snd kv))) e) = true.
Proof. apply dict_eqb_map. apply Forall_forall. by intros. Qed.

Lemma str_dict_unique d :
  NoDup (keys d) -> unique_keys (ServiceConfig.dump_str_dict d) = true.
Proof.
  intros Hd. unfold ServiceConfig.dump_str_dict. cbn [unique_keys].
  rewrite keys_map, bool_decide_eq_true_2 by done. cbn [andb].
  apply forallb_Forall, Forall_map, Forall_forall. by intros.
Qed.

Lemma option_str_eqb (o : option string) :
  py_eqb match o with Some i => PStr i | None => PNone end
         match o with Some i => PStr i | None => PNone end = true.
Proof. destruct o; simpl; [apply String.eqb_refl | done]. Qed.

Lemma service_dump_eqb s1 s2 :
  service_eqb s1 s2 = true ->
  py_eqb (ServiceConfig.model_dump s1) (ServiceConfig.model_dump s2) = true.
Proof.
  destruct s1 as [i1 e1 v1 p1 o1 x1], s2 as [i2 e2 v2 p2 o2 x2].
  unfold service_eqb. simpl.
  intros [[[[[Hi He]%andb_prop Hv]%andb_prop Hp]%andb_prop Ho]%andb_prop Hx]%andb_prop.
  apply bool_decide_eq_true_1 in Hi, Hv, Hp, Ho. subst.
  unfold dict_eqb at 1. simpl.
  rewrite option_str_eqb, !str_list_eqb, (str_dict_eqb _ _ He). simpl.
  rewrite andb_true_r. exact (to_jsonable_eqb (PDict x1) (PDict x2) Hx).
Qed.

Lemma service_dump_unique s :
  service_unique_keys s = true -> unique_keys (ServiceConfig.model_dump s) = true.
Proof.
  destruct s as [i e v p o x]. unfold service_unique_keys.
  cbn [ServiceConfig.extra ServiceConfig.environment].
  intros [He Hx]%andb_prop. apply bool_decide_eq_true_1 in He.
  rewrite <- unique_keys_to_jsonable in Hx.
  unfold ServiceConfig.model_dump.
  cbn [ServiceConfig.image ServiceConfig.environment ServiceConfig.volumes
       ServiceConfig.ports ServiceConfig.depends_on ServiceConfig.extra].
  change (PDict (map (fun kv => (fst kv, to_jsonable (snd kv))) x))
    with (to_jsonable (PDict x)).
  pose proof (str_dict_unique e He) as He'.
  set (env := ServiceConfig.dump_str_dict e) in *.
  set (ext := to_jsonable (PDict x)) in *.
  cbn [unique_keys forallb snd ServiceConfig.dump_str_list].
  rewrite !str_list_unique, He', Hx. rewrite bool_decide_eq_true_2; [by destruct i | ].
  apply (bool_decide_unpack _). by vm_compute.
Qed.

Lemma application_dump_eqb a1 a2 :
  application_eqb a1 a2 = true ->
  py_eqb (ApplicationConfig.model_dump a1) (ApplicationConfig.model_dump a2) = true.
Proof.
  destruct a1 as [n1 d1 f1 c1 p1 e1 s1], a2 as [n2 d2 f2 c2 p2 e2 s2].
  unfold application_eqb. simpl.
  intros [[[[[[Hn Hd]%andb_prop Hf]%andb_prop Hc]%andb_prop Hp]%andb_prop
    He]%andb_prop Hs]%andb_prop.
  apply bool_decide_eq_true_1 in Hn, Hd, Hf, Hc, Hp. subst.
  unfold dict_eqb at 1. simpl.
  rewrite !String.eqb_refl, (str_dict_eqb _ _ He). simpl.
  assert (Hport : py_eqb match p2 with Some p => PInt p | None => PNone end
                         match p2 with Some p => PInt p | None => PNone end = true)
    by (destruct p2; simpl; [apply Z.eqb_refl | done]).
  rewrite Hport. simpl. rewrite andb_true_r.
  revert Hs. apply dict_eqb_map. apply Forall_forall. intros kv _ y.
  apply service_dump_eqb.
Qed.

Lemma application_dump_unique a :
  application_unique_keys a = true ->
  unique_keys (ApplicationConfig.model_dump a) = true.
Proof.
  destruct a as [n d f c p e s]. unfold application_unique_keys.
  cbn [ApplicationConfig.environment ApplicationConfig.dependencies].
  intros [[He Hs]%andb_prop Hall]%andb_prop.
  apply bool_decide_eq_true_1 in He, Hs.
  unfold ApplicationConfig.model_dump.
  cbn [ApplicationConfig.name ApplicationConfig.domain ApplicationConfig.dockerfile
       ApplicationConfig.context ApplicationConfig.port
       ApplicationConfig.environment ApplicationConfig.dependencies].
  pose proof (str_dict_unique e He) as He'.
  set (env := ServiceConfig.dump_str_dict e) in *.
  assert (Hdeps : unique_keys
            (PDict (map (fun kv => (fst kv, ServiceConfig.model_dump (snd kv))) s))
          = true).
  { cbn [unique_keys]. rewrite keys_map, (bool_decide_eq_true_2 _ Hs). cbn [andb].
    apply forallb_Forall, Forall_map. apply forallb_Forall in Hall.
    eapply Forall_impl; [exact Hall | ]. intros [k x]. apply service_dump_unique. }
  set (deps := PDict (map (fun kv => (fst kv, ServiceConfig.model_dump (snd kv))) s))
    in *.
  cbn [unique_keys forallb snd]. rewrite He', Hdeps.
  rewrite bool_decide_eq_true_2; [by destruct p | ].
  apply (bool_decide_unpack _). by vm_compute.
Qed.

Lemma vps_dump_eqb v :
  py_eqb (VPSConfig.model_dump v) (VPSConfig.model_dump v) = true.
Proof.
  destruct v as [h u k p e]. simpl. unfold dict_eqb. simpl.
  rewrite !String.eqb_refl, Z.eqb_refl. simpl. by rewrite option_str_eqb.
Qed.

Lemma config_dump_eqb c1 c2 :
  config_eqb c1 c2 = true ->
  py_eqb (DockLiftConfig.model_dump c1) (DockLiftConfig.model_dump c2) = true.
Proof.
  destruct c1 as [v1 a1], c2 as [v2 a2]. unfold config_eqb.
  cbn [DockLiftConfig.vps DockLiftConfig.application].
  intros [Hv Ha]%andb_prop. apply bool_decide_eq_true_1 in Hv. subst.
  apply application_dump_eqb in Ha. pose proof (vps_dump_eqb v2) as Hv.
  unfold DockLiftConfig.model_dump.
  cbn [DockLiftConfig.vps DockLiftConfig.application].
  set (vd := VPSConfig.model_dump v2) in *.
  set (ad1 := ApplicationConfig.model_dump a1) in *.
  set (ad2 := ApplicationConfig.model_dump a2) in *.
  clearbody vd ad1 ad2. simpl. unfold dict_eqb. simpl. by rewrite Hv, Ha.
Qed.

Lemma vps_dump_unique v : unique_keys (VPSConfig.model_dump v) = true.
Proof.
  destruct v as [h u k p e]. unfold VPSConfig.model_dump.
  cbn [unique_keys forallb snd].
  rewrite bool_decide_eq_true_2; [by destruct e | ].
  apply (bool_decide_unpack _). by vm_compute.
Qed.

Lemma config_dump_unique c :
  config_unique_keys c = true -> unique_keys (DockLiftConfig.model_dump c) = true.
Proof.
  destruct c as [v a]. unfold config_unique_keys.
  cbn [DockLiftConfig.application]. intros Ha.
  apply application_dump_unique in Ha. pose proof (vps_dump_unique v) as Hv.
  unfold DockLiftConfig.model_dump.
  cbn [DockLiftConfig.vps DockLiftConfig.application].
  set (vd := VPSConfig.model_dump v) in *.
  set (ad := ApplicationConfig.model_dump a) in *.
  cbn [unique_keys forallb snd]. rewrite Hv, Ha.
  rewrite bool_decide_eq_true_2; [done | ].
  apply (bool_decide_unpack _). by vm_compute.
Qed.

(** ** Determinism of [to_yaml] *)

Section Determinism.

Variable yaml_emit : bool -> pyval -> string.

(** C9: two configurations that are structurally equal (the order in which
    their mappings were filled apart) are dumped to the same document, and
    [to_yaml] leaves the same file system for both. *)
Theorem to_yaml_deterministic c1 c2 path fs :
  config_eqb c1 c2 = true ->
  config_unique_keys c1 = true ->
  config_unique_keys c2 = true ->
  DockLiftConfig.yaml_dump yaml_emit (DockLiftConfig.model_dump c1) false
  = DockLiftConfig.yaml_dump yaml_emit (DockLiftConfig.model_dump c2) false
  /\ DockLiftConfig.to_yaml yaml_emit c1 path fs
     = DockLiftConfig.to_yaml yaml_emit c2 path fs.
Proof.
  intros Heq H1 H2.
  assert (Hdump : sort_keys (DockLiftConfig.model_dump c1)
                  = sort_keys (DockLiftConfig.model_dump c2)).
  { apply sort_keys_eqb; [by apply config_dump_eqb | | ];
      by apply config_dump_unique. }
  unfold DockLiftConfig.to_yaml, DockLiftConfig.yaml_dump. by rewrite Hdump.
Qed.

End Determinism.

(** *** Determinism on the reference platform *)

Lemma to_yaml_deterministic_witness :
  DockLiftConfig.yaml_dump Reference.yaml_emit
    (DockLiftConfig.model_dump
       (example_blog [("WORKERS", "2"); ("DEBUG", "0")] [])) false
  = DockLiftConfig.yaml_dump Reference.yaml_emit
      (DockLiftConfig.model_dump
         (example_blog [("DEBUG", "0"); ("WORKERS", "2")] [])) false
  /\ DockLiftConfig.to_yaml Reference.yaml_emit
       (example_blog [("WORKERS", "2"); ("DEBUG", "0")] [])
       "conf/docklift.yml" Reference.disk
     = DockLiftConfig.to_yaml Reference.yaml_emit
         (example_blog [("DEBUG", "0"); ("WORKERS", "2")] [])
         "conf/docklift.yml" Reference.disk.
Proof.
  apply (to_yaml_deterministic Reference.yaml_emit
           (example_blog [("WORKERS", "2"); ("DEBUG", "0")] [])
           (example_blog [("DEBUG", "0"); ("WORKERS", "2")] [])
           "conf/docklift.yml" Reference.disk);
    vm_compute; reflexivity.
Defined.

(** ** Saving and loading again *)

Lemma keys_Permutation {A : Type} (d e : list (string * A)) :
  d ≡ₚ e -> keys d ≡ₚ keys e.
Proof. intros H. unfold keys. by apply Permutation_map. Qed.

Lemma assoc_Permutation {A : Type} k (d e : list (string * A)) :
  NoDup (keys d) -> d ≡ₚ e -> assoc k e = assoc k d.
Proof.
  intros Hd Hperm.
  assert (He : NoDup (keys e)) by (by rewrite <- (keys_Permutation d e Hperm)).
  destruct (assoc k d) as [v | ] eqn:Hv.
  - apply assoc_NoDup; [done | ]. rewrite <- Hperm. by apply assoc_elem.
  - destruct (assoc k e) as [w | ] eqn:Hw; [ | done].
    apply assoc_elem in Hw. rewrite <- Hperm in Hw.
    apply (assoc_NoDup _ _ _ Hd) in Hw. congruence.
Qed.

Lemma assoc_sorted {A : Type} k (d : list (string * A)) :
  NoDup (keys d) -> assoc k (merge_sort item_le d) = assoc k d.
Proof.
  intros Hd. apply assoc_Permutation; [done | ].
  by rewrite merge_sort_Permutation.
Qed.

(** A permutation of a dict with its values mapped is equal to the dict when
    every mapped value is equal to its original. *)
Lemma dict_eqb_Permutation_map {A B : Type} (R : A -> B -> bool) (f : B -> A)
    (d' : list (string * A)) (d : list (string * B)) :
  NoDup (keys d) ->
  d' ≡ₚ map (fun kv => (fst kv, f (snd kv))) d ->
  Forall (fun kv => R (f (snd kv)) (snd kv) = true) d ->
  dict_eqb R d' d = true.
Proof.
  intros Hd Hperm HR. unfold dict_eqb. apply andb_true_intro. split.
  - apply Nat.eqb_eq. by rewrite Hperm, length_map.
  - apply forallb_Forall. rewrite Hperm. apply Forall_map.
    rewrite Forall_forall in HR. apply Forall_forall. intros [k v] Hkv. simpl.
    rewrite (assoc_NoDup k d v Hd Hkv). by apply (HR (k, v)).
Qed.

Lemma plain_to_jsonable v : plain v = true -> to_jsonable v = v.
Proof.
  induction v as [ | | | | l IH | l IH | d IH] using pyval_deep_ind; try done.
  - simpl. intros Hl. f_equal.
    induction IH as [ | x l Hx _ IHl]; [done | ]. simpl in *.
    apply andb_prop in Hl as [Hxp Hlp]. by rewrite (Hx Hxp), (IHl Hlp).
  - simpl. intros Hd. f_equal.
    induction IH as [ | [k x] d Hx _ IHd]; [done | ]. simpl in *.
    apply andb_prop in Hd as [Hxp Hdp]. by rewrite (Hx Hxp), (IHd Hdp).
Qed.

(** A value laid out by [yaml.dump] is still equal to the value. *)
Lemma sort_keys_eqb_self v :
  unique_keys v = true -> py_eqb (sort_keys v) v = true.
Proof.
  induction v as [ | b | z | s | l IH | l IH | d IH] using pyval_deep_ind;
    simpl; try done.
  - intros _. by destruct b.
  - intros _. apply Z.eqb_refl.
  - intros _. apply String.eqb_refl.
  - intros Hl. induction IH as [ | x l Hx _ IHl]; [done | ]. simpl in *.
    apply andb_prop in Hl as [Hxu Hlu]. by rewrite (Hx Hxu), (IHl Hlu).
  - intros Hl. induction IH as [ | x l Hx _ IHl]; [done | ]. simpl in *.
    apply andb_prop in Hl as [Hxu Hlu]. by rewrite (Hx Hxu), (IHl Hlu).
  - intros [Hd Hdu]%andb_prop. apply bool_decide_eq_true_1 in Hd.
    apply (dict_eqb_Permutation_map py_eqb sort_keys); [done | | ].
    + apply merge_sort_Permutation.
    + apply forallb_Forall in Hdu. rewrite Forall_forall in IH, Hdu.
      apply Forall_forall. intros kv Hkv. by apply IH, Hdu.
Qed.

Lemma dict_items_map {A B : Type} (val : pyval -> vres B) (f : A -> pyval)
    (g : A -> B) (d : list (string * A)) :
  Forall (fun kv => val (f (snd kv)) = VOk (g (snd kv))) d ->
  dict_items val (map (fun kv => (fst kv, f (snd kv))) d)
  = VOk (map (fun kv => (fst kv, g (snd kv))) d).
Proof.
  induction 1 as [ | [k x] d Hx _ IH]; simpl; [done | ].
  simpl in Hx. by rewrite Hx, IH.
Qed.

Lemma list_items_strs i l : list_items str_validator i (map PStr l) = VOk l.
Proof.
  revert i. induction l as [ | x l IH]; intros i; simpl; [done | ].
  by rewrite IH.
Qed.

Lemma sort_keys_strs l : map sort_keys (map PStr l) = map PStr l.
Proof. rewrite map_map. by apply map_ext. Qed.

(** A mapping that was dumped with its values mapped by [f], sorted, and
    validated item by item comes back as a permutation of the original. *)
Lemma dict_items_sorted {A B : Type} (val : pyval -> vres B) (f : A -> pyval)
    (g : A -> B) (d : list (string * A)) :
  Forall (fun kv => val (f (snd kv)) = VOk (g (snd kv))) d ->
  exists d', d' ≡ₚ d
    /\ dict_items val (merge_sort item_le (map (fun kv => (fst kv, f (snd kv))) d))
       = VOk (map (fun kv => (fst kv, g (snd kv))) d').
Proof.
  intros Hval.
  destruct (Permutation_map_inv (fun kv => (fst kv, f (snd kv))) d
              (merge_sort_Permutation item_le _)) as (d' & -> & Hperm).
  exists d'. split; [done | ]. apply dict_items_map. by rewrite <- Hperm.
Qed.

Lemma str_dict_reloads e :
  NoDup (keys e) ->
  exists e', dict_validator str_validator (sort_keys (ServiceConfig.dump_str_dict e))
             = VOk e'
             /\ dict_eqb String.eqb e' e = true.
Proof.
  intros He. unfold ServiceConfig.dump_str_dict. cbn [sort_keys dict_validator].
  rewrite map_map. cbn [fst snd sort_keys].
  destruct (dict_items_sorted str_validator PStr id e) as (e' & Hperm & ->).
  { apply Forall_forall. by intros. }
  eexists. split; [done | ].
  apply (dict_eqb_Permutation_map String.eqb id); [done | | ].
  - by apply Permutation_map.
  - apply Forall_forall. intros kv _. apply String.eqb_refl.
Qed.

Lemma str_list_reloads l :
  list_validator str_validator (sort_keys (ServiceConfig.dump_str_list l)) = VOk l.
Proof.
  unfold ServiceConfig.dump_str_list. cbn [sort_keys list_validator].
  by rewrite sort_keys_strs, list_items_strs.
Qed.

Lemma option_str_reloads (o : option string) :
  nullable str_validator
    (sort_keys match o with Some i => PStr i | None => PNone end) = VOk o.
Proof. by destruct o. Qed.

Lemma extra_reloads x :
  unique_keys (PDict x) = true -> plain (PDict x) = true ->
  exists x', dict_validator any_validator
               (sort_keys (PDict (map (fun kv => (fst kv, to_jsonable (snd kv))) x)))
             = VOk x'
             /\ dict_eqb py_eqb x' x = true.
Proof.
  intros Hu Hp. cbn [sort_keys dict_validator]. rewrite dict_items_any.
  eexists. split; [done | ]. rewrite map_map. cbn [fst snd].
  simpl in Hu, Hp. apply andb_prop in Hu as [Hd Hu].
  apply bool_decide_eq_true_1 in Hd.
  apply (dict_eqb_Permutation_map py_eqb (fun v => sort_keys (to_jsonable v)));
    [done | apply merge_sort_Permutation | ].
  apply Forall_forall. intros kv Hkv.
  rewrite plain_to_jsonable by (by apply (forallb_elem _ _ _ Hp) in Hkv).
  apply sort_keys_eqb_self. by apply (forallb_elem _ _ _ Hu) in Hkv.
Qed.

Lemma service_fields_of_items V1 V2 V3 V4 V5 V6 i e v p o x :
  nullable str_validator V1 = VOk i ->
  dict_validator str_validator V2 = VOk e ->
  list_validator str_validator V3 = VOk v ->
  list_validator str_validator V4 = VOk p ->
  list_validator str_validator V5 = VOk o ->
  dict_validator any_validator V6 = VOk x ->
  ServiceConfig.fields
    (merge_sort item_le
       [("image", V1); ("environment", V2); ("volumes", V3); ("ports", V4);
        ("depends_on", V5); ("extra", V6)])
  = VOk (ServiceConfig.Build i e v p o x).
Proof.
  intros H1 H2 H3 H4 H5 H6. unfold ServiceConfig.fields, optional.
  rewrite !assoc_sorted by (apply (bool_decide_unpack _); by vm_compute).
  cbn [assoc String.eqb Ascii.eqb Bool.eqb]. by rewrite H1, H2, H3, H4, H5, H6.
Qed.

(** A service that was dumped, laid out and validated again is equal to the
    service. *)
Lemma service_reloads s :
  service_unique_keys s = true -> service_plain s = true ->
  exists s', model_validator "ServiceConfig" ServiceConfig.fields
               (sort_keys (ServiceConfig.model_dump s)) = VOk s'
             /\ service_eqb s' s = true.
Proof.
  destruct s as [i e v p o x]. unfold service_unique_keys, service_plain.
  cbn [ServiceConfig.environment ServiceConfig.extra].
  intros [He Hu]%andb_prop Hp. apply bool_decide_eq_true_1 in He.
  destruct (str_dict_reloads e He) as (e' & He' & Hee).
  destruct (extra_reloads x Hu Hp) as (x' & Hx' & Hxx).
  exists (ServiceConfig.Build i e' v p o x'). split.
  - unfold ServiceConfig.model_dump.
    cbn [ServiceConfig.image ServiceConfig.environment ServiceConfig.volumes
         ServiceConfig.ports ServiceConfig.depends_on ServiceConfig.extra].
    cbn [sort_keys map fst snd model_validator].
    apply service_fields_of_items; try done;
      first [apply option_str_reloads | apply str_list_reloads].
  - unfold service_eqb. simpl. rewrite !bool_decide_eq_true_2 by done.
    by rewrite Hee, Hxx.
Qed.

Lemma dependencies_reload deps :
  NoDup (keys deps) ->
  forallb (fun kv => service_unique_keys (snd kv)) deps = true ->
  forallb (fun kv => service_plain (snd kv)) deps = true ->
  exists deps',
    dict_validator (model_validator "ServiceConfig" ServiceConfig.fields)
      (sort_keys (PDict (map (fun kv => (fst kv, ServiceConfig.model_dump (snd kv)))
                             deps)))
    = VOk deps'
    /\ dict_eqb service_eqb deps' deps = true.
Proof.
  intros Hd Hu Hp. cbn [sort_keys dict_validator]. rewrite map_map. cbn [fst snd].
  assert (Hall : Forall (fun kv : string * ServiceConfig.t =>
            model_validator "ServiceConfig" ServiceConfig.fields
              (sort_keys (ServiceConfig.model_dump (snd kv)))
            = VOk (reloaded_service (snd kv))
            /\ service_eqb (reloaded_service (snd kv)) (snd kv) = true) deps).
  { apply Forall_forall. intros kv Hkv.
    destruct (service_reloads (snd kv)) as (s' & Hs' & Heq).
    - by apply (forallb_elem _ _ _ Hu) in Hkv.
    - by apply (forallb_elem _ _ _ Hp) in Hkv.
    - unfold reloaded_service. by rewrite Hs'. }
  destruct (dict_items_sorted (model_validator "ServiceConfig" ServiceConfig.fields)
              (fun s => sort_keys (ServiceConfig.model_dump s))
              reloaded_service deps) as (d' & Hperm & ->).
  { eapply Forall_impl; [exact Hall | ]. by intros kv [? _]. }
  eexists. split; [done | ].
  apply (dict_eqb_Permutation_map service_eqb reloaded_service); [done | | ].
  - by apply Permutation_map.
  - eapply Forall_impl; [exact Hall | ]. by intros kv [_ ?].
Qed.

Section RoundTrip.

Variable userhome : string -> option string.
Variable str_as_int : string -> option Z.
Variable yaml_emit : bool -> pyval -> string.
Variable yaml_safe_load : string -> result pyval.

Lemma application_fields_of_items V1 V2 V3 V4 V5 V6 V7 n d f c p e s :
  str_validator V1 = VOk n ->
  str_validator V2 = VOk d ->
  str_validator V3 = VOk f ->
  str_validator V4 = VOk c ->
  nullable (int_validator str_as_int) V5 = VOk p ->
  dict_validator str_validator V6 = VOk e ->
  dict_validator (model_validator "ServiceConfig" ServiceConfig.fields) V7 = VOk s ->
  ApplicationConfig.fields str_as_int
    (merge_sort item_le
       [("name", V1); ("domain", V2); ("dockerfile", V3); ("context", V4);
        ("port", V5); ("environment", V6); ("dependencies", V7)])
  = VOk (ApplicationConfig.Build n d f c p e s).
Proof.
  intros H1 H2 H3 H4 H5 H6 H7. unfold ApplicationConfig.fields, optional, required.
  rewrite !assoc_sorted by (apply (bool_decide_unpack _); by vm_compute).
  cbn [assoc String.eqb Ascii.eqb Bool.eqb].
  by rewrite H1, H2, H3, H4, H5, H6, H7.
Qed.

Lemma application_reloads a :
  application_unique_keys a = true -> application_plain a = true ->
  exists a', model_validator "ApplicationConfig" (ApplicationConfig.fields str_as_int)
               (sort_keys (ApplicationConfig.model_dump a)) = VOk a'
             /\ application_eqb a' a = true.
Proof.
  destruct a as [n d f c p e s]. unfold application_unique_keys, application_plain.
  cbn [ApplicationConfig.environment ApplicationConfig.dependencies].
  intros [[He Hs]%andb_prop Hu]%andb_prop Hp.
  apply bool_decide_eq_true_1 in He, Hs.
  destruct (str_dict_reloads e He) as (e' & He' & Hee).
  destruct (dependencies_reload s Hs Hu Hp) as (s' & Hs' & Hss).
  exists (ApplicationConfig.Build n d f c p e' s'). split.
  - unfold ApplicationConfig.model_dump.
    cbn [ApplicationConfig.name ApplicationConfig.domain
         ApplicationConfig.dockerfile ApplicationConfig.context
         ApplicationConfig.port ApplicationConfig.environment
         ApplicationConfig.dependencies].
    cbn [sort_keys map fst snd model_validator].
    apply application_fields_of_items; try done. by destruct p.
  - unfold application_eqb. simpl. rewrite !bool_decide_eq_true_2 by done.
    by rewrite Hee, Hss.
Qed.

Lemma vps_fields_of_items fs V1 V2 V3 V4 V5 h u k p e :
  str_validator V1 = VOk h ->
  str_validator V2 = VOk u ->
  after_validator str_validator (VPSConfig.validate_ssh_key_path userhome fs) V3
  = VOk k ->
  int_validator str_as_int V4 = VOk p ->
  nullable str_validator V5 = VOk e ->
  VPSConfig.fields userhome str_as_int fs
    (merge_sort item_le
       [("host", V1); ("user", V2); ("ssh_key_path", V3); ("port", V4);
        ("email", V5)])
  = VOk (VPSConfig.Build h u k p e).
Proof.
  intros H1 H2 H3 H4 H5. unfold VPSConfig.fields, optional, required.
  rewrite !assoc_sorted by (apply (bool_decide_unpack _); by vm_compute).
  cbn [assoc String.eqb Ascii.eqb Bool.eqb].
  by rewrite H1, H2, H3, H4, H5.
Qed.

Lemma vps_reloads fs v k :
  VPSConfig.validate_ssh_key_path userhome fs (VPSConfig.ssh_key_path v) = Ok k ->
  model_validator "VPSConfig" (VPSConfig.fields userhome str_as_int fs)
    (sort_keys (VPSConfig.model_dump v))
  = VOk (with_key_path k v).
Proof.
  destruct v as [h u k0 p e]. cbn [VPSConfig.ssh_key_path]. intros Hk.
  unfold VPSConfig.model_dump, with_key_path.
  cbn [VPSConfig.host VPSConfig.user VPSConfig.ssh_key_path VPSConfig.port
       VPSConfig.email].
  cbn [sort_keys map fst snd model_validator].
  apply vps_fields_of_items; try done.
  - unfold after_validator. simpl. by rewrite Hk.
  - by destruct e.
Qed.

Lemma config_reloads fs c k :
  config_unique_keys c = true -> config_plain c = true ->
  VPSConfig.validate_ssh_key_path userhome fs
    (VPSConfig.ssh_key_path (DockLiftConfig.vps c)) = Ok k ->
  exists c',
    DockLiftConfig.init userhome str_as_int fs
      (sort_keys (DockLiftConfig.model_dump c)) = Ok c'
    /\ config_eqb c' (revalidated k c) = true.
Proof.
  destruct c as [v a]. unfold config_unique_keys, config_plain.
  cbn [DockLiftConfig.vps DockLiftConfig.application]. intros Hu Hp Hk.
  destruct (application_reloads a Hu Hp) as (a' & Ha' & Haa).
  pose proof (vps_reloads fs v k Hk) as Hv.
  exists (DockLiftConfig.Build (with_key_path k v) a'). split.
  - unfold DockLiftConfig.model_dump.
    cbn [DockLiftConfig.vps DockLiftConfig.application].
    set (vd := sort_keys (VPSConfig.model_dump v)) in *.
    set (ad := sort_keys (ApplicationConfig.model_dump a)) in *.
    change (sort_keys (PDict [("vps", VPSConfig.model_dump v);
                              ("application", ApplicationConfig.model_dump a)]))
      with (PDict (merge_sort item_le [("vps", vd); ("application", ad)])).
    unfold DockLiftConfig.init, DockLiftConfig.fields, required.
    rewrite !assoc_sorted by (apply (bool_decide_unpack _); by vm_compute).
    cbn [assoc String.eqb Ascii.eqb Bool.eqb]. by rewrite Hv, Ha'.
  - unfold config_eqb, revalidated. simpl.
    by rewrite bool_decide_eq_true_2, Haa.
Qed.

(** C1, as the code has it: for a configuration whose [extra] values are
    plain data, a document that the loader reads back as it was dumped, and a
    key path that validates again at load time, loading the file that
    [to_yaml] wrote returns a configuration structurally equal to the saved
    one with its key path validated again; and that key path is the stored
    one when it came out of [expanduser] with absolute home directories. *)
Theorem save_then_load c path fs fs' k :
  config_unique_keys c = true ->
  config_plain c = true ->
  DockLiftConfig.to_yaml yaml_emit c path fs = Ok fs' ->
  yaml_safe_load (DockLiftConfig.yaml_dump yaml_emit (DockLiftConfig.model_dump c) false)
  = Ok (sort_keys (DockLiftConfig.model_dump c)) ->
  VPSConfig.validate_ssh_key_path userhome fs'
    (VPSConfig.ssh_key_path (DockLiftConfig.vps c)) = Ok k ->
  (exists c',
     DockLiftConfig.from_yaml userhome str_as_int yaml_safe_load path fs' = Ok c'
     /\ config_eqb c' (revalidated k c) = true)
  /\ (absolute_homes userhome ->
      (exists v p, expanduser userhome (Path v) = Ok p
                   /\ VPSConfig.ssh_key_path (DockLiftConfig.vps c) = str p) ->
      k = VPSConfig.ssh_key_path (DockLiftConfig.vps c)).
Proof.
  intros Hu Hp Hsave Hload Hk. split.
  - destruct (to_yaml_returns yaml_emit c path fs fs' Hsave)
      as (fs1 & _ & _ & _ & _ & Hfile & _).
    rewrite (from_yaml_file userhome str_as_int yaml_safe_load path fs' _ Hfile).
    unfold DockLiftConfig.yaml_dump in Hload. rewrite Hload. simpl.
    by apply config_reloads.
  - intros Hhomes (v & p & Hexp & Hstored).
    assert (Hn : normal p)
      by (eapply normal_expanduser; [apply normal_parse_path | exact Hexp]).
    apply validate_ssh_key_path_ok_inv in Hk as (q & Hq & _ & ->).
    rewrite Hstored in Hq. unfold Path in Hq. rewrite parse_path_str in Hq by done.
    rewrite (expanduser_idempotent userhome (Path v) p Hhomes Hexp) in Hq.
    injection Hq as <-. by symmetry.
Qed.

End RoundTrip.

(** *** Saving and loading on the reference platform *)

(** A configuration whose database carries a tuple among its extra options
    is valid, is saved, and is read back with a list in place of the tuple:
    the loaded configuration is not equal to the saved one. *)
Lemma tuple_in_extra_not_restored :
  config_unique_keys (example_blog [] [("labels", PTuple [PStr "a"; PStr "b"])])
  = true
  /\ DockLiftConfig.to_yaml Reference.yaml_emit
       (example_blog [] [("labels", PTuple [PStr "a"; PStr "b"])])
       "conf/docklift.yml" Reference.disk
     = Ok (saved_disk (example_blog [] [("labels", PTuple [PStr "a"; PStr "b"])]))
  /\ Reference.yaml_safe_load
       (DockLiftConfig.yaml_dump Reference.yaml_emit
          (DockLiftConfig.model_dump
             (example_blog [] [("labels", PTuple [PStr "a"; PStr "b"])])) false)
     = Ok (sort_keys
             (DockLiftConfig.model_dump
                (example_blog [] [("labels", PTuple [PStr "a"; PStr "b"])])))
  /\ VPSConfig.validate_ssh_key_path Reference.userhome
       (saved_disk (example_blog [] [("labels", PTuple [PStr "a"; PStr "b"])]))
       "/home/deploy/.ssh/id_rsa"
     = Ok "/home/deploy/.ssh/id_rsa"
  /\ reference_load
       (saved_disk (example_blog [] [("labels", PTuple [PStr "a"; PStr "b"])]))
     = Ok (example_blog [] [("labels", PList [PStr "a"; PStr "b"])])
  /\ config_eqb (example_blog [] [("labels", PList [PStr "a"; PStr "b"])])
                (example_blog [] [("labels", PTuple [PStr "a"; PStr "b"])])
     = false.
Proof. vm_compute. by repeat split. Qed.

Lemma save_then_load_witness :
  exists c',
    reference_load
      (saved_disk (example_blog [("WORKERS", "2"); ("DEBUG", "0")]
                     [("labels", PList [PStr "a"; PStr "b"])]))
    = Ok c'
    /\ config_eqb c'
         (revalidated "/home/deploy/.ssh/id_rsa"
            (example_blog [("WORKERS", "2"); ("DEBUG", "0")]
               [("labels", PList [PStr "a"; PStr "b"])]))
       = true.
Proof.
  apply (proj1 (save_then_load Reference.userhome Reference.str_as_int
                  Reference.yaml_emit Reference.yaml_safe_load
                  (example_blog [("WORKERS", "2"); ("DEBUG", "0")]
                     [("labels", PList [PStr "a"; PStr "b"])])
                  "conf/docklift.yml" Reference.disk
                  (saved_disk (example_blog [("WORKERS", "2"); ("DEBUG", "0")]
                                 [("labels", PList [PStr "a"; PStr "b"])]))
                  "/home/deploy/.ssh/id_rsa"
                  eq_refl eq_refl eq_refl eq_refl eq_refl)).
Defined.

(** * Further properties of the models *)

(** ** Exceptions that leave a validation *)

Lemma vap_raise_inv {A B : Type} (f : vres (A -> B)) (x : vres A) e :
  f <*> x = VRaise e -> f = VRaise e \/ (raises f = false /\ x = VRaise e).
Proof.
  destruct f as [g | errs | e'], x as [a | errs' | e'']; simpl; try done;
    intros [= <-]; auto.
Qed.

Lemma vap_raise_r {A B : Type} (f : vres (A -> B)) e :
  raises f = false -> f <*> VRaise e = VRaise e.
Proof. by destruct f. Qed.

Lemma not_raises {A : Type} (r : vres A) e : raises r = false -> r <> VRaise e.
Proof. by destruct r. Qed.

Lemma at_loc_raise_inv {A : Type} i (r : vres A) e :
  at_loc i r = VRaise e -> r = VRaise e.
Proof. by destruct r. Qed.

Section KeyField.

Variable userhome : string -> option string.
Variable str_as_int : string -> option Z.
Variable fs : filesystem.

Lemma expanduser_raise p e : expanduser userhome p = Raise e -> e = no_home.
Proof.
  unfold expanduser. destruct (root p); [ | done].
  destruct (tail p) as [ | first rest]; [done | ].
  destruct (starts_with "~" first); [ | done].
  destruct (starts_with "~" (os_expanduser userhome first)); [ | done].
  by intros [= <-].
Qed.

(** The only exception that leaves the validation of the key path is the one
    of [expanduser]. *)
Lemma key_field_raise kw e :
  required kw "ssh_key_path"
    (after_validator str_validator (VPSConfig.validate_ssh_key_path userhome fs))
  = VRaise e ->
  e = no_home
  /\ exists v, assoc "ssh_key_path" kw = Some (PStr v)
               /\ expanduser userhome (Path v) = Raise no_home.
Proof.
  unfold required. destruct (assoc "ssh_key_path" kw) as [v | ]; [ | done].
  intros H%at_loc_raise_inv. revert H. unfold after_validator.
  destruct v; try done. simpl. unfold VPSConfig.validate_ssh_key_path.
  destruct (expanduser userhome (Path s)) as [path | e'] eqn:Hexp; simpl.
  - by destruct (path_exists fs path).
  - apply expanduser_raise in Hexp as He. subst e'. intros [= <-].
    split; [done | by exists s].
Qed.

Lemma vps_fields_raise kw e :
  VPSConfig.fields userhome str_as_int fs kw = VRaise e ->
  e = no_home
  /\ exists v, assoc "ssh_key_path" kw = Some (PStr v)
               /\ expanduser userhome (Path v) = Raise no_home.
Proof.
  unfold VPSConfig.fields.
  intros [H | [_ H]]%vap_raise_inv;
    [ | by apply not_raises in H;
          [ | apply raises_optional; intros; by apply raises_nullable]].
  apply vap_raise_inv in H as [H | [_ H]];
    [ | by apply not_raises in H; [ | by apply raises_optional]].
  apply vap_raise_inv in H as [H | [_ H]]; [ | by apply key_field_raise in H].
  apply vap_raise_inv in H as [H | [_ H]];
    [ | by apply not_raises in H; [ | by apply raises_required]].
  apply vap_raise_inv in H as [H | [_ H]]; [done | ].
  by apply not_raises in H; [ | by apply raises_required].
Qed.

(** Every required field that is absent is reported, unless an exception
    leaves the validation. *)
Lemma vps_missing_has_error kw name :
  raises (VPSConfig.fields userhome str_as_int fs kw) = false ->
  name ∈ ["host"; "user"; "ssh_key_path"] ->
  assoc name kw = None ->
  has_error (missing_error name) (VPSConfig.fields userhome str_as_int fs kw).
Proof.
  unfold VPSConfig.fields. rewrite !raises_vap, !orb_false_iff.
  intros [[[[[_ Hh] Hu] Hk] Hp] He] Hin Hnone.
  assert (Hmiss : forall val : pyval -> vres string,
             has_error (missing_error name) (required kw name val)).
  { intros val. unfold required. rewrite Hnone. simpl. by apply list_elem_of_singleton. }
  apply has_error_vap_l; [ | done]. apply has_error_vap_l; [ | done].
  apply elem_of_cons in Hin as [-> | Hin].
  { do 2 (apply has_error_vap_l; [ | done]). by apply has_error_vap_r. }
  apply elem_of_cons in Hin as [-> | Hin].
  { apply has_error_vap_l; [ | done]. apply has_error_vap_r; [done | ].
    by rewrite raises_vap, Hh. }
  apply list_elem_of_singleton in Hin as ->.
  apply has_error_vap_r; [done | ]. by rewrite !raises_vap, Hh, Hu.
Qed.

End KeyField.

Lemma raises_model_validator {A : Type} title
    (fields : list (string * pyval) -> vres A) v :
  (forall kw, raises (fields kw) = false) ->
  raises (model_validator title fields v) = false.
Proof. intros H. destruct v; simpl; auto. Qed.

Lemma raises_application_fields sai kw :
  raises (ApplicationConfig.fields sai kw) = false.
Proof.
  unfold ApplicationConfig.fields.
  rewrite !raises_vap, !raises_optional, !raises_required; try done;
    intros; auto.
  - apply raises_dict_validator. intros.
    apply raises_model_validator, raises_service_fields.
  - by apply raises_dict_validator.
  - by apply raises_nullable.
Qed.


(** ** Required fields *)

Lemma application_missing_has_error sai kw name :
  name ∈ ["name"; "domain"] ->
  assoc name kw = None ->
  has_error (missing_error name) (ApplicationConfig.fields sai kw).
Proof.
  intros Hin Hnone.
  pose proof (raises_application_fields sai kw) as Hr. revert Hr.
  unfold ApplicationConfig.fields. rewrite !raises_vap, !orb_false_iff.
  intros [[[[[[[_ Hn] Hd] Hf] Hc] Hp] He] Hs].
  assert (Hmiss : forall val : pyval -> vres string,
             has_error (missing_error name) (required kw name val)).
  { intros val. unfold required. rewrite Hnone. simpl. by apply list_elem_of_singleton. }
  do 5 (apply has_error_vap_l; [ | done]).
  apply elem_of_cons in Hin as [-> | Hin].
  { apply has_error_vap_l; [ | done]. by apply has_error_vap_r. }
  apply list_elem_of_singleton in Hin as ->.
  apply has_error_vap_r; [done | ]. by rewrite raises_vap, Hn.
Qed.

(** X1: when [host], [user] or [ssh_key_path] is not given, [VPSConfig(...)]
    raises one [ValidationError] that reports every required field that is
    absent as missing; the only other outcome is the [RuntimeError] of
    [expanduser], when the key path that was given names an account without a
    home directory. *)
Theorem vps_missing_fields_reported userhome str_as_int fs kw :
  (exists name, name ∈ ["host"; "user"; "ssh_key_path"] /\ assoc name kw = None) ->
  (VPSConfig.init userhome str_as_int fs kw = Raise no_home
   /\ exists v, assoc "ssh_key_path" kw = Some (PStr v)
                /\ expanduser userhome (Path v) = Raise no_home)
  \/ (exists errs,
        VPSConfig.init userhome str_as_int fs kw
        = Raise (ValidationError "VPSConfig" errs)
        /\ forall name, name ∈ ["host"; "user"; "ssh_key_path"] ->
                        assoc name kw = None -> missing_error name ∈ errs).
Proof.
  intros (name & Hin & Hnone). unfold VPSConfig.init.
  destruct (VPSConfig.fields userhome str_as_int fs kw) as [c | errs | e] eqn:Hf.
  - pose proof (vps_missing_has_error userhome str_as_int fs kw name) as H.
    rewrite Hf in H. by destruct H.
  - right. exists errs. split; [done | ]. intros name' Hin' Hnone'.
    pose proof (vps_missing_has_error userhome str_as_int fs kw name') as H.
    rewrite Hf in H. by apply H.
  - left. apply vps_fields_raise in Hf as [-> Hv]. by split.
Qed.

Lemma vps_missing_fields_reported_witness :
  exists errs,
    VPSConfig.init Reference.userhome Reference.str_as_int Reference.disk
      [("user", PStr "deploy"); ("port", PInt 2222)]
    = Raise (ValidationError "VPSConfig" errs)
    /\ missing_error "host" ∈ errs /\ missing_error "ssh_key_path" ∈ errs.
Proof.
  destruct (vps_missing_fields_reported Reference.userhome Reference.str_as_int
              Reference.disk [("user", PStr "deploy"); ("port", PInt 2222)])
    as [[H _] | (errs & H & Hall)].
  - exists "host". split; [set_solver | reflexivity].
  - discriminate H.
  - exists errs. split; [exact H | ].
    split; apply Hall; first [set_solver | reflexivity].
Defined.

(** X2: when [name] or [domain] is not given, [ApplicationConfig(...)] raises
    one [ValidationError] that reports every required field that is absent as
    missing; whatever the arguments, it raises nothing but a
    [ValidationError]. *)
Theorem application_missing_fields_reported str_as_int kw :
  (exists name, name ∈ ["name"; "domain"] /\ assoc name kw = None) ->
  exists errs,
    ApplicationConfig.init str_as_int kw
    = Raise (ValidationError "ApplicationConfig" errs)
    /\ forall name, name ∈ ["name"; "domain"] ->
                    assoc name kw = None -> missing_error name ∈ errs.
Proof.
  intros (name & Hin & Hnone). unfold ApplicationConfig.init.
  pose proof (application_missing_has_error str_as_int kw name Hin Hnone) as H.
  destruct (ApplicationConfig.fields str_as_int kw) as [c | errs | e] eqn:Hf;
    try done.
  exists errs. split; [done | ]. intros name' Hin' Hnone'.
  pose proof (application_missing_has_error str_as_int kw name' Hin' Hnone') as H'.
  by rewrite Hf in H'.
Qed.

Lemma application_missing_fields_reported_witness :
  exists errs,
    ApplicationConfig.init Reference.str_as_int [("port", PInt 8000)]
    = Raise (ValidationError "ApplicationConfig" errs)
    /\ missing_error "name" ∈ errs /\ missing_error "domain" ∈ errs.
Proof.
  destruct (application_missing_fields_reported Reference.str_as_int
              [("port", PInt 8000)])
    as (errs & H & Hall).
  - exists "name". split; [set_solver | reflexivity].
  - exists errs. split; [exact H | ].
    split; apply Hall; first [set_solver | reflexivity].
Defined.

(** ** Errors below the top level *)

Lemma has_error_at_loc {A : Type} i (r : vres A) e :
  has_error e r -> has_error (prefix_loc i e) (at_loc i r).
Proof.
  destruct r as [ | errs | ]; simpl; try done.
  intros H. apply list_elem_of_fmap. by exists e.
Qed.

Lemma has_error_dict_items {A : Type} (val : pyval -> vres A) d k x e :
  (forall v, raises (val v) = false) ->
  (k, x) ∈ d ->
  has_error e (val x) ->
  has_error (prefix_loc (LKey k) e) (dict_items val d).
Proof.
  intros Hr Hin He. induction d as [ | [k' x'] d IH]; [by apply elem_of_nil in Hin | ].
  cbn [dict_items]. apply elem_of_cons in Hin as [[= <- <-] | Hin].
  - apply has_error_vap_l; [ | by apply raises_dict_items].
    apply has_error_vap_r; [ | done]. by apply has_error_at_loc.
  - apply has_error_vap_r; [by apply IH | ].
    by rewrite raises_vap, raises_at_loc, Hr.
Qed.

(** X3: when the [vps] block and the [application] block are mappings and one
    of them fails validation, [DockLiftConfig(...)] raises one
    [ValidationError] that holds exactly the errors of the [vps] block, each
    located under [vps], followed by the errors of the [application] block,
    each located under [application]: no partial object is returned, and the
    errors of both blocks are reported together. *)
Theorem nested_errors_located userhome str_as_int fs kw vkw akw :
  assoc "vps" kw = Some (PDict vkw) ->
  assoc "application" kw = Some (PDict akw) ->
  raises (VPSConfig.fields userhome str_as_int fs vkw) = false ->
  errors_of (VPSConfig.fields userhome str_as_int fs vkw)
    ++ errors_of (ApplicationConfig.fields str_as_int akw) <> [] ->
  DockLiftConfig.init userhome str_as_int fs (PDict kw)
  = Raise (ValidationError "DockLiftConfig"
             (map (prefix_loc (LKey "vps"))
                  (errors_of (VPSConfig.fields userhome str_as_int fs vkw))
              ++ map (prefix_loc (LKey "application"))
                     (errors_of (ApplicationConfig.fields str_as_int akw)))).
Proof.
  intros Hv Ha Hr Herrs.
  pose proof (raises_application_fields str_as_int akw) as Hra.
  unfold DockLiftConfig.init, DockLiftConfig.fields, required.
  rewrite Hv, Ha. cbn [model_validator].
  destruct (VPSConfig.fields userhome str_as_int fs vkw) as [v | ev | ];
    [ | | done];
    destruct (ApplicationConfig.fields str_as_int akw) as [a | ea | ];
    try done; simpl in *.
  by rewrite app_nil_r.
Qed.

Lemma nested_errors_located_witness :
  DockLiftConfig.init Reference.userhome Reference.str_as_int Reference.disk
    (PDict [("vps", PDict [("host", PStr "1.2.3.4");
                           ("ssh_key_path", PStr "/nonexistent/key")]);
            ("application", PDict [("name", PStr "blog")])])
  = Raise (ValidationError "DockLiftConfig"
             [LineError "missing" [LKey "vps"; LKey "user"] "Field required";
              LineError "value_error" [LKey "vps"; LKey "ssh_key_path"]
                "Value error, SSH key not found at: /nonexistent/key";
              LineError "missing" [LKey "application"; LKey "domain"]
                "Field required"]).
Proof.
  apply (nested_errors_located Reference.userhome Reference.str_as_int
           Reference.disk
           [("vps", PDict [("host", PStr "1.2.3.4");
                           ("ssh_key_path", PStr "/nonexistent/key")]);
            ("application", PDict [("name", PStr "blog")])]
           [("host", PStr "1.2.3.4"); ("ssh_key_path", PStr "/nonexistent/key")]
           [("name", PStr "blog")]);
    [reflexivity | reflexivity | reflexivity | vm_compute; discriminate].
Defined.

(** X4: an error in the block of one service is an error of the application:
    [ApplicationConfig(...)] raises a [ValidationError] that holds the error,
    located under [dependencies] and then under the name of the service. *)
Theorem service_errors_located str_as_int akw deps name skw e :
  assoc "dependencies" akw = Some (PDict deps) ->
  (name, PDict skw) ∈ deps ->
  has_error e (ServiceConfig.fields skw) ->
  exists errs,
    ApplicationConfig.init str_as_int akw
    = Raise (ValidationError "ApplicationConfig" errs)
    /\ prefix_loc (LKey "dependencies") (prefix_loc (LKey name) e) ∈ errs.
Proof.
  intros Hd Hin He.
  assert (H : has_error (prefix_loc (LKey "dependencies") (prefix_loc (LKey name) e))
                (ApplicationConfig.fields str_as_int akw)).
  { pose proof (raises_application_fields str_as_int akw) as Hr. revert Hr.
    unfold ApplicationConfig.fields. rewrite !raises_vap, !orb_false_iff.
    intros [Hrest _]. apply has_error_vap_r.
    - unfold optional. rewrite Hd. apply has_error_at_loc. cbn [dict_validator].
      apply (has_error_dict_items _ deps name (PDict skw)); [ | done | done].
      intros v. apply raises_model_validator, raises_service_fields.
    - by rewrite !raises_vap, !orb_false_iff. }
  unfold ApplicationConfig.init.
  destruct (ApplicationConfig.fields str_as_int akw) as [ | errs | ]; try done.
  by exists errs.
Qed.

Lemma service_errors_located_witness :
  exists errs,
    ApplicationConfig.init Reference.str_as_int
      [("name", PStr "blog"); ("domain", PStr "blog.example.com");
       ("dependencies",
         PDict [("cache", PDict []);
                ("db", PDict [("environment", PStr "POSTGRES_PASSWORD=x")])])]
    = Raise (ValidationError "ApplicationConfig" errs)
    /\ LineError "dict_type" [LKey "dependencies"; LKey "db"; LKey "environment"]
         "Input should be a valid dictionary" ∈ errs.
Proof.
  apply (service_errors_located Reference.str_as_int _
           [("cache", PDict []);
            ("db", PDict [("environment", PStr "POSTGRES_PASSWORD=x")])]
           "db" [("environment", PStr "POSTGRES_PASSWORD=x")]
           (LineError "dict_type" [LKey "environment"]
              "Input should be a valid dictionary"));
    [reflexivity | set_solver | vm_compute; set_solver].
Defined.

(** ** Keys that no model declares *)

Ltac agree H :=
  repeat match goal with
         | |- context [assoc ?name ?kw] =>
             rewrite (H name) by (vm_compute; set_solver)
         end.

(** X5: construction reads its arguments by the names of the declared fields
    only: two mappings that bind the declared names alike give the same
    result, whatever else they hold and in whatever order.  A key that no
    model declares, such as a misspelt field name, is dropped without an
    error. *)
Theorem undeclared_keys_ignored userhome str_as_int fs kw kw' vkw vkw' akw akw'
    skw skw' :
  agree_on config_fields kw kw' ->
  agree_on vps_fields vkw vkw' ->
  agree_on application_fields akw akw' ->
  agree_on service_fields skw skw' ->
  DockLiftConfig.init userhome str_as_int fs (PDict kw)
  = DockLiftConfig.init userhome str_as_int fs (PDict kw')
  /\ VPSConfig.init userhome str_as_int fs vkw
     = VPSConfig.init userhome str_as_int fs vkw'
  /\ ApplicationConfig.init str_as_int akw = ApplicationConfig.init str_as_int akw'
  /\ ServiceConfig.init skw = ServiceConfig.init skw'.
Proof.
  intros Hc Hv Ha Hs.
  split; [ | split; [ | split]].
  - unfold DockLiftConfig.init, DockLiftConfig.fields, required. by agree Hc.
  - unfold VPSConfig.init, VPSConfig.fields, required, optional. by agree Hv.
  - unfold ApplicationConfig.init, ApplicationConfig.fields, required, optional.
    by agree Ha.
  - unfold ServiceConfig.init, ServiceConfig.fields, optional. by agree Hs.
Qed.

Ltac agree_by_cases :=
  let name := fresh "name" in
  let Hin := fresh "Hin" in
  intros name Hin;
  repeat (apply elem_of_cons in Hin as [-> | Hin]; [reflexivity | ]);
  by apply elem_of_nil in Hin.

Lemma undeclared_keys_ignored_witness :
  DockLiftConfig.init Reference.userhome Reference.str_as_int Reference.disk
    (PDict [("version", PInt 3);
            ("application", PDict [("name", PStr "blog")]);
            ("vps", PDict (vps_example "~/.ssh/id_rsa"))])
  = DockLiftConfig.init Reference.userhome Reference.str_as_int Reference.disk
      (PDict [("vps", PDict (vps_example "~/.ssh/id_rsa"));
              ("application", PDict [("name", PStr "blog")])])
  /\ VPSConfig.init Reference.userhome Reference.str_as_int Reference.disk
       (("prot", PInt 2222) :: vps_example "~/.ssh/id_rsa")
     = VPSConfig.init Reference.userhome Reference.str_as_int Reference.disk
         (vps_example "~/.ssh/id_rsa")
  /\ ApplicationConfig.init Reference.str_as_int
       [("name", PStr "blog"); ("domain", PStr "blog.example.com");
        ("enviroment", PDict [("DEBUG", PStr "1")])]
     = ApplicationConfig.init Reference.str_as_int
         [("domain", PStr "blog.example.com"); ("name", PStr "blog")]
  /\ ServiceConfig.init [("restart", PStr "always"); ("image", PStr "redis:7")]
     = ServiceConfig.init [("image", PStr "redis:7")].
Proof.
  apply undeclared_keys_ignored; agree_by_cases.
Defined.

(** X6: the field [extra] of a service holds the mapping given under the key
    [extra], item by item and unchanged, and is empty when that key is absent:
    the other keys of the block never reach it. *)
Theorem service_extra_only_from_key kw s :
  ServiceConfig.init kw = Ok s ->
  (assoc "extra" kw = None /\ ServiceConfig.extra s = [])
  \/ assoc "extra" kw = Some (PDict (ServiceConfig.extra s)).
Proof.
  intros H%construct_ok_inv. unfold ServiceConfig.fields in H.
  apply vap_ok_inv in H as (g6 & x & H & Hx & ->).
  apply vap_ok_inv in H as (g5 & o & H & _ & ->).
  apply vap_ok_inv in H as (g4 & p & H & _ & ->).
  apply vap_ok_inv in H as (g3 & v & H & _ & ->).
  apply vap_ok_inv in H as (g2 & e & H & _ & ->).
  apply vap_ok_inv in H as (g1 & i & H & _ & ->).
  injection H as <-. simpl.
  unfold optional in Hx. destruct (assoc "extra" kw) as [d | ].
  - right. apply at_loc_ok_inv in Hx. destruct d; try done.
    simpl in Hx. rewrite dict_items_any in Hx. by injection Hx as ->.
  - left. by injection Hx as <-.
Qed.

Lemma service_extra_only_from_key_witness :
  (assoc "extra" [("restart", PStr "always"); ("image", PStr "redis:7")] = None
   /\ ServiceConfig.extra (ServiceConfig.Build (Some "redis:7") [] [] [] [] []) = [])
  \/ assoc "extra" [("restart", PStr "always"); ("image", PStr "redis:7")]
     = Some (PDict (ServiceConfig.extra
                      (ServiceConfig.Build (Some "redis:7") [] [] [] [] []))).
Proof.
  apply (service_extra_only_from_key
           [("restart", PStr "always"); ("image", PStr "redis:7")]).
  reflexivity.
Defined.

(** ** The key path, validated again *)

(** X7: validating a key path that validation returned gives the same path
    again, when home directories are absolute: the stored path can be checked
    or loaded any number of times without changing. *)
Theorem validated_key_path_is_stable userhome fs v k :
  absolute_homes userhome ->
  VPSConfig.validate_ssh_key_path userhome fs v = Ok k ->
  VPSConfig.validate_ssh_key_path userhome fs k = Ok k.
Proof.
  intros Hhomes (path & Hexp & Hex & ->)%validate_ssh_key_path_ok_inv.
  assert (Hn : normal path).
  { eapply normal_expanduser; [ | exact Hexp]. apply normal_parse_path. }
  apply validate_ssh_key_path_found; [ | done].
  unfold Path. rewrite parse_path_str by done.
  by eapply expanduser_idempotent.
Qed.

Lemma validated_key_path_is_stable_witness :
  VPSConfig.validate_ssh_key_path Reference.userhome Reference.disk
    "/home/deploy/.ssh/id_rsa"
  = Ok "/home/deploy/.ssh/id_rsa".
Proof.
  apply (validated_key_path_is_stable Reference.userhome Reference.disk
           "~/.ssh/./id_rsa").
  - intros name home. unfold Reference.userhome.
    destruct (String.eqb name ""); [ | done]. by intros [= <-].
  - reflexivity.
Defined.

(** ** What [from_yaml] raises and reads *)

Lemma after_validator_ext {A B : Type} (inner : pyval -> vres A)
    (f g : A -> result B) v :
  (forall a, f a = g a) -> after_validator inner f v = after_validator inner g v.
Proof. intros H. unfold after_validator. destruct (inner v); [ | done | done]. by rewrite H. Qed.

Lemma required_ext {A : Type} kw name (val val' : pyval -> vres A) :
  (forall v, val v = val' v) -> required kw name val = required kw name val'.
Proof. intros H. unfold required. destruct (assoc name kw); [ | done]. by rewrite H. Qed.

Lemma model_validator_ext {A : Type} title
    (fields fields' : list (string * pyval) -> vres A) v :
  (forall kw, fields kw = fields' kw) ->
  model_validator title fields v = model_validator title fields' v.
Proof. intros H. destruct v; simpl; auto. Qed.

Section FileSystemsCompared.

Variable userhome : string -> option string.
Variable str_as_int : string -> option Z.

Lemma validate_same_names fs fs' v :
  same_names fs fs' ->
  VPSConfig.validate_ssh_key_path userhome fs v
  = VPSConfig.validate_ssh_key_path userhome fs' v.
Proof.
  intros H. unfold VPSConfig.validate_ssh_key_path.
  destruct (expanduser userhome (Path v)) as [path | ]; [ | done].
  simpl. by rewrite (H path).
Qed.

Lemma init_same_names fs fs' data :
  same_names fs fs' ->
  DockLiftConfig.init userhome str_as_int fs data
  = DockLiftConfig.init userhome str_as_int fs' data.
Proof.
  intros H. destruct data; try done. simpl. f_equal.
  unfold DockLiftConfig.fields. do 2 f_equal.
  apply required_ext. intros v. apply model_validator_ext. intros kw.
  unfold VPSConfig.fields. do 3 f_equal.
  apply required_ext. intros w. apply after_validator_ext. intros a.
  by apply validate_same_names.
Qed.





Variable yaml_safe_load : string -> result pyval.

Abbreviation from_yaml := (DockLiftConfig.from_yaml userhome str_as_int yaml_safe_load).


(** X9: [from_yaml] reads the text of no file but the one it is given: on two
    file systems that hold the same names and the same entry at the path, it
    returns the same configuration or raises the same exception. *)
Theorem from_yaml_reads_one_file path fs fs' :
  stat fs (Path path) = stat fs' (Path path) ->
  same_names fs fs' ->
  from_yaml path fs = from_yaml path fs'.
Proof.
  intros Hstat Hnames.
  unfold DockLiftConfig.from_yaml, path_exists, open_read. rewrite <- Hstat.
  destruct (stat fs (Path path)) as [[text | ] | ]; simpl; try done.
  destruct (yaml_safe_load text) as [data | ]; simpl; [ | done].
  by apply init_same_names.
Qed.

End FileSystemsCompared.

Lemma same_names_overwrite (fs : filesystem) key e e' :
  fs !! key = Some e -> same_names fs (<[key := e']> fs).
Proof.
  intros Hk q. unfold path_exists, stat. destruct (tail q); [done | ].
  destruct (decide (str q = key)) as [-> | Hne].
  - by rewrite lookup_insert_eq, Hk.
  - by rewrite lookup_insert_ne.
Qed.


Lemma from_yaml_reads_one_file_witness :
  reference_load (saved_disk (example_blog [] []))
  = reference_load (<["id_rsa" := File "ANOTHER KEY"]>
                      (saved_disk (example_blog [] []))).
Proof.
  apply (from_yaml_reads_one_file Reference.userhome Reference.str_as_int
           Reference.yaml_safe_load "conf/docklift.yml").
  - vm_compute. reflexivity.
  - apply same_names_overwrite with (e := File "PRIVATE KEY").
    vm_compute. reflexivity.
Defined.

(** ** [to_yaml] on a file system that is a tree *)

Lemma hierarchicalb_hierarchical fs : hierarchicalb fs = true -> hierarchical fs.
Proof.
  intros H%bool_decide_eq_true_1 q Hq Hs.
  unfold stat in Hs. destruct (tail q) as [ | x l] eqn:Ht.
  - unfold is_dir, stat, parent. simpl. by rewrite Ht.
  - destruct (fs !! str q) as [e | ] eqn:E; [ | done].
    specialize (H (str q) e E). simpl in H. by rewrite parse_path_str in H.
Qed.

Lemma stat_insert_ne fs p q e :
  str q <> str p -> stat (<[str p := e]> fs) q = stat fs q.
Proof.
  intros Hne. unfold stat. destruct (tail q); [done | ]. by rewrite lookup_insert_ne.
Qed.

Lemma is_dir_exists fs p : is_dir fs p = true -> stat fs p = Some Dir.
Proof. unfold is_dir. by destruct (stat fs p) as [[ | ] | ]. Qed.

(** Making a directory or a file in a directory keeps the tree, the file
    standing where no directory was. *)
Lemma hierarchical_insert fs p e :
  hierarchical fs -> normal p -> is_dir fs (parent p) = true ->
  (e <> Dir -> is_dir fs p = false) ->
  hierarchical (<[str p := e]> fs).
Proof.
  intros Hfs Hp Hpar He q Hq Hs.
  assert (Hold : is_dir fs (parent q) = true).
  { destruct (decide (str q = str p)) as [E | Hne].
    - apply str_inj in E; [by subst | done | done].
    - rewrite stat_insert_ne in Hs by done. by apply Hfs. }
  destruct (decide (str (parent q) = str p)) as [E | Hne].
  - apply str_inj in E; [ | by apply normal_parent | done].
    rewrite E in *. unfold is_dir.
    destruct (decide (tail p = [])) as [Ht | Ht]; [by rewrite stat_top | ].
    rewrite stat_insert_eq by done.
    destruct e as [c | ]; [ | done]. by rewrite He in Hold.
  - unfold is_dir. by rewrite stat_insert_ne.
Qed.

Lemma os_mkdir_hierarchical fs p fs' :
  normal p -> hierarchical fs -> os_mkdir fs p = Ok fs' -> hierarchical fs'.
Proof.
  intros Hp Hfs Hos.
  assert (Hpar : is_dir fs (parent p) = true).
  { unfold os_mkdir in Hos. unfold is_dir.
    by destruct (stat fs (parent p)) as [[ | ] | ]. }
  apply os_mkdir_ok in Hos as (_ & _ & ->). by apply hierarchical_insert.
Qed.

Lemma mkdir_fuel_hierarchical fuel p parents exist_ok fs fs' :
  normal p -> hierarchical fs ->
  mkdir_fuel fuel p parents exist_ok fs = Ok fs' -> hierarchical fs'.
Proof.
  revert p parents exist_ok fs fs'.
  induction fuel as [ | fuel IH]; intros p parents exist_ok fs fs' Hp Hfs;
    cbn [mkdir_fuel]; destruct (os_mkdir fs p) as [fs1 | e] eqn:Hos.
  1, 3: intros [= <-]; by eapply os_mkdir_hierarchical.
  - destruct e; try (destruct (negb exist_ok || negb (is_dir fs p));
                     [done | by intros [= <-]]).
    by destruct (negb parents || bool_decide (parent p = p)).
  - destruct e; try (destruct (negb exist_ok || negb (is_dir fs p));
                     [done | by intros [= <-]]).
    destruct (negb parents || bool_decide (parent p = p)); [done | ].
    destruct (mkdir_fuel fuel (parent p) true true fs) as [fs1 | ] eqn:H1;
      [ | done].
    simpl. intros H2.
    apply IH in H1; [ | by apply normal_parent | done]. by apply IH in H2.
Qed.

(** In a tree, [mkdir(exist_ok=True)] on a directory changes nothing. *)
Lemma mkdir_fuel_existing fuel p parents fs :
  hierarchical fs -> normal p -> is_dir fs p = true ->
  mkdir_fuel fuel p parents true fs = Ok fs.
Proof.
  intros Hfs Hp Hd. pose proof (is_dir_exists fs p Hd) as Hs.
  assert (Hpar : stat fs (parent p) = Some Dir).
  { apply is_dir_exists, Hfs; [done | by rewrite Hs]. }
  destruct fuel; cbn [mkdir_fuel]; unfold os_mkdir; rewrite Hpar, Hs; simpl;
    by rewrite Hd.
Qed.

Lemma open_write_inv fs p fs' :
  open_write fs p = Ok fs' ->
  is_dir fs (parent p) = true /\ is_dir fs p = false
  /\ fs' = <[str p := File ""]> fs.
Proof.
  unfold open_write, is_dir. destruct (stat fs (parent p)) as [[ | ] | ]; try done.
  by destruct (stat fs p) as [[ | ] | ]; try done; intros [= <-].
Qed.

Lemma parent_str_ne p : normal p -> tail p <> [] -> str (parent p) <> str p.
Proof.
  intros Hp Hne E. apply str_inj in E; [ | by apply normal_parent | done].
  by apply parent_fixed in E.
Qed.

Section SavingFurther.

Variable userhome : string -> option string.
Variable str_as_int : string -> option Z.
Variable yaml_emit : bool -> pyval -> string.
Variable yaml_safe_load : string -> result pyval.

Abbreviation to_yaml := (DockLiftConfig.to_yaml yaml_emit).
Abbreviation from_yaml := (DockLiftConfig.from_yaml userhome str_as_int yaml_safe_load).

Lemma to_yaml_ok_inv self path fs fs' :
  to_yaml self path fs = Ok fs' ->
  exists fs1,
    mkdir (parent (Path path)) true true fs = Ok fs1
    /\ tail (Path path) <> []
    /\ is_dir fs1 (parent (Path path)) = true
    /\ is_dir fs1 (Path path) = false
    /\ fs' = <[str (Path path)
               := File (yaml_emit false (sort_keys (DockLiftConfig.model_dump self)))]>
               fs1.
Proof.
  unfold DockLiftConfig.to_yaml.
  destruct (mkdir (parent (Path path)) true true fs) as [fs1 | ]; [ | done]. simpl.
  destruct (open_write fs1 (Path path)) as [fs2 | ] eqn:Hop; [ | done]. simpl.
  intros [= <-]. pose proof (open_write_ok _ _ _ Hop) as [Hne _].
  apply open_write_inv in Hop as (Hpar & Hd & ->).
  exists fs1. unfold write, DockLiftConfig.yaml_dump.
  by rewrite insert_insert_eq.
Qed.

Lemma to_yaml_hierarchical self path fs fs' :
  hierarchical fs -> to_yaml self path fs = Ok fs' -> hierarchical fs'.
Proof.
  intros Hfs (fs1 & Hmk & Hne & Hpar & Hd & ->)%to_yaml_ok_inv.
  pose proof (normal_parse_path path) as Hp. fold (Path path) in Hp.
  apply hierarchical_insert; try done.
  eapply mkdir_fuel_hierarchical; [ | exact Hfs | exact Hmk]. by apply normal_parent.
Qed.

Lemma to_yaml_names_kept self path fs fs' :
  to_yaml self path fs = Ok fs' -> names_kept fs fs'.
Proof.
  intros (fs1 & _ & _ & Hadd & -> & _)%to_yaml_returns q.
  unfold path_exists, stat. destruct (tail q); [done | ].
  destruct (decide (str q = str (Path path))) as [-> | Hne].
  - by rewrite lookup_insert_eq.
  - rewrite lookup_insert_ne by done.
    destruct (Hadd (str q)) as [-> | (-> & _)]; done.
Qed.


(** X11: on a file system that is a tree, [to_yaml] leaves a tree, and what
    it wrote is overwritten by the next call on the path without a trace:
    saving a second configuration gives the file system that saving it alone
    would have given, and saving the same configuration again changes
    nothing. *)
Theorem to_yaml_overwrites c1 c2 path fs fs1 :
  hierarchical fs ->
  to_yaml c1 path fs = Ok fs1 ->
  hierarchical fs1
  /\ to_yaml c2 path fs1 = to_yaml c2 path fs
  /\ to_yaml c1 path fs1 = Ok fs1.
Proof.
  intros Hfs Hsave. pose proof (to_yaml_hierarchical _ _ _ _ Hfs Hsave) as Hfs1.
  split; [done | ].
  pose proof (normal_parse_path path) as Hp. fold (Path path) in Hp.
  apply to_yaml_ok_inv in Hsave as (fsd & Hmk & Hne & Hpar & Hd & E).
  assert (Hpar1 : is_dir fs1 (parent (Path path)) = true).
  { rewrite E. unfold is_dir. rewrite stat_insert_ne by (by apply parent_str_ne).
    exact Hpar. }
  assert (Hself1 : stat fs1 (Path path)
                   = Some (File (yaml_emit false
                                   (sort_keys (DockLiftConfig.model_dump c1))))).
  { rewrite E. by apply stat_insert_eq. }
  assert (Hagain : forall c,
             to_yaml c path fs1
             = Ok (<[str (Path path)
                     := File (yaml_emit false
                                (sort_keys (DockLiftConfig.model_dump c)))]> fsd)).
  { intros c. unfold DockLiftConfig.to_yaml, mkdir.
    rewrite mkdir_fuel_existing; [ | done | by apply normal_parent | done].
    simpl. unfold open_write.
    rewrite (is_dir_exists _ _ Hpar1), Hself1. simpl.
    unfold write, DockLiftConfig.yaml_dump. rewrite E.
    by rewrite !insert_insert_eq. }
  split; [ | by rewrite Hagain, E].
  rewrite Hagain. unfold DockLiftConfig.to_yaml. rewrite Hmk. simpl.
  unfold open_write. rewrite (is_dir_exists _ _ Hpar).
  unfold is_dir in Hd.
  destruct (stat fsd (Path path)) as [[ | ] | ]; try done; simpl;
    unfold write, DockLiftConfig.yaml_dump; by rewrite insert_insert_eq.
Qed.

(** X12: a path that names a directory is refused by both methods:
    [from_yaml] passes its test of existence and fails in [open] with
    [IsADirectoryError], and so does [to_yaml] on a file system that is a
    tree, where [mkdir] finds the parent in place. *)
Theorem directory_path_refused self path fs :
  hierarchical fs ->
  is_dir fs (Path path) = true ->
  from_yaml path fs = Raise (IsADirectoryError (str (Path path)))
  /\ to_yaml self path fs = Raise (IsADirectoryError (str (Path path))).
Proof.
  intros Hfs Hd. pose proof (is_dir_exists _ _ Hd) as Hs.
  pose proof (normal_parse_path path) as Hp. fold (Path path) in Hp.
  assert (Hpar : is_dir fs (parent (Path path)) = true).
  { apply Hfs; [done | by rewrite Hs]. }
  split.
  - unfold DockLiftConfig.from_yaml, path_exists, open_read. by rewrite Hs.
  - unfold DockLiftConfig.to_yaml, mkdir.
    rewrite mkdir_fuel_existing; [ | done | by apply normal_parent | done].
    simpl. unfold open_write. by rewrite (is_dir_exists _ _ Hpar), Hs.
Qed.

End SavingFurther.

(** *** Saving twice on the reference platform *)


Lemma to_yaml_overwrites_witness :
  hierarchical (saved_disk (example_blog [] []))
  /\ DockLiftConfig.to_yaml Reference.yaml_emit (example_blog [("DEBUG", "1")] [])
       "conf/docklift.yml" (saved_disk (example_blog [] []))
     = DockLiftConfig.to_yaml Reference.yaml_emit (example_blog [("DEBUG", "1")] [])
         "conf/docklift.yml" Reference.disk
  /\ DockLiftConfig.to_yaml Reference.yaml_emit (example_blog [] [])
       "conf/docklift.yml" (saved_disk (example_blog [] []))
     = Ok (saved_disk (example_blog [] [])).
Proof.
  apply (to_yaml_overwrites Reference.yaml_emit (example_blog [] [])
           (example_blog [("DEBUG", "1")] []) "conf/docklift.yml" Reference.disk).
  - apply hierarchicalb_hierarchical. vm_compute. reflexivity.
  - vm_compute. reflexivity.
Defined.

Lemma directory_path_refused_witness :
  DockLiftConfig.from_yaml Reference.userhome Reference.str_as_int
    Reference.yaml_safe_load "/home/deploy/" Reference.disk
  = Raise (IsADirectoryError "/home/deploy")
  /\ DockLiftConfig.to_yaml Reference.yaml_emit (example_blog [] [])
       "/home/deploy/" Reference.disk
     = Raise (IsADirectoryError "/home/deploy").
Proof.
  apply (directory_path_refused Reference.userhome Reference.str_as_int
           Reference.yaml_emit Reference.yaml_safe_load (example_blog [] [])
           "/home/deploy/" Reference.disk).
  - apply hierarchicalb_hierarchical. vm_compute. reflexivity.
  - vm_compute. reflexivity.
Defined.

(** ** The dump is plain data *)

Lemma plain_of_jsonable v : plain (to_jsonable v) = true.
Proof.
  induction v as [ | | | | l IH | l IH | d IH] using pyval_deep_ind; try done.
  - simpl. induction IH as [ | x l Hx _ IHl]; simpl; [done | ]. by rewrite Hx, IHl.
  - simpl. induction IH as [ | x l Hx _ IHl]; simpl; [done | ]. by rewrite Hx, IHl.
  - simpl. induction IH as [ | [k x] d Hx _ IHd]; simpl; [done | ].
    simpl in Hx. by rewrite Hx, IHd.
Qed.

Lemma to_jsonable_idempotent v : to_jsonable (to_jsonable v) = to_jsonable v.
Proof. apply plain_to_jsonable, plain_of_jsonable. Qed.

Lemma str_list_plain l : forallb plain (map PStr l) = true.
Proof. by induction l. Qed.

Lemma str_dict_plain (d : list (string * string)) :
  forallb (fun kv => plain (snd kv)) (map (fun kv => (fst kv, PStr (snd kv))) d)
  = true.
Proof. by induction d. Qed.

Lemma service_dump_plain s : plain (ServiceConfig.model_dump s) = true.
Proof.
  destruct s as [i e v p o x]. unfold ServiceConfig.model_dump.
  cbn [ServiceConfig.image ServiceConfig.environment ServiceConfig.volumes
       ServiceConfig.ports ServiceConfig.depends_on ServiceConfig.extra].
  change (PDict (map (fun kv => (fst kv, to_jsonable (snd kv))) x))
    with (to_jsonable (PDict x)).
  pose proof (plain_of_jsonable (PDict x)) as Hx.
  unfold ServiceConfig.dump_str_dict, ServiceConfig.dump_str_list.
  cbn [plain forallb snd].
  rewrite str_dict_plain, !str_list_plain, Hx. by destruct i.
Qed.

(** X13: the value that [to_yaml] hands to [yaml.dump] is plain data for
    every configuration: strings, integers, [None], lists and mappings, and
    no tuple, whatever the extra options of the services hold.  The document
    therefore needs none of the Python tags that [yaml.safe_load] refuses. *)
Theorem dump_is_plain c : plain (DockLiftConfig.model_dump c) = true.
Proof.
  destruct c as [[h u k p e] [n d f x q env deps]].
  unfold DockLiftConfig.model_dump, VPSConfig.model_dump,
    ApplicationConfig.model_dump, ServiceConfig.dump_str_dict.
  cbn [DockLiftConfig.vps DockLiftConfig.application VPSConfig.host
       VPSConfig.user VPSConfig.ssh_key_path VPSConfig.port VPSConfig.email
       ApplicationConfig.name ApplicationConfig.domain
       ApplicationConfig.dockerfile ApplicationConfig.context
       ApplicationConfig.port ApplicationConfig.environment
       ApplicationConfig.dependencies].
  cbn [plain forallb snd]. rewrite str_dict_plain.
  assert (Hdeps : forallb (fun kv => plain (snd kv))
                    (map (fun kv => (fst kv, ServiceConfig.model_dump (snd kv))) deps)
                  = true).
  { induction deps as [ | [name s] deps IH]; [done | ].
    cbn [map forallb fst snd]. by rewrite service_dump_plain, IH. }
  rewrite Hdeps. by destruct e, q.
Qed.

(** ** Saving and loading any configuration *)

Lemma service_dump_jsonable s :
  ServiceConfig.model_dump (jsonable_service s) = ServiceConfig.model_dump s.
Proof.
  destruct s as [i e v p o x]. unfold jsonable_service, ServiceConfig.model_dump.
  cbn [ServiceConfig.image ServiceConfig.environment ServiceConfig.volumes
       ServiceConfig.ports ServiceConfig.depends_on ServiceConfig.extra].
  rewrite map_map.
  rewrite (map_ext _ (fun kv => (fst kv, to_jsonable (snd kv)))); [done | ].
  intros [k w]. simpl. by rewrite to_jsonable_idempotent.
Qed.

Lemma application_dump_jsonable a :
  ApplicationConfig.model_dump (jsonable_application a)
  = ApplicationConfig.model_dump a.
Proof.
  destruct a as [n d f x q env deps].
  unfold jsonable_application, ApplicationConfig.model_dump.
  cbn [ApplicationConfig.name ApplicationConfig.domain
       ApplicationConfig.dockerfile ApplicationConfig.context
       ApplicationConfig.port ApplicationConfig.environment
       ApplicationConfig.dependencies].
  rewrite map_map.
  rewrite (map_ext _ (fun kv => (fst kv, ServiceConfig.model_dump (snd kv))));
    [done | ].
  intros [k s]. simpl. by rewrite service_dump_jsonable.
Qed.

Lemma service_jsonable_unique s :
  service_unique_keys (jsonable_service s) = service_unique_keys s.
Proof.
  destruct s as [i e v p o x]. unfold service_unique_keys, jsonable_service.
  cbn [ServiceConfig.environment ServiceConfig.extra]. f_equal.
  apply (unique_keys_to_jsonable (PDict x)).
Qed.

Lemma service_jsonable_plain s : service_plain (jsonable_service s) = true.
Proof.
  destruct s as [i e v p o x]. unfold service_plain, jsonable_service.
  cbn [ServiceConfig.extra]. apply (plain_of_jsonable (PDict x)).
Qed.

Lemma application_jsonable_unique a :
  application_unique_keys (jsonable_application a) = application_unique_keys a.
Proof.
  destruct a as [n d f x q env deps].
  unfold application_unique_keys, jsonable_application.
  cbn [ApplicationConfig.environment ApplicationConfig.dependencies].
  rewrite keys_map. f_equal.
  induction deps as [ | [k s] deps IH]; [done | ].
  cbn [map forallb fst snd]. by rewrite service_jsonable_unique, IH.
Qed.

Lemma application_jsonable_plain a :
  application_plain (jsonable_application a) = true.
Proof.
  destruct a as [n d f x q env deps]. unfold application_plain, jsonable_application.
  cbn [ApplicationConfig.dependencies].
  induction deps as [ | [k s] deps IH]; [done | ].
  cbn [map forallb fst snd]. by rewrite service_jsonable_plain, IH.
Qed.

Section AnyRoundTrip.

Variable userhome : string -> option string.
Variable str_as_int : string -> option Z.
Variable yaml_emit : bool -> pyval -> string.
Variable yaml_safe_load : string -> result pyval.

(** X14: saving and loading again loses nothing but the difference between a
    tuple and a list.  For every configuration whose mappings have distinct
    keys, with or without tuples among the extra options, when the loader
    reads the written document back as the dumped value and the key path
    validates to [k], [from_yaml] returns a configuration equal to the saved
    one with its extra options in JSON form and [k] as its key path. *)
Theorem save_then_load_jsonable c path fs fs' k :
  config_unique_keys c = true ->
  DockLiftConfig.to_yaml yaml_emit c path fs = Ok fs' ->
  yaml_safe_load (DockLiftConfig.yaml_dump yaml_emit (DockLiftConfig.model_dump c) false)
  = Ok (sort_keys (DockLiftConfig.model_dump c)) ->
  VPSConfig.validate_ssh_key_path userhome fs'
    (VPSConfig.ssh_key_path (DockLiftConfig.vps c)) = Ok k ->
  exists c',
    DockLiftConfig.from_yaml userhome str_as_int yaml_safe_load path fs' = Ok c'
    /\ config_eqb c' (rebuilt k c) = true.
Proof.
  intros Hu Hsave Hload Hkey.
  set (cj := DockLiftConfig.Build (DockLiftConfig.vps c)
               (jsonable_application (DockLiftConfig.application c))).
  assert (Hdump : DockLiftConfig.model_dump cj = DockLiftConfig.model_dump c).
  { unfold DockLiftConfig.model_dump, cj. simpl.
    by rewrite application_dump_jsonable. }
  assert (Huj : config_unique_keys cj = true).
  { unfold config_unique_keys, cj. simpl. by rewrite application_jsonable_unique. }
  assert (Hpj : config_plain cj = true).
  { unfold config_plain, cj. simpl. apply application_jsonable_plain. }
  destruct (config_reloads userhome str_as_int fs' cj k Huj Hpj Hkey)
    as (c' & Hinit & Heq).
  exists c'. split; [ | exact Heq].
  apply to_yaml_returns in Hsave as (fs1 & _ & _ & _ & _ & Hstat & _).
  rewrite (from_yaml_file userhome str_as_int yaml_safe_load path fs' _ Hstat).
  unfold DockLiftConfig.yaml_dump in Hload. rewrite Hload, <- Hdump.
  exact Hinit.
Qed.

End AnyRoundTrip.

Lemma save_then_load_jsonable_witness :
  exists c',
    reference_load
      (saved_disk (example_blog [] [("labels", PTuple [PStr "a"; PStr "b"])]))
    = Ok c'
    /\ config_eqb c'
         (rebuilt "/home/deploy/.ssh/id_rsa"
            (example_blog [] [("labels", PTuple [PStr "a"; PStr "b"])]))
       = true.
Proof.
  apply (save_then_load_jsonable Reference.userhome Reference.str_as_int
           Reference.yaml_emit Reference.yaml_safe_load
           (example_blog [] [("labels", PTuple [PStr "a"; PStr "b"])])
           "conf/docklift.yml" Reference.disk).
  - vm_compute. reflexivity.
  - vm_compute. reflexivity.
  - vm_compute. reflexivity.
  - vm_compute. reflexivity.
Defined.

(** ** When [to_yaml] returns *)




Section Writable.

Variable yaml_emit : bool -> pyval -> string.


End Writable.


(** ** A key path without a home directory *)

(** X16: when the key path names an account whose home directory cannot be
    found, the [RuntimeError] of [expanduser] leaves the validation: both
    [VPSConfig(...)] and [DockLiftConfig(...)] raise it instead of a
    [ValidationError], whatever the other fields hold, so that the errors of
    the other fields are not reported. *)
Theorem unknown_home_escapes_validation userhome str_as_int fs kw vkw v e :
  assoc "vps" kw = Some (PDict vkw) ->
  assoc "ssh_key_path" vkw = Some (PStr v) ->
  expanduser userhome (Path v) = Raise e ->
  e = no_home
  /\ VPSConfig.init userhome str_as_int fs vkw = Raise e
  /\ DockLiftConfig.init userhome str_as_int fs (PDict kw) = Raise e.
Proof.
  intros Hvps Hkey Hexp. pose proof (expanduser_raise _ _ _ Hexp) as ->.
  split; [done | ].
  assert (Hf : VPSConfig.fields userhome str_as_int fs vkw = VRaise no_home).
  { unfold VPSConfig.fields.
    assert (Hk : required vkw "ssh_key_path"
                   (after_validator str_validator
                      (VPSConfig.validate_ssh_key_path userhome fs))
                 = VRaise no_home).
    { unfold required. rewrite Hkey. unfold after_validator. cbn [str_validator].
      unfold VPSConfig.validate_ssh_key_path. by rewrite Hexp. }
    rewrite Hk, vap_raise_r; [done | ].
    by rewrite !raises_vap, !raises_required. }
  split.
  - unfold VPSConfig.init. by rewrite Hf.
  - unfold DockLiftConfig.init, DockLiftConfig.fields, required.
    rewrite Hvps. cbn [model_validator]. by rewrite Hf.
Qed.

Lemma unknown_home_escapes_validation_witness :
  RuntimeError "Could not determine home directory." = no_home
  /\ VPSConfig.init Reference.userhome Reference.str_as_int Reference.disk
       [("ssh_key_path", PStr "~backup/.ssh/id_rsa"); ("port", PStr "ssh")]
     = Raise (RuntimeError "Could not determine home directory.")
  /\ DockLiftConfig.init Reference.userhome Reference.str_as_int Reference.disk
       (PDict [("vps", PDict [("ssh_key_path", PStr "~backup/.ssh/id_rsa");
                              ("port", PStr "ssh")])])
     = Raise (RuntimeError "Could not determine home directory.").
Proof.
  apply (unknown_home_escapes_validation Reference.userhome Reference.str_as_int
           Reference.disk
           [("vps", PDict [("ssh_key_path", PStr "~backup/.ssh/id_rsa");
                           ("port", PStr "ssh")])]
           [("ssh_key_path", PStr "~backup/.ssh/id_rsa"); ("port", PStr "ssh")]
           "~backup/.ssh/id_rsa");
    reflexivity.
Defined.

(** ** Loading, saving and loading again *)

Lemma dict_items_keys {A : Type} (val : pyval -> vres A) d r :
  dict_items val d = VOk r -> keys r = keys d.
Proof.
  revert r. induction d as [ | [k x] d IH]; intros r; cbn [dict_items].
  - by intros [= <-].
  - intros (g & r' & (g0 & a & [= <-] & _ & ->)%vap_ok_inv & Hr & ->)%vap_ok_inv.
    simpl. by rewrite (IH r' Hr).
Qed.

(** What holds of every value of a dict holds of what validation makes of
    it. *)
Lemma dict_items_forallb {A : Type} (val : pyval -> vres A)
    (P : pyval -> bool) (Q : A -> bool) d r :
  (forall x a, P x = true -> val x = VOk a -> Q a = true) ->
  forallb (fun kv => P (snd kv)) d = true ->
  dict_items val d = VOk r ->
  forallb (fun kv => Q (snd kv)) r = true.
Proof.
  intros HPQ. revert r. induction d as [ | [k x] d IH]; intros r; cbn [dict_items].
  - by intros _ [= <-].
  - cbn [forallb snd]. intros [Hx Hd]%andb_prop.
    intros (g & r' & (g0 & a & [= <-] & Ha & ->)%vap_ok_inv & Hr & ->)%vap_ok_inv.
    apply at_loc_ok_inv in Ha. cbn [forallb snd].
    by rewrite (HPQ x a Hx Ha), (IH r' Hd Hr).
Qed.

Lemma optional_dict_inv {A : Type} (val : pyval -> vres A) kw name r :
  optional kw name [] (dict_validator val) = VOk r ->
  (assoc name kw = None /\ r = [])
  \/ exists d, assoc name kw = Some (PDict d) /\ dict_items val d = VOk r.
Proof.
  unfold optional. destruct (assoc name kw) as [v | ].
  - intros H%at_loc_ok_inv. right. destruct v; try done. by eexists.
  - intros [= <-]. by left.
Qed.

Lemma unique_keys_assoc kw k v :
  unique_keys (PDict kw) = true -> assoc k kw = Some v -> unique_keys v = true.
Proof.
  cbn [unique_keys]. intros [_ H]%andb_prop Hk%assoc_elem.
  apply (forallb_elem _ _ _ H Hk).
Qed.

Lemma plain_assoc kw k v :
  plain (PDict kw) = true -> assoc k kw = Some v -> plain v = true.
Proof. cbn [plain]. intros H Hk%assoc_elem. apply (forallb_elem _ _ _ H Hk). Qed.

Lemma ServiceConfig_fields_ok_inv kw s :
  ServiceConfig.fields kw = VOk s ->
  optional kw "environment" [] (dict_validator str_validator)
  = VOk (ServiceConfig.environment s)
  /\ optional kw "extra" [] (dict_validator any_validator)
     = VOk (ServiceConfig.extra s).
Proof.
  unfold ServiceConfig.fields. intros H.
  apply vap_ok_inv in H as (g6 & x & H & Hx & ->).
  apply vap_ok_inv in H as (g5 & o & H & _ & ->).
  apply vap_ok_inv in H as (g4 & p & H & _ & ->).
  apply vap_ok_inv in H as (g3 & v & H & _ & ->).
  apply vap_ok_inv in H as (g2 & e & H & He & ->).
  apply vap_ok_inv in H as (g1 & i & H & _ & ->).
  by injection H as <-.
Qed.

Lemma service_validated_unique v s :
  unique_keys v = true ->
  model_validator "ServiceConfig" ServiceConfig.fields v = VOk s ->
  service_unique_keys s = true.
Proof.
  destruct v as [ | | | | | | kw]; try done. cbn [model_validator].
  intros Hu [He Hx]%ServiceConfig_fields_ok_inv. unfold service_unique_keys.
  apply andb_true_intro. split.
  - apply bool_decide_eq_true_2.
    apply optional_dict_inv in He as [[_ ->] | (d & Hd & He)]; [constructor | ].
    rewrite (dict_items_keys _ _ _ He).
    pose proof (unique_keys_assoc _ _ _ Hu Hd) as Hud. cbn [unique_keys] in Hud.
    apply andb_prop in Hud as [Hud _]. by apply bool_decide_eq_true_1 in Hud.
  - apply optional_dict_inv in Hx as [[_ ->] | (d & Hd & Hx)]; [done | ].
    rewrite dict_items_any in Hx. injection Hx as <-.
    by apply (unique_keys_assoc _ _ _ Hu Hd).
Qed.

Lemma service_validated_plain v s :
  plain v = true ->
  model_validator "ServiceConfig" ServiceConfig.fields v = VOk s ->
  service_plain s = true.
Proof.
  destruct v as [ | | | | | | kw]; try done. cbn [model_validator].
  intros Hp [_ Hx]%ServiceConfig_fields_ok_inv. unfold service_plain.
  apply optional_dict_inv in Hx as [[_ ->] | (d & Hd & Hx)]; [done | ].
  rewrite dict_items_any in Hx. injection Hx as <-.
  by apply (plain_assoc _ _ _ Hp Hd).
Qed.

Section LoadSaveLoad.

Variable userhome : string -> option string.
Variable str_as_int : string -> option Z.
Variable yaml_emit : bool -> pyval -> string.
Variable yaml_safe_load : string -> result pyval.

Lemma application_validated_unique kw a :
  unique_keys (PDict kw) = true ->
  ApplicationConfig.fields str_as_int kw = VOk a ->
  application_unique_keys a = true.
Proof.
  intros Hu (_ & _ & _ & He & Hs)%ApplicationConfig_fields_ok_inv.
  unfold application_unique_keys.
  apply andb_true_intro. split; [apply andb_true_intro; split | ].
  - apply bool_decide_eq_true_2.
    apply optional_dict_inv in He as [[_ ->] | (d & Hd & He)]; [constructor | ].
    rewrite (dict_items_keys _ _ _ He).
    pose proof (unique_keys_assoc _ _ _ Hu Hd) as Hud. cbn [unique_keys] in Hud.
    apply andb_prop in Hud as [Hud _]. by apply bool_decide_eq_true_1 in Hud.
  - apply bool_decide_eq_true_2.
    apply optional_dict_inv in Hs as [[_ ->] | (d & Hd & Hs)]; [constructor | ].
    rewrite (dict_items_keys _ _ _ Hs).
    pose proof (unique_keys_assoc _ _ _ Hu Hd) as Hud. cbn [unique_keys] in Hud.
    apply andb_prop in Hud as [Hud _]. by apply bool_decide_eq_true_1 in Hud.
  - apply optional_dict_inv in Hs as [[_ ->] | (d & Hd & Hs)]; [done | ].
    pose proof (unique_keys_assoc _ _ _ Hu Hd) as Hud. cbn [unique_keys] in Hud.
    apply andb_prop in Hud as [_ Hud].
    by apply (dict_items_forallb _ unique_keys service_unique_keys d _
                service_validated_unique Hud Hs).
Qed.

Lemma application_validated_plain kw a :
  plain (PDict kw) = true ->
  ApplicationConfig.fields str_as_int kw = VOk a ->
  application_plain a = true.
Proof.
  intros Hp (_ & _ & _ & _ & Hs)%ApplicationConfig_fields_ok_inv.
  unfold application_plain.
  apply optional_dict_inv in Hs as [[_ ->] | (d & Hd & Hs)]; [done | ].
  pose proof (plain_assoc _ _ _ Hp Hd) as Hpd. cbn [plain] in Hpd.
  by apply (dict_items_forallb _ plain service_plain d _
              service_validated_plain Hpd Hs).
Qed.

(** What a configuration inherits from the data it was built from. *)
Lemma init_inherits fs data c :
  DockLiftConfig.init userhome str_as_int fs data = Ok c ->
  (unique_keys data = true -> config_unique_keys c = true)
  /\ (plain data = true -> config_plain c = true)
  /\ exists v, VPSConfig.validate_ssh_key_path userhome fs v
               = Ok (VPSConfig.ssh_key_path (DockLiftConfig.vps c)).
Proof.
  destruct data as [ | | | | | | kw]; try done. cbn [DockLiftConfig.init].
  intros Hf%construct_ok_inv. unfold DockLiftConfig.fields in Hf.
  apply vap_ok_inv in Hf as (g2 & a & Hf & Ha & ->).
  apply vap_ok_inv in Hf as (g1 & v & Hf & Hv & ->).
  injection Hf as <-.
  apply required_model_ok_inv in Ha as (akw & Hakw & Ha).
  apply required_model_ok_inv in Hv as (vkw & Hvkw & Hv).
  unfold config_unique_keys, config_plain. simpl.
  split; [ | split].
  - intros Hu. eapply application_validated_unique; [ | exact Ha].
    by apply (unique_keys_assoc _ _ _ Hu Hakw).
  - intros Hp. eapply application_validated_plain; [ | exact Ha].
    by apply (plain_assoc _ _ _ Hp Hakw).
  - apply VPSConfig_fields_ok_inv in Hv as (k & _ & Hk & _). by exists k.
Qed.

(** X17: a configuration that was loaded is saved and loaded again without
    change.  When the loader read plain data whose mappings have distinct
    keys, [from_yaml] returned [c], [to_yaml] saved [c] to any path, and the
    loader reads the written document back as the dumped value, then
    [from_yaml] on the new file returns a configuration equal to [c], the
    key path included, home directories being absolute. *)
Theorem load_save_load src path fs fs' text data c :
  absolute_homes userhome ->
  stat fs (Path src) = Some (File text) ->
  yaml_safe_load text = Ok data ->
  unique_keys data = true ->
  plain data = true ->
  DockLiftConfig.from_yaml userhome str_as_int yaml_safe_load src fs = Ok c ->
  DockLiftConfig.to_yaml yaml_emit c path fs = Ok fs' ->
  yaml_safe_load (DockLiftConfig.yaml_dump yaml_emit (DockLiftConfig.model_dump c) false)
  = Ok (sort_keys (DockLiftConfig.model_dump c)) ->
  exists c',
    DockLiftConfig.from_yaml userhome str_as_int yaml_safe_load path fs' = Ok c'
    /\ config_eqb c' c = true.
Proof.
  intros Hhomes Hstat Hdata Hu Hp Hload Hsave Hcodec.
  rewrite (from_yaml_file userhome str_as_int yaml_safe_load src fs _ Hstat),
    Hdata in Hload.
  apply init_inherits in Hload as (Huc & Hpc & v & Hv).
  assert (Hk : VPSConfig.validate_ssh_key_path userhome fs'
                 (VPSConfig.ssh_key_path (DockLiftConfig.vps c))
               = Ok (VPSConfig.ssh_key_path (DockLiftConfig.vps c))).
  { apply validate_ssh_key_path_ok_inv in Hv as (p & Hexp & Hex & ->).
    assert (Hn : normal p).
    { eapply normal_expanduser; [ | exact Hexp]. apply normal_parse_path. }
    apply validate_ssh_key_path_found.
    - unfold Path. rewrite parse_path_str by done.
      by eapply expanduser_idempotent.
    - by apply (to_yaml_names_kept _ _ _ _ _ Hsave). }
  destruct (config_reloads userhome str_as_int fs' c _ (Huc Hu) (Hpc Hp) Hk)
    as (c' & Hinit & Heq).
  exists c'. split.
  - apply to_yaml_returns in Hsave as (fs1 & _ & _ & _ & _ & Hfile & _).
    rewrite (from_yaml_file userhome str_as_int yaml_safe_load path fs' _ Hfile).
    unfold DockLiftConfig.yaml_dump in Hcodec. rewrite Hcodec. exact Hinit.
  - by destruct c as [[h u k q e] a].
Qed.

End LoadSaveLoad.

Lemma load_save_load_witness :
  exists c',
    DockLiftConfig.from_yaml Reference.userhome Reference.str_as_int
      Reference.yaml_safe_load "staging/docklift.yml"
      (saved_beside (example_blog [("DEBUG", "1")] [("restart", PStr "always")])
         (saved_disk (example_blog [("DEBUG", "1")] [("restart", PStr "always")])))
    = Ok c'
    /\ config_eqb c' (example_blog [("DEBUG", "1")] [("restart", PStr "always")])
       = true.
Proof.
  apply (load_save_load Reference.userhome Reference.str_as_int
           Reference.yaml_emit Reference.yaml_safe_load
           "conf/docklift.yml" "staging/docklift.yml"
           (saved_disk (example_blog [("DEBUG", "1")] [("restart", PStr "always")]))
           (saved_beside (example_blog [("DEBUG", "1")] [("restart", PStr "always")])
              (saved_disk (example_blog [("DEBUG", "1")] [("restart", PStr "always")])))
           (DockLiftConfig.yaml_dump Reference.yaml_emit
              (DockLiftConfig.model_dump
                 (example_blog [("DEBUG", "1")] [("restart", PStr "always")])) false)
           (sort_keys (DockLiftConfig.model_dump
                         (example_blog [("DEBUG", "1")] [("restart", PStr "always")])))).
  - intros name home. unfold Reference.userhome.
    destruct (String.eqb name ""); [ | done]. by intros [= <-].
  - vm_compute. reflexivity.
  - vm_compute. reflexivity.
  - vm_compute. reflexivity.
  - vm_compute. reflexivity.
  - vm_compute. reflexivity.
  - vm_compute. reflexivity.
  - vm_compute. reflexivity.
Defined.
